(** * date-mirror: the filename/frontmatter date synchroniser of [src/main.ts]

    A shallow embedding of the core of the Obsidian plugin: the
    format-to-pattern compiler, the date extractor, the date formatter,
    the filename rewriter and the two event handlers, together with the
    fragment of the JavaScript string and regular-expression primitives
    they call. *)

From Stdlib Require Import ZArith Ascii String List Lia Bool.
From stdpp Require Import base option list strings gmap sorting.

Local Open Scope char_scope.
Local Open Scope Z_scope.
Local Open Scope nat_scope.

(** ** JavaScript strings

    A JavaScript string is a sequence of code units; the embedding takes
    it as a list of characters.  Every character that the plugin treats
    specially (digits, the token letters, the characters of the pattern
    syntax, the dollar sign) is an ASCII character.  [str] reads a
    literal. *)

Abbreviation jsstring := (list ascii).

Definition str (s : string) : jsstring := String.list_ascii_of_string s.

Fixpoint starts_with (pat s : jsstring) : bool :=
  match pat, s with
  | [], _ => true
  | _ :: _, [] => false
  | p :: pat', c :: s' => Ascii.eqb p c && starts_with pat' s'
  end.

Definition is_digit (c : ascii) : bool :=
  match Ascii.is_nat c with Some _ => true | None => false end.

(** ** [String.prototype.replace] with a global literal pattern

    [s.replace(/YYYY/g, rep)] scans [s] from the left and replaces the
    non-overlapping occurrences of the literal text.  [skip] counts the
    characters of an occurrence that the scan still has to step over. *)

Fixpoint replace_all_from (pat rep : jsstring) (skip : nat) (s : jsstring)
  : jsstring :=
  match s with
  | [] => []
  | c :: s' =>
      match skip with
      | S k => replace_all_from pat rep k s'
      | O =>
          if starts_with pat s
          then rep ++ replace_all_from pat rep (length pat - 1) s'
          else c :: replace_all_from pat rep 0 s'
      end
  end.

Definition replace_all (pat rep s : jsstring) : jsstring :=
  replace_all_from pat rep 0 s.

(** ** createDatePatternFromFormat (main.ts, lines 96-110) *)

(** The class [[.*+?^${}()|[\]\\]] of line 98. *)
Definition is_regex_special (c : ascii) : bool :=
  existsb (Ascii.eqb c) (str ".*+?^${}()|[]\").

(** [format.replace(/[.*+?^${}()|[\]\\]/g, '\\$&')]: every character of
    the class is prefixed with a backslash. *)
Definition escape_char (c : ascii) : jsstring :=
  if is_regex_special c then ["\"; c] else [c].

Definition escape_regex (format : jsstring) : jsstring :=
  flat_map escape_char format.

(** The chain of [replace] calls of lines 101-107. *)
Definition substitute_tokens (pattern : jsstring) : jsstring :=
  let pattern := replace_all (str "YYYY") (str "\d{4}") pattern in
  let pattern := replace_all (str "YY") (str "\d{2}") pattern in
  let pattern := replace_all (str "MM") (str "\d{2}") pattern in
  let pattern := replace_all (str "M") (str "\d{1,2}") pattern in
  let pattern := replace_all (str "DD") (str "\d{2}") pattern in
  let pattern := replace_all (str "D") (str "\d{1,2}") pattern in
  pattern.

(** The text handed to [new RegExp]. *)
Definition date_pattern_source (format : jsstring) : jsstring :=
  let pattern := escape_regex format in
  substitute_tokens pattern.

(** ** Regular expressions

    The patterns that [createDatePatternFromFormat] builds use three
    constructs only: an ordinary character, an escaped syntax character
    and a digit class with a counted repetition.  [read_atoms] reads this
    fragment of the pattern syntax and answers [None] outside it, so an
    unescaped syntax character is never taken for a literal; the
    compiler never leaves the fragment ([compile_tokens] below). *)

Inductive atom :=
  | AChar (c : ascii)
  | ADigits (lo hi : nat).

(** The syntax characters of the pattern language (ECMAScript,
    SyntaxCharacter): outside a class each of them has a meaning of its
    own and stands for itself only after a backslash. *)
Definition is_syntax_character (c : ascii) : bool :=
  match c with
  | "^" | "$" | "\" | "." | "*" | "+" | "?"
  | "(" | ")" | "[" | "]" | "{" | "}" | "|" => true
  | _ => false
  end.

Abbreviation regex := (list atom).

Definition digit_value (c : ascii) : option nat := Ascii.is_nat c.

(** One atom at the head of the pattern text, with its width. *)
Definition read_atom (p : jsstring) : option (atom * nat) :=
  match p with
  | [] => None
  | c :: p1 =>
      if Ascii.eqb c "\" then
        match p1 with
        | [] => None
        | e :: p2 =>
            if is_syntax_character e then Some (AChar e, 2)
            else if Ascii.eqb e "d" then
              match p2 with
              | b :: n :: p3 =>
                  if Ascii.eqb b "{" then
                    match digit_value n, p3 with
                    | Some lo, k :: p4 =>
                        if Ascii.eqb k "}" then Some (ADigits lo lo, 5)
                        else if Ascii.eqb k "," then
                          match p4 with
                          | m :: k' :: _ =>
                              match digit_value m with
                              | Some hi =>
                                  if Ascii.eqb k' "}"
                                  then Some (ADigits lo hi, 7) else None
                              | None => None
                              end
                          | _ => None
                          end
                        else None
                    | _, _ => None
                    end
                  else None
              | _ => None
              end
            else None
        end
      else if is_syntax_character c then None
      else Some (AChar c, 1)
  end.

Fixpoint read_atoms (skip : nat) (p : jsstring) : option regex :=
  match p with
  | [] => Some []
  | _ :: p' =>
      match skip with
      | S k => read_atoms k p'
      | O =>
          match read_atom p with
          | Some (a, n) =>
              match read_atoms (n - 1) p' with
              | Some r => Some (a :: r)
              | None => None
              end
          | None => None
          end
      end
  end.

(** ** Matching

    A backtracking matcher with the priorities of the JavaScript engine:
    a counted repetition is greedy, and the leftmost start wins. *)

Definition all_digits (s : jsstring) : bool := forallb is_digit s.

Fixpoint first_some {A} (f : nat -> option A) (ks : list nat) : option A :=
  match ks with
  | [] => None
  | k :: ks' => match f k with Some r => Some r | None => first_some f ks' end
  end.

(** The repetition counts of [\d{lo,hi}], greedy first. *)
Definition counts (lo hi : nat) : list nat := rev (seq lo (S hi - lo)).

(** The length of the match of [r] that starts at the head of [s]. *)
Fixpoint match_here (r : regex) (s : jsstring) : option nat :=
  match r with
  | [] => Some 0
  | AChar c :: r' =>
      match s with
      | x :: s' =>
          if Ascii.eqb x c then S <$> match_here r' s' else None
      | [] => None
      end
  | ADigits lo hi :: r' =>
      first_some
        (fun k =>
           if (length (take k s) =? k) && all_digits (take k s)
           then Nat.add k <$> match_here r' (drop k s)
           else None)
        (counts lo hi)
  end.

(** [RegExp.prototype.exec] for a pattern without flags: the index and
    the length of the first match. *)
Fixpoint regex_exec (r : regex) (s : jsstring) : option (nat * nat) :=
  match match_here r s with
  | Some n => Some (0, n)
  | None =>
      match s with
      | [] => None
      | _ :: s' =>
          match regex_exec r s' with
          | Some (i, n) => Some (S i, n)
          | None => None
          end
      end
  end.

(** [r.test(s)] *)
Definition regex_test (r : regex) (s : jsstring) : bool :=
  match regex_exec r s with Some _ => true | None => false end.

(** [s.match(r)[0]] *)
Definition regex_match0 (r : regex) (s : jsstring) : option jsstring :=
  match regex_exec r s with
  | Some (i, n) => Some (take n (drop i s))
  | None => None
  end.

(** ** [String.prototype.replace] with a pattern without the global flag

    Only the first match is replaced.  The replacement text is a
    template: [$$] stands for a dollar sign, [$&] for the matched text,
    [$`] for the text before the match and [$'] for the text after it.
    The compiled patterns have no capture groups, so [$1] and the like
    stand for themselves. *)

Fixpoint expand_replacement (before matched after : jsstring)
    (pending : bool) (template : jsstring) : jsstring :=
  match template with
  | [] => if pending then ["$"] else []
  | c :: t =>
      if pending then
        if Ascii.eqb c "$" then
          "$" :: expand_replacement before matched after false t
        else if Ascii.eqb c "&" then
          matched ++ expand_replacement before matched after false t
        else if Ascii.eqb c "`" then
          before ++ expand_replacement before matched after false t
        else if Ascii.eqb c "'" then
          after ++ expand_replacement before matched after false t
        else "$" :: c :: expand_replacement before matched after false t
      else if Ascii.eqb c "$" then
        expand_replacement before matched after true t
      else c :: expand_replacement before matched after false t
  end.

Definition string_replace (r : regex) (replacement s : jsstring) : jsstring :=
  match regex_exec r s with
  | Some (i, n) =>
      let before := take i s in
      let matched := take n (drop i s) in
      let after := drop (i + n) s in
      before ++ expand_replacement before matched after false replacement
             ++ after
  | None => s
  end.

(** ** Values stored in frontmatter

    The frontmatter mapping holds primitive values.  A number is an IEEE
    754 double; the ones that occur here are the results of [parseInt]
    on a run of digits: a double whose value is an integer, [JNum], or
    positive infinity. *)

Inductive JsValue :=
  | JUndefined
  | JNull
  | JBool (b : bool)
  | JNum (n : Z)
  | JInfinity
  | JStr (s : jsstring).

Definition js_truthy (v : JsValue) : bool :=
  match v with
  | JUndefined | JNull => false
  | JBool b => b
  | JNum n => negb (n =? 0)%Z
  | JInfinity => true
  | JStr s => match s with [] => false | _ => true end
  end.

#[global] Instance JsValue_eq_dec : EqDecision JsValue.
Proof. solve_decision. Defined.

(** [a === b] on primitive values. *)
Definition js_strict_eq (a b : JsValue) : bool := bool_decide (a = b).

Abbreviation Frontmatter := (gmap jsstring JsValue).

(** [frontmatter[key]]: a missing key reads as [undefined]. *)
Definition fm_get (fm : Frontmatter) (key : jsstring) : JsValue :=
  default JUndefined (fm !! key).

(** ** Calendar dates and the token vocabulary of a date format *)

Record CalendarDate := mkDate { year : Z; month : Z; day : Z }.

#[global] Instance CalendarDate_eq_dec : EqDecision CalendarDate.
Proof. solve_decision. Defined.

Definition is_leap_year (y : Z) : bool :=
  ((y mod 4 =? 0) && negb (y mod 100 =? 0) || (y mod 400 =? 0))%Z.

Definition days_in_month (y m : Z) : Z :=
  (if m =? 2 then (if is_leap_year y then 29 else 28)
   else if (m =? 4) || (m =? 6) || (m =? 9) || (m =? 11) then 30
   else 31)%Z.

Definition valid_date (d : CalendarDate) : bool :=
  ((1 <=? month d) && (month d <=? 12) &&
   (1 <=? day d) && (day d <=? days_in_month (year d) (month d)))%Z.

(** A moment object is a date or the invalid moment. *)
Inductive Moment :=
  | MValid (d : CalendarDate)
  | MInvalid.

Inductive token :=
  | TYYYY | TYY | TMM | TM | TDD | TD
  | TLit (c : ascii).

(** The token at the head of a format and its width, longest first. *)
Definition next_token (f : jsstring) : token * nat :=
  if starts_with (str "YYYY") f then (TYYYY, 4)
  else if starts_with (str "YY") f then (TYY, 2)
  else if starts_with (str "MM") f then (TMM, 2)
  else if starts_with (str "M") f then (TM, 1)
  else if starts_with (str "DD") f then (TDD, 2)
  else if starts_with (str "D") f then (TD, 1)
  else match f with
       | c :: _ => (TLit c, 1)
       | [] => (TLit "000", 1)
       end.

Fixpoint tokens_from (skip : nat) (f : jsstring) : list token :=
  match f with
  | [] => []
  | _ :: f' =>
      match skip with
      | S k => tokens_from k f'
      | O => let '(t, n) := next_token f in t :: tokens_from (n - 1) f'
      end
  end.

Definition tokenize (f : jsstring) : list token := tokens_from 0 f.

(** What each token becomes in the text of the pattern. *)
Definition token_source (t : token) : jsstring :=
  match t with
  | TYYYY => str "\d{4}"
  | TYY | TMM | TDD => str "\d{2}"
  | TM | TD => str "\d{1,2}"
  | TLit c => escape_char c
  end.

(** What each token becomes in the compiled pattern. *)
Definition atom_of_token (t : token) : atom :=
  match t with
  | TYYYY => ADigits 4 4
  | TYY | TMM | TDD => ADigits 2 2
  | TM | TD => ADigits 1 2
  | TLit c => AChar c
  end.

(** ** The date library (moment.js)

    The plugin calls [window.moment] for rendering and for parsing.  The
    library is not part of the repository.  Rendering and strict parsing
    are modelled for the token vocabulary of the specification: YYYY, YY,
    MM, M, DD, D and literal characters.  The library has more tokens
    (longer runs of these letters, other letters, text in brackets); the
    model agrees with it on the formats whose literals are neither
    letters nor the library's escape characters and in which no two
    tokens of one field stand side by side ([literal_ok] and
    [no_repeated_field] below); the examples and the
    statements that depend on what the library does keep to those.
    Where the specification is silent (two-digit years, fields
    that the format does not name) the model follows the documented
    behaviour of the library.  The permissive parse [moment(value)] is
    left open, as a parameter of the handlers. *)

Definition digit_char (n : N) : ascii := ascii_of_N (48 + n).

Fixpoint decimal_digits (fuel : nat) (n : N) (acc : jsstring) : jsstring :=
  match fuel with
  | O => acc
  | S fuel' =>
      let acc' := digit_char (n mod 10) :: acc in
      if (n / 10 =? 0)%N then acc' else decimal_digits fuel' (n / 10) acc'
  end.

(** The decimal digits of a natural number. *)
Definition decimal (n : N) : jsstring :=
  decimal_digits (S (N.size_nat n)) n [].

(** Modelled from the spec: an unpadded numeric field (spec 4.3). *)
Definition number_to_string (z : Z) : jsstring :=
  (if (z <? 0)%Z then ["-"] else []) ++ decimal (Z.abs_N z).

(** Modelled from the spec: a zero-padded numeric field (spec 4.3),
    padded as the library's [zeroFill(number, targetLength)] does. *)
Definition zeroFill (number : Z) (targetLength : nat) : jsstring :=
  let absNumber := decimal (Z.abs_N number) in
  (if (number <? 0)%Z then ["-"] else [])
    ++ repeat "0" (targetLength - length absNumber) ++ absNumber.

(** Modelled from the spec: the Date Formatter's token substitution
    (spec 4.3); the rendering function of moment.js is not under src/.
    Year, month and day placeholders become zero-padded or unpadded
    numbers and every other character is kept. *)
Definition render_token (d : CalendarDate) (t : token) : jsstring :=
  match t with
  | TYYYY => zeroFill (year d) 4
  | TYY => zeroFill (Z.rem (year d) 100) 2
  | TMM => zeroFill (month d) 2
  | TM => number_to_string (month d)
  | TDD => zeroFill (day d) 2
  | TD => number_to_string (day d)
  | TLit c => [c]
  end.

Definition render_tokens (d : CalendarDate) (ts : list token) : jsstring :=
  flat_map (render_token d) ts.

(** Modelled from the spec: [moment.format(fmt)] (spec 4.3), which is
    not under src/; an invalid moment renders as the library's fixed
    text. *)
Definition moment_format (m : Moment) (fmt : jsstring) : jsstring :=
  match m with
  | MValid d => render_tokens d (tokenize fmt)
  | MInvalid => str "Invalid date"
  end.

(** The integer that a run of decimal digits denotes. *)
Definition parse_digits (s : jsstring) : Z :=
  fold_left
    (fun acc c => (10 * acc + Z.of_nat (default 0%nat (digit_value c)))%Z) s 0%Z.

(** The double nearest to a non-negative integer, as an integer: below
    2^53 the integer itself, above it the 53 leading bits rounded to
    nearest, a tie going to the even significand. *)
Definition round_to_double (n : Z) : Z :=
  (if n <? 2 ^ 53 then n
   else
     let e := Z.log2 n - 52 in
     let q := n / 2 ^ e in
     let r := n mod 2 ^ e in
     let half := 2 ^ (e - 1) in
     let q' := if (half <? r) || ((r =? half) && Z.odd q) then q + 1 else q in
     q' * 2 ^ e)%Z.

(** The number value of a non-negative integer: what rounds to 2^1024 or
    more is positive infinity. *)
Definition number_of_integer (n : Z) : JsValue :=
  let v := round_to_double n in
  if (v <? 2 ^ 1024)%Z then JNum v else JInfinity.

(** [parseInt(s, 10)] on a run of decimal digits, the only texts that
    the plugin hands to it (main.ts, lines 159-161): the number value of
    the integer that the digits denote.  The engine of the host converts
    all the digits (the language allows an engine to take the digits
    after the twentieth as zeros). *)
Definition parseInt (s : jsstring) : JsValue :=
  number_of_integer (parse_digits s).

(** The fields a strict parse has read so far. *)
Record Fields := mkFields {
  f_year : option Z; f_month : option Z; f_day : option Z }.

Definition no_fields : Fields := mkFields None None None.

(** Exactly [k] digits at the head of [s]. *)
Definition read_exact (k : nat) (s : jsstring) : option (jsstring * jsstring) :=
  if (length (take k s) =? k) && all_digits (take k s)
  then Some (take k s, drop k s) else None.

(** One or two digits at the head of [s], as many as there are. *)
Definition read_1to2 (s : jsstring) : option (jsstring * jsstring) :=
  match read_exact 2 s with
  | Some r => Some r
  | None => read_exact 1 s
  end.

(** Modelled from the spec: the reading of a two-digit year, on which the
    spec is silent; the library's [parseTwoDigitYear] takes 69-99 as
    1969-1999 and 00-68 as 2000-2068. *)
Definition parseTwoDigitYear (n : Z) : Z :=
  (n + (if 68 <? n then 1900 else 2000))%Z.

Definition set_year (y : Z) (a : Fields) : Fields :=
  mkFields (Some y) (f_month a) (f_day a).
Definition set_month (m : Z) (a : Fields) : Fields :=
  mkFields (f_year a) (Some m) (f_day a).
Definition set_day (d : Z) (a : Fields) : Fields :=
  mkFields (f_year a) (f_month a) (Some d).

(** Modelled from the spec: one token of the format against the head of
    the input (spec 4.2, strict: the padded tokens take exactly their
    width, the unpadded ones one or two digits, a literal itself). *)
Definition parse_token (t : token) (s : jsstring) (a : Fields)
  : option (jsstring * Fields) :=
  match t with
  | TYYYY =>
      '(ds, rest) ← read_exact 4 s; Some (rest, set_year (parse_digits ds) a)
  | TYY =>
      '(ds, rest) ← read_exact 2 s;
      Some (rest, set_year (parseTwoDigitYear (parse_digits ds)) a)
  | TMM =>
      '(ds, rest) ← read_exact 2 s; Some (rest, set_month (parse_digits ds) a)
  | TM =>
      '(ds, rest) ← read_1to2 s; Some (rest, set_month (parse_digits ds) a)
  | TDD =>
      '(ds, rest) ← read_exact 2 s; Some (rest, set_day (parse_digits ds) a)
  | TD =>
      '(ds, rest) ← read_1to2 s; Some (rest, set_day (parse_digits ds) a)
  | TLit c =>
      match s with
      | x :: rest => if Ascii.eqb x c then Some (rest, a) else None
      | [] => None
      end
  end.

(** Modelled from the spec: the tokens in order, each at the head of what
    the previous one left; nothing may be left over at the end. *)
Fixpoint parse_tokens (ts : list token) (s : jsstring) (a : Fields)
  : option Fields :=
  match ts with
  | [] => match s with [] => Some a | _ :: _ => None end
  | t :: ts' =>
      match parse_token t s a with
      | Some (rest, a') => parse_tokens ts' rest a'
      | None => None
      end
  end.

(** Modelled from the spec: the fields that the input did not give, on
    which the spec is silent.  As in the library, the leading ones come
    from the current date and the others are the first month and the
    first day; an input that gave no field at all is rejected. *)
Definition resolve_fields (today : CalendarDate) (a : Fields)
  : option CalendarDate :=
  match f_year a, f_month a, f_day a with
  | None, None, None => None
  | Some y, m, d => Some (mkDate y (default 1%Z m) (default 1%Z d))
  | None, Some m, d => Some (mkDate (year today) m (default 1%Z d))
  | None, None, Some d => Some (mkDate (year today) (month today) d)
  end.

(** Modelled from the spec: [moment(text, fmt, true)], the strict parse
    of spec 4.2 (the parser of moment.js is not under src/): the text
    must match the format exactly and name a date that exists. *)
Definition moment_strict (today : CalendarDate) (text fmt : jsstring) : Moment :=
  match parse_tokens (tokenize fmt) text no_fields with
  | Some a =>
      match resolve_fields today a with
      | Some d => if valid_date d then MValid d else MInvalid
      | None => MInvalid
      end
  | None => MInvalid
  end.

(** ** Exceptions

    [new RegExp] raises on a malformed pattern and the methods of the
    plugin let the exception through.  [Throw] is that outcome; it also
    stands for a pattern outside the fragment above. *)

Inductive result (A : Type) :=
  | Ok (a : A)
  | Throw.
Arguments Ok {A} a.
Arguments Throw {A}.

Definition and_then {A B} (r : result A) (k : A -> result B) : result B :=
  match r with Ok a => k a | Throw => Throw end.

Notation "'let!' x ':=' r 'in' k" := (and_then r (fun x => k))
  (at level 10, x name, r at level 100, k at level 200).

(** [new RegExp(source)] *)
Definition RegExp_new (source : jsstring) : result regex :=
  match read_atoms 0 source with Some r => Ok r | None => Throw end.

(** ** The plugin (class DateMirror) *)

Record DateMirrorSettings := mkSettings {
  dateProperty : jsstring;
  dateFormat : jsstring }.

Definition DEFAULT_SETTINGS : DateMirrorSettings :=
  mkSettings (str "DEFAULT") (str "YYYY-MM-DD").

(** What [loadData] returns: the saved keys, each possibly absent. *)
Record SavedData := mkSaved {
  saved_dateProperty : option jsstring;
  saved_dateFormat : option jsstring }.

(** [Object.assign({}, DEFAULT_SETTINGS, await this.loadData())] *)
Definition loadSettings (data : option SavedData) : DateMirrorSettings :=
  match data with
  | None => DEFAULT_SETTINGS
  | Some s =>
      mkSettings
        (default (dateProperty DEFAULT_SETTINGS) (saved_dateProperty s))
        (default (dateFormat DEFAULT_SETTINGS) (saved_dateFormat s))
  end.

(** The part of a [TFile] that the handlers read. *)
Record TFile := mkFile {
  parent_path : option jsstring;
  basename : jsstring;
  extension : jsstring }.

(** The file after the host has carried out the rename: the new path
    splits into the same folder, the new name and the same extension. *)
Definition renamed (file : TFile) (newName : jsstring) : TFile :=
  mkFile (parent_path file) newName (extension file).

Definition is_integer_text (s : jsstring) : bool :=
  match s with [] => false | _ :: _ => all_digits s end.

(** main.ts, lines 96-110 *)
Definition createDatePatternFromFormat (format : jsstring) : result regex :=
  RegExp_new (date_pattern_source format).

Section DateMirror.

(** The host supplies the clock and [window.moment(value)], the
    permissive parse of a frontmatter value; both are left open. *)
Variable today : CalendarDate.
Variable moment : JsValue -> Moment.

Variable settings : DateMirrorSettings.

(** main.ts, lines 80-90 *)
Definition replaceDateInFilename (filename newDate : jsstring)
  : result jsstring :=
  let! datePattern := createDatePatternFromFormat (dateFormat settings) in
  if regex_test datePattern filename
  then Ok (string_replace datePattern newDate filename)
  else Ok filename.

(** main.ts, lines 134-150; [None] is [null], and a valid moment is
    given by its date. *)
Definition extractDateFromFilename (filename : jsstring)
  : result (option CalendarDate) :=
  let! datePattern := createDatePatternFromFormat (dateFormat settings) in
  match regex_match0 datePattern filename with
  | Some dateString =>
      match moment_strict today dateString (dateFormat settings) with
      | MValid d => Ok (Some d)
      | MInvalid => Ok None
      end
  | None => Ok None
  end.

(** main.ts, lines 157-165 *)
Definition formatFrontmatterDate (date : CalendarDate) : JsValue :=
  let output := moment_format (MValid date) (dateFormat settings) in
  if is_integer_text output then parseInt output
  else JStr output.

(** main.ts, lines 48-64: the new basename when the handler goes on to
    rename, [None] when it returns without renaming. *)
Definition updateFilename_newName (cache : option Frontmatter)
    (file : TFile) : result (option jsstring) :=
  let value :=
    match cache with
    | Some frontmatter => fm_get frontmatter (dateProperty settings)
    | None => JUndefined
    end in
  if js_truthy value then
    let formattedDate := moment_format (moment value) (dateFormat settings) in
    let currentName := basename file in
    let! newName := replaceDateInFilename currentName formattedDate in
    if bool_decide (newName = currentName) then Ok None
    else Ok (Some newName)
  else Ok None.

(** main.ts, lines 68-69 *)
Definition new_path (file : TFile) (newName : jsstring) : jsstring :=
  let newFileName :=
    match extension file with
    | [] => newName
    | _ :: _ => newName ++ str "." ++ extension file
    end in
  default (str "undefined") (parent_path file) ++ str "/" ++ newFileName.

(** main.ts, lines 48-74: the path handed to [renameFile], if any. *)
Definition updateFilename (cache : option Frontmatter) (file : TFile)
  : result (option jsstring) :=
  let! newName := updateFilename_newName cache file in
  Ok (new_path file <$> newName).

(** main.ts, lines 119-125: the assignment that the callback makes. *)
Definition frontmatter_write (date : CalendarDate) (frontmatter : Frontmatter)
  : option JsValue :=
  let newDate := formatFrontmatterDate date in
  if js_strict_eq (fm_get frontmatter (dateProperty settings)) newDate
  then None else Some newDate.

(** main.ts, lines 112-128: the assignment to
    [frontmatter[dateProperty]], if any. *)
Definition updateFrontmatter_write (file : TFile) (frontmatter : Frontmatter)
  : result (option JsValue) :=
  let! dateFromFilename := extractDateFromFilename (basename file) in
  match dateFromFilename with
  | Some date => Ok (frontmatter_write date frontmatter)
  | None => Ok None
  end.

(** main.ts, lines 112-128: the frontmatter after the handler. *)
Definition updateFrontmatter (file : TFile) (frontmatter : Frontmatter)
  : result Frontmatter :=
  let! w := updateFrontmatter_write file frontmatter in
  match w with
  | Some newDate => Ok (<[dateProperty settings := newDate]> frontmatter)
  | None => Ok frontmatter
  end.

End DateMirror.

(** ** Vocabulary of the statements *)

(** The compiled pattern of a format, read off its tokens. *)
Definition compiled (format : jsstring) : regex :=
  map atom_of_token (tokenize format).

(** The texts that a pattern matches in full. *)
Inductive matches : regex -> jsstring -> Prop :=
  | matches_nil : matches [] []
  | matches_char c r s :
      matches r s -> matches (AChar c :: r) (c :: s)
  | matches_digits lo hi r ds s :
      lo <= length ds <= hi -> all_digits ds = true ->
      matches r s -> matches (ADigits lo hi :: r) (ds ++ s).

(** [m] is an occurrence of the pattern in [s], after [pre]. *)
Definition occurs_at (r : regex) (s pre m : jsstring) : Prop :=
  exists post, s = pre ++ m ++ post /\ matches r m.

(** No occurrence of the pattern anywhere in [s]. *)
Definition no_occurrence (r : regex) (s : jsstring) : Prop :=
  forall pre m, ~ occurs_at r s pre m.

Definition dollar_free (s : jsstring) : bool :=
  forallb (fun c => negb (Ascii.eqb c "$")) s.

Definition is_letter (c : ascii) : bool :=
  let n := N_of_ascii c in
  ((65 <=? n) && (n <=? 90) || (97 <=? n) && (n <=? 122))%N.

(** A literal separator: neither a letter nor a digit nor one of the
    escape characters of the date library. *)
Definition is_separator (c : ascii) : bool :=
  negb (is_letter c || is_digit c || existsb (Ascii.eqb c) (str "[]\")).

(** A separator that can stand in the name of a file and in a
    replacement: neither the path separator nor the dollar sign. *)
Definition is_name_separator (c : ascii) : bool :=
  is_separator c && negb (Ascii.eqb c "/") && negb (Ascii.eqb c "$").

Definition names_year (t : token) : bool :=
  match t with TYYYY | TYY => true | _ => false end.
Definition names_month (t : token) : bool :=
  match t with TMM | TM => true | _ => false end.
Definition names_day (t : token) : bool :=
  match t with TDD | TD => true | _ => false end.
Definition is_TYY (t : token) : bool :=
  match t with TYY => true | _ => false end.

(** A date that the format can express: it exists, its year has at most
    four digits (and lies in the window of the two-digit year when the
    format has one), and the format names year, month and day. *)
Definition expressible (d : CalendarDate) (format : jsstring) : bool :=
  let ts := tokenize format in
  valid_date d && (0 <=? year d)%Z && (year d <=? 9999)%Z &&
  (negb (existsb is_TYY ts) || (1969 <=? year d)%Z && (year d <=? 2068)%Z) &&
  existsb names_year ts && existsb names_month ts && existsb names_day ts.

(** A character that the date library takes as a literal too: not a
    letter, which it may read as a token of its own, and not one of its
    escape characters. *)
Definition library_literal (c : ascii) : bool :=
  negb (is_letter c || existsb (Ascii.eqb c) (str "[]\")).

Definition literal_ok (t : token) : bool :=
  match t with TLit c => library_literal c | _ => true end.

Definition is_unpadded (t : token) : bool :=
  match t with TM | TD => true | _ => false end.

(** Every unpadded token M or D ends the format or is followed by a
    literal that is not a digit: its one or two digits end where the
    next token begins. *)
Fixpoint unpadded_closed (ts : list token) : bool :=
  match ts with
  | [] => true
  | t :: ts' =>
      (negb (is_unpadded t)
       || match ts' with
          | [] => true
          | TLit c :: _ => negb (is_digit c)
          | _ :: _ => false
          end)
      && unpadded_closed ts'
  end.

Definition same_field (t t' : token) : bool :=
  names_year t && names_year t' || names_month t && names_month t'
  || names_day t && names_day t'.

(** No two tokens of the same field side by side: a longer run of one
    letter, such as MMM or DDD, is a token of its own in the date
    library. *)
Fixpoint no_repeated_field (ts : list token) : bool :=
  match ts with
  | [] => true
  | t :: ts' =>
      match ts' with
      | [] => true
      | t' :: _ => negb (same_field t t') && no_repeated_field ts'
      end
  end.

(** Formats whose rendering can be read back: the format lies in the
    vocabulary that the model of the date library covers (the first two
    conditions), and no unpadded token runs into digits that follow. *)
Definition readable (format : jsstring) : bool :=
  let ts := tokenize format in
  forallb literal_ok ts && no_repeated_field ts && unpadded_closed ts.

Definition fixed_width_token (t : token) : bool :=
  match t with
  | TYYYY | TMM | TDD => true
  | TLit c => is_name_separator c
  | TYY | TM | TD => false
  end.

(** Formats of padded tokens and separators only. *)
Definition fixed_width (format : jsstring) : bool :=
  let ts := tokenize format in
  forallb fixed_width_token ts && no_repeated_field ts.

(** A host for the concrete examples.  It reads an ISO 8601 calendar
    date, as the library does, and takes every other value as invalid
    (the library accepts more). *)
Definition moment_iso (value : JsValue) : Moment :=
  match value with
  | JStr s => moment_strict (mkDate 1970 1 1) s (str "YYYY-MM-DD")
  | _ => MInvalid
  end.

Definition a_day : CalendarDate := mkDate 2026 11 2.

(** The field that a token of the format reads from a rendering of [d]. *)
Definition read_token (d : CalendarDate) (a : Fields) (t : token) : Fields :=
  match t with
  | TYYYY | TYY => set_year (year d) a
  | TMM | TM => set_month (month d) a
  | TDD | TD => set_day (day d) a
  | TLit _ => a
  end.

Definition starts_with_digit (s : jsstring) : bool :=
  match s with c :: _ => is_digit c | [] => false end.

(** Two characters that no pattern without digit literals can tell
    apart: the same character, or two digits. *)
Definition same_class (x y : ascii) : Prop :=
  x = y \/ (is_digit x = true /\ is_digit y = true).

Definition plain_atom (a : atom) : bool :=
  match a with AChar c => negb (is_digit c) | ADigits _ _ => true end.

Definition fixed_atom (a : atom) : bool :=
  match a with AChar _ => true | ADigits lo hi => lo =? hi end.

(** A rendering of a number in [w] digits that reads back as the number. *)
Definition padded_ok (w : nat) (n : Z) : bool :=
  let s := zeroFill n w in
  (length s =? w) && all_digits s && (parse_digits s =? n)%Z.

Definition unpadded_ok (n : Z) : bool :=
  let s := number_to_string n in
  (1 <=? length s) && (length s <=? 2) && all_digits s
  && (parse_digits s =? n)%Z.

(** The conditions on the date alone under which a list of tokens
    renders it faithfully. *)
Record expressed (d : CalendarDate) (ts : list token) : Prop := {
  expressed_valid : valid_date d = true;
  expressed_year : (0 <= year d <= 9999)%Z;
  expressed_window :
    existsb is_TYY ts = true -> (1969 <= year d <= 2068)%Z }.

(** ** The event callbacks of [onload] (main.ts, lines 27-37)

    The host calls them with a file or a folder; only a [TFile] reaches
    the handlers. *)

Inductive TAbstractFile :=
  | AFile (file : TFile)
  | AFolder.

(** The callback of [metadataCache.on('changed', ...)]. *)
Definition on_changed (moment : JsValue -> Moment) (st : DateMirrorSettings)
    (cache : option Frontmatter) (file : TAbstractFile)
  : result (option jsstring) :=
  match file with
  | AFile f => updateFilename moment st cache f
  | AFolder => Ok None
  end.

(** The callback of [vault.on('rename', ...)]. *)
Definition on_rename (today : CalendarDate) (st : DateMirrorSettings)
    (file : TAbstractFile) (frontmatter : Frontmatter) : result Frontmatter :=
  match file with
  | AFile f => updateFrontmatter today st f frontmatter
  | AFolder => Ok frontmatter
  end.

(** ** [onunload] (main.ts, lines 43-46)

    [clearTimeout] takes a timer out of the timers that the host still
    has pending; the callback clears the values of [debounceTimers] one
    after the other. *)

Definition clearTimeout (pending : gset nat) (timer : nat) : gset nat :=
  pending ∖ {[ timer ]}.

Definition onunload (debounceTimers : gmap jsstring nat) (pending : gset nat)
  : gset nat :=
  foldl clearTimeout pending (map snd (map_to_list debounceTimers)).

(** ** The settings tab (class SampleSettingTab) *)

Record CachedProperty := mkCached {
  name : jsstring;
  widget : jsstring;
  occurrences : Z }.

(** The order of [Array.prototype.sort] without a comparator: strings by
    their code units, a proper prefix first. *)
Fixpoint code_unit_leb (a b : jsstring) : bool :=
  match a, b with
  | [], _ => true
  | _ :: _, [] => false
  | x :: a', y :: b' =>
      if (N_of_ascii x <? N_of_ascii y)%N then true
      else if (N_of_ascii x =? N_of_ascii y)%N then code_unit_leb a' b'
      else false
  end.

Definition code_unit_le (a b : jsstring) : Prop := code_unit_leb a b = true.

#[global] Instance code_unit_le_dec : RelDecision code_unit_le.
Proof. intros a b. unfold code_unit_le. apply _. Defined.

(** main.ts, lines 184-198.  The keys of an object are distinct, so the
    set holds each selected key once, and the sorted array does not
    depend on the order in which [Object.entries] lists them. *)
Definition getAllFrontmatterProperties
    (cachedProperties : gmap jsstring CachedProperty) : list jsstring :=
  let selected :=
    List.filter
      (fun '(key, value) =>
         bool_decide (widget value = str "date") && (0 <? occurrences value)%Z)
      (map_to_list cachedProperties) in
  merge_sort code_unit_le (map fst selected).




(** A key of the host's table that the settings tab offers. *)
Definition date_property (cachedProperties : gmap jsstring CachedProperty)
    (key : jsstring) : Prop :=
  exists value,
    cachedProperties !! key = Some value /\
    widget value = str "date" /\ (0 < occurrences value)%Z.

(** ** Further vocabulary *)

(** The letters of the date tokens. *)
Definition token_letter (c : ascii) : bool :=
  existsb (Ascii.eqb c) (str "YMD").

(** A digit other than zero. *)
Definition nonzero_digit (c : ascii) : bool :=
  is_digit c && negb (Ascii.eqb c "0").

Definition padded_token (t : token) : bool :=
  match t with
  | TYYYY | TYY | TMM | TDD => true
  | TLit c => is_name_separator c
  | TM | TD => false
  end.

Definition count_tokens (p : token -> bool) (ts : list token) : nat :=
  length (List.filter p ts).

(** A date that the tokens of a format render in their widths, whichever
    fields the format names: it exists and its year has at most four
    digits (and lies in the window of the two-digit year when the format
    has one). *)
Definition renderable (d : CalendarDate) (format : jsstring) : bool :=
  let ts := tokenize format in
  valid_date d && (0 <=? year d)%Z && (year d <=? 9999)%Z &&
  (negb (existsb is_TYY ts) || (1969 <=? year d)%Z && (year d <=? 2068)%Z).

(** Formats of padded tokens and separators that name each field at most
    once. *)
Definition padded_once (format : jsstring) : bool :=
  let ts := tokenize format in
  forallb padded_token ts
  && (count_tokens names_year ts <=? 1)
  && (count_tokens names_month ts <=? 1)
  && (count_tokens names_day ts <=? 1).

(** * Properties *)

(** ** Scanning lemmas *)

Lemma starts_with_app (p q s : jsstring) :
  starts_with (p ++ q) s = starts_with p s && starts_with q (drop (length p) s).
Proof.
  revert s. induction p as [|x p IH]; intros s; simpl.
  - reflexivity.
  - destruct s as [|c s]; simpl; [reflexivity|].
    rewrite IH. destruct (Ascii.eqb x c); reflexivity.
Qed.

Lemma starts_with_spec (p s : jsstring) :
  starts_with p s = true <-> exists t, s = p ++ t.
Proof.
  revert s. induction p as [|x p IH]; intros s; simpl.
  - split; [intros _; exists s; reflexivity | reflexivity].
  - destruct s as [|c s].
    + split; [discriminate | intros [t Ht]; discriminate].
    + rewrite andb_true_iff, IH, Ascii.eqb_eq. split.
      * intros [-> [t ->]]. exists t. reflexivity.
      * intros [t Ht]. injection Ht as -> ->. split; [reflexivity | eauto].
Qed.

Lemma replace_all_from_drop (pat rep : jsstring) (k : nat) (s : jsstring) :
  replace_all_from pat rep k s = replace_all pat rep (drop k s).
Proof.
  revert k. induction s as [|c s IH]; intros [|k]; try reflexivity.
  simpl. apply IH.
Qed.

(** An occurrence at the head is replaced and the scan goes on behind it. *)
Lemma replace_all_hit (p : ascii) (pat rep s : jsstring) :
  starts_with (p :: pat) s = true ->
  replace_all (p :: pat) rep s
  = rep ++ replace_all (p :: pat) rep (drop (S (length pat)) s).
Proof.
  intros H. destruct s as [|c s]; [discriminate|].
  unfold replace_all at 1. simpl replace_all_from.
  simpl in H. rewrite H. rewrite replace_all_from_drop.
  simpl. rewrite Nat.sub_0_r. reflexivity.
Qed.

(** Without an occurrence at the head the first character is kept. *)
Lemma replace_all_miss (pat rep : jsstring) (c : ascii) (s : jsstring) :
  starts_with pat (c :: s) = false ->
  replace_all pat rep (c :: s) = c :: replace_all pat rep s.
Proof.
  intros H. unfold replace_all. simpl replace_all_from.
  simpl in H. rewrite H. reflexivity.
Qed.

Lemma replace_all_other (p : ascii) (pat rep : jsstring) (c : ascii) (s : jsstring) :
  Ascii.eqb p c = false ->
  replace_all (p :: pat) rep (c :: s) = c :: replace_all (p :: pat) rep s.
Proof. intros H. apply replace_all_miss. simpl. rewrite H. reflexivity. Qed.

(** The head of the result is the head of the input or of the replacement. *)
Lemma replace_all_head (x : ascii) (pat : jsstring) (r : ascii) (rep s : jsstring) :
  Ascii.eqb x r = false ->
  starts_with [x] s = false ->
  starts_with [x] (replace_all pat (r :: rep) s) = false.
Proof.
  intros Hr Hs. destruct s as [|c s]; [reflexivity|].
  unfold replace_all. simpl replace_all_from.
  destruct (starts_with pat (c :: s)).
  - simpl. rewrite Hr. reflexivity.
  - simpl. simpl in Hs. exact Hs.
Qed.

Lemma starts_with_app_false (p q s : jsstring) :
  starts_with p s = false -> starts_with (p ++ q) s = false.
Proof. intros H. rewrite starts_with_app, H. reflexivity. Qed.

Lemma escape_regex_cons (c : ascii) (f : jsstring) :
  escape_regex (c :: f) = escape_char c ++ escape_regex f.
Proof. reflexivity. Qed.

(** Escaping does not change whether a text of ordinary characters is at
    the head. *)
Lemma starts_with_escape (p f : jsstring) :
  forallb (fun c => negb (is_regex_special c)) p = true ->
  starts_with p (escape_regex f) = starts_with p f.
Proof.
  revert f. induction p as [|x p IH]; intros f Hp; [reflexivity|].
  simpl in Hp. apply andb_true_iff in Hp as [Hx Hp].
  destruct f as [|c f]; [reflexivity|].
  rewrite escape_regex_cons. unfold escape_char.
  destruct (is_regex_special c) eqn:Hc; simpl.
  - destruct (Ascii.eqb_spec x c) as [->|Hxc].
    + rewrite Hc in Hx. discriminate.
    + destruct (Ascii.eqb_spec x "\") as [->|]; [discriminate | reflexivity].
  - rewrite IH by assumption. reflexivity.
Qed.

Lemma tokens_from_drop (k : nat) (f : jsstring) :
  tokens_from k f = tokenize (drop k f).
Proof.
  revert k. induction f as [|c f IH]; intros [|k]; try reflexivity.
  simpl. apply IH.
Qed.

Lemma tokenize_cons (c : ascii) (f : jsstring) :
  tokenize (c :: f)
  = fst (next_token (c :: f)) :: tokenize (drop (snd (next_token (c :: f)) - 1) f).
Proof.
  unfold tokenize at 1. simpl tokens_from.
  destruct (next_token (c :: f)) as [t n]. rewrite tokens_from_drop. reflexivity.
Qed.

Lemma substitute_tokens_other (c : ascii) (s : jsstring) :
  Ascii.eqb "Y" c = false -> Ascii.eqb "M" c = false -> Ascii.eqb "D" c = false ->
  substitute_tokens (c :: s) = c :: substitute_tokens s.
Proof.
  intros HY HM HD. unfold substitute_tokens. cbv [str String.list_ascii_of_string].
  rewrite (replace_all_other "Y") by assumption.
  rewrite (replace_all_other "Y") by assumption.
  rewrite (replace_all_other "M") by assumption.
  rewrite (replace_all_other "M") by assumption.
  rewrite (replace_all_other "D") by assumption.
  rewrite (replace_all_other "D") by assumption.
  reflexivity.
Qed.

Ltac skip_stage x := rewrite ?(replace_all_other x) by reflexivity.
Ltac skip_stages := skip_stage "Y"; skip_stage "M"; skip_stage "D".
Ltac open_source :=
  unfold date_pattern_source, substitute_tokens;
  cbv [str String.list_ascii_of_string];
  rewrite ?escape_regex_cons;
  repeat match goal with
    | |- context [escape_char ?c] =>
        match c with
        | Ascii _ _ _ _ _ _ _ _ =>
            let e := eval vm_compute in (escape_char c) in
            change (escape_char c) with e
        end
    end;
  cbn [app].
Ltac head_of_escape H :=
  rewrite starts_with_escape by reflexivity; exact H.

Lemma single_char_head (x c : ascii) (r : jsstring) :
  starts_with [x] (c :: r) = Ascii.eqb x c.
Proof. simpl. apply andb_true_r. Qed.

Lemma date_pattern_source_tokens_le (n : nat) (f : jsstring) :
  length f <= n ->
  date_pattern_source f = flat_map token_source (tokenize f).
Proof.
  revert f. induction n as [|n IH]; intros f Hn.
  { destruct f; [reflexivity | simpl in Hn; lia]. }
  destruct f as [|c r]; [reflexivity|].
  rewrite tokenize_cons. unfold next_token.
  destruct (starts_with (str "YYYY") (c :: r)) eqn:H4.
  { apply starts_with_spec in H4 as [t Ht]. simpl in Ht. injection Ht as -> ->.
    cbn [fst snd Nat.sub flat_map]. rewrite ?skipn_cons, ?drop_0.
    simpl in Hn. rewrite <- (IH t) by lia. open_source.
    rewrite (replace_all_hit "Y" ["Y"; "Y"; "Y"]) by reflexivity.
    cbn [app]. skip_stages. reflexivity. }
  destruct (starts_with (str "YY") (c :: r)) eqn:H2.
  { apply starts_with_spec in H2 as [t Ht]. simpl in Ht. injection Ht as -> ->.
    cbn [fst snd Nat.sub flat_map]. rewrite ?skipn_cons, ?drop_0.
    simpl in Hn. rewrite <- (IH t) by lia.
    assert (HE : starts_with ["Y"; "Y"] (escape_regex t) = false)
      by (head_of_escape H4).
    open_source.
    rewrite (replace_all_miss ["Y"; "Y"; "Y"; "Y"]) by exact HE.
    rewrite (replace_all_miss ["Y"; "Y"; "Y"; "Y"])
      by exact (starts_with_app_false ["Y"; "Y"] ["Y"] _ HE).
    rewrite (replace_all_hit "Y" ["Y"]) by reflexivity.
    cbn [app]. skip_stages. reflexivity. }
  destruct (starts_with (str "MM") (c :: r)) eqn:HMM.
  { apply starts_with_spec in HMM as [t Ht]. simpl in Ht. injection Ht as -> ->.
    cbn [fst snd Nat.sub flat_map]. rewrite ?skipn_cons, ?drop_0.
    simpl in Hn. rewrite <- (IH t) by lia. open_source.
    skip_stage "Y".
    rewrite (replace_all_hit "M" ["M"]) by reflexivity.
    cbn [app]. skip_stages. reflexivity. }
  destruct (starts_with (str "M") (c :: r)) eqn:HM.
  { apply starts_with_spec in HM as [t Ht]. simpl in Ht. injection Ht as -> ->.
    cbn [fst snd Nat.sub flat_map]. rewrite ?skipn_cons, ?drop_0.
    simpl in Hn. rewrite <- (IH t) by lia.
    assert (HE : starts_with ["M"] (escape_regex t) = false)
      by (head_of_escape HMM).
    open_source. skip_stage "Y".
    rewrite (replace_all_miss ["M"; "M"])
      by (apply (replace_all_head "M"), (replace_all_head "M");
          [reflexivity | reflexivity | exact HE]).
    rewrite (replace_all_hit "M" []) by reflexivity.
    cbn [app]. skip_stages. reflexivity. }
  destruct (starts_with (str "DD") (c :: r)) eqn:HDD.
  { apply starts_with_spec in HDD as [t Ht]. simpl in Ht. injection Ht as -> ->.
    cbn [fst snd Nat.sub flat_map]. rewrite ?skipn_cons, ?drop_0.
    simpl in Hn. rewrite <- (IH t) by lia. open_source.
    skip_stage "Y". skip_stage "M".
    rewrite (replace_all_hit "D" ["D"]) by reflexivity.
    cbn [app]. skip_stages. reflexivity. }
  destruct (starts_with (str "D") (c :: r)) eqn:HD.
  { apply starts_with_spec in HD as [t Ht]. simpl in Ht. injection Ht as -> ->.
    cbn [fst snd Nat.sub flat_map]. rewrite ?skipn_cons, ?drop_0.
    simpl in Hn. rewrite <- (IH t) by lia.
    assert (HE : starts_with ["D"] (escape_regex t) = false)
      by (head_of_escape HDD).
    open_source. skip_stage "Y". skip_stage "M".
    rewrite (replace_all_miss ["D"; "D"])
      by (do 4 (apply (replace_all_head "D"); [reflexivity|]); exact HE).
    rewrite (replace_all_hit "D" []) by reflexivity.
    cbn [app]. skip_stages. reflexivity. }
  cbn [fst snd Nat.sub flat_map]. rewrite ?skipn_cons, ?drop_0.
  simpl in Hn. rewrite <- (IH r) by lia.
  change (str "M") with ["M"] in HM. change (str "D") with ["D"] in HD.
  rewrite single_char_head in HM, HD.
  destruct (Ascii.eqb "Y" c) eqn:HY.
  - apply Ascii.eqb_eq in HY. subst c.
    assert (HE : starts_with ["Y"] (escape_regex r) = false)
      by (head_of_escape H2).
    open_source.
    rewrite (replace_all_miss ["Y"; "Y"; "Y"; "Y"])
      by exact (starts_with_app_false ["Y"] ["Y"; "Y"] _ HE).
    rewrite (replace_all_miss ["Y"; "Y"])
      by (apply (replace_all_head "Y"); [reflexivity | exact HE]).
    skip_stages. reflexivity.
  - unfold date_pattern_source. rewrite escape_regex_cons.
    unfold token_source, escape_char.
    destruct (is_regex_special c); cbn [app].
    + rewrite (substitute_tokens_other "\") by reflexivity.
      rewrite (substitute_tokens_other c) by assumption. reflexivity.
    + rewrite (substitute_tokens_other c) by assumption. reflexivity.
Qed.

(** The text of the compiled pattern, token by token. *)
Lemma date_pattern_source_tokens (f : jsstring) :
  date_pattern_source f = flat_map token_source (tokenize f).
Proof. apply (date_pattern_source_tokens_le (length f)). lia. Qed.

(** A four-letter year at the head is one token: the two-letter year
    never takes a part of it. *)
Lemma date_pattern_source_YYYY (f : jsstring) :
  date_pattern_source (str "YYYY" ++ f) = str "\d{4}" ++ date_pattern_source f.
Proof.
  rewrite !date_pattern_source_tokens.
  change (str "YYYY" ++ f) with ("Y" :: (str "YYY" ++ f)).
  rewrite tokenize_cons. reflexivity.
Qed.

(** ** The pattern constructor on the compiler's output *)

Lemma read_atoms_drop (k : nat) (p : jsstring) :
  read_atoms k p = read_atoms 0 (drop k p).
Proof.
  revert k. induction p as [|c p IH]; intros [|k]; try reflexivity.
  simpl. apply IH.
Qed.

Lemma read_atoms_step (p : jsstring) (a : atom) (n : nat) :
  p <> [] -> read_atom p = Some (a, S n) ->
  read_atoms 0 p = cons a <$> read_atoms 0 (drop (S n) p).
Proof.
  intros Hp Ha. destruct p as [|c p]; [congruence|].
  cbn [read_atoms]. rewrite Ha. cbn [Nat.sub]. rewrite Nat.sub_0_r.
  rewrite read_atoms_drop. cbn [drop].
  destruct (read_atoms 0 (drop n p)); reflexivity.
Qed.

(** The class of line 98 holds the syntax characters of the pattern
    language, all of them and no other character. *)
Lemma regex_special_syntax (c : ascii) :
  is_regex_special c = is_syntax_character c.
Proof. destruct c as [[] [] [] [] [] [] [] []]; reflexivity. Qed.

Lemma read_atom_token (t : token) (rest : jsstring) :
  read_atom (token_source t ++ rest)
  = Some (atom_of_token t, length (token_source t)).
Proof.
  destruct t; try reflexivity.
  unfold token_source, escape_char. rewrite regex_special_syntax.
  destruct (is_syntax_character c) eqn:Hc.
  - cbn [app read_atom]. rewrite Ascii.eqb_refl, Hc. reflexivity.
  - cbn [app read_atom].
    destruct (Ascii.eqb_spec c "\") as [->|_]; [discriminate|].
    rewrite Hc. reflexivity.
Qed.

Lemma token_source_length (t : token) :
  exists n, length (token_source t) = S n.
Proof.
  destruct t; simpl; eauto.
  unfold escape_char. destruct (is_regex_special c); simpl; eauto.
Qed.

Lemma read_atoms_tokens (ts : list token) :
  read_atoms 0 (flat_map token_source ts) = Some (map atom_of_token ts).
Proof.
  induction ts as [|t ts IH]; [reflexivity|].
  simpl flat_map. destruct (token_source_length t) as [n Hn].
  rewrite (read_atoms_step _ (atom_of_token t) n).
  - rewrite <- Hn, drop_app_length, IH. reflexivity.
  - intros E. apply (f_equal length) in E. rewrite length_app, Hn in E.
    discriminate.
  - rewrite read_atom_token, Hn. reflexivity.
Qed.

(** The compiler never raises, and its pattern is the token-by-token
    translation of the format. *)
Lemma compile_tokens (format : jsstring) :
  createDatePatternFromFormat format = Ok (compiled format).
Proof.
  unfold createDatePatternFromFormat, RegExp_new.
  rewrite date_pattern_source_tokens, read_atoms_tokens. reflexivity.
Qed.

(** ** What a pattern matches *)

Lemma first_some_Some {A} (f : nat -> option A) (ks : list nat) (x : A) :
  first_some f ks = Some x -> exists k, In k ks /\ f k = Some x.
Proof.
  induction ks as [|k ks IH]; simpl; [discriminate|].
  destruct (f k) eqn:E.
  - intros [= ->]. eauto.
  - intros H. destruct (IH H) as (k' & ? & ?). eauto.
Qed.

Lemma first_some_None {A} (f : nat -> option A) (ks : list nat) :
  first_some f ks = None <-> forall k, In k ks -> f k = None.
Proof.
  induction ks as [|k ks IH]; simpl.
  - split; [intros _ k [] | reflexivity].
  - destruct (f k) eqn:E.
    + split; [discriminate|]. intros H. rewrite <- E. apply H. auto.
    + rewrite IH. split.
      * intros H k' [<-|Hk]; auto.
      * intros H k' Hk. apply H. auto.
Qed.

Lemma in_counts (lo hi k : nat) : In k (counts lo hi) <-> lo <= k <= hi.
Proof. unfold counts. rewrite <- in_rev, in_seq. lia. Qed.

Lemma match_here_sound (r : regex) (s : jsstring) (n : nat) :
  match_here r s = Some n -> n <= length s /\ matches r (take n s).
Proof.
  revert s n. induction r as [|a r IH]; intros s n; simpl.
  - intros [= <-]. split; [lia | constructor].
  - destruct a as [c|lo hi].
    + destruct s as [|x s]; [discriminate|].
      destruct (Ascii.eqb_spec x c) as [->|]; [|discriminate].
      destruct (match_here r s) as [m|] eqn:E; [|discriminate].
      intros [= <-]. destruct (IH _ _ E) as [Hm HM]. simpl.
      split; [lia | constructor; exact HM].
    + intros H. apply first_some_Some in H as (k & Hk & H).
      apply in_counts in Hk.
      destruct (length (take k s) =? k) eqn:Hl; [|discriminate].
      destruct (all_digits (take k s)) eqn:Hd; [|discriminate].
      simpl in H. destruct (match_here r (drop k s)) as [m|] eqn:E;
        [|discriminate].
      injection H as <-. apply Nat.eqb_eq in Hl.
      destruct (IH _ _ E) as [Hm HM]. rewrite length_drop in Hm.
      rewrite length_take in Hl.
      split; [lia|].
      rewrite <- (take_drop k s) at 1.
      rewrite take_app_add'; [|rewrite length_take; lia].
      constructor; [rewrite length_take; lia | exact Hd | exact HM].
Qed.

Lemma all_digits_app (a b : jsstring) :
  all_digits (a ++ b) = all_digits a && all_digits b.
Proof. apply forallb_app. Qed.

(** If some text at the head of [s] matches, the matcher finds a match. *)
Lemma match_here_complete (r : regex) (m t : jsstring) :
  matches r m -> exists n, match_here r (m ++ t) = Some n.
Proof.
  intros H. revert t. induction H as [|c r s H IH|lo hi r ds s Hl Hd H IH];
    intros t; simpl.
  - eauto.
  - rewrite Ascii.eqb_refl. destruct (IH t) as [n ->]. simpl. eauto.
  - match goal with |- exists n, first_some ?f ?ks = Some n =>
      destruct (first_some f ks) as [n|] eqn:E; [eauto|] end.
    exfalso. rewrite first_some_None in E.
    specialize (E (length ds)). rewrite in_counts in E. specialize (E Hl).
    rewrite <- app_assoc in E. rewrite take_app_length, drop_app_length in E.
    rewrite Nat.eqb_refl, Hd in E. simpl in E.
    destruct (IH t) as [n Hn]. rewrite Hn in E. discriminate.
Qed.

Lemma regex_exec_sound (r : regex) (s : jsstring) (i n : nat) :
  regex_exec r s = Some (i, n) ->
  i + n <= length s /\ matches r (take n (drop i s)) /\
  match_here r (drop i s) = Some n /\
  forall j, j < i -> match_here r (drop j s) = None.
Proof.
  revert i n. induction s as [|c s IH]; intros i n; simpl.
  - destruct (match_here r []) as [m|] eqn:E; [|discriminate].
    intros [= <- <-]. destruct (match_here_sound _ _ _ E) as [? ?].
    simpl. repeat split; auto. intros j Hj. lia.
  - destruct (match_here r (c :: s)) as [m|] eqn:E.
    + intros [= <- <-]. destruct (match_here_sound _ _ _ E) as [? ?].
      simpl. repeat split; auto. intros j Hj. lia.
    + destruct (regex_exec r s) as [[i' n']|] eqn:E'; [|discriminate].
      intros [= <- <-]. destruct (IH _ _ eq_refl) as (Hl & Hm & Hh & Hj).
      simpl. repeat split; auto; [lia|].
      intros [|j] Hlt; [exact E|]. simpl. apply Hj. lia.
Qed.

Lemma regex_exec_None (r : regex) (s : jsstring) :
  regex_exec r s = None <->
  forall pre m post, s = pre ++ m ++ post -> ~ matches r m.
Proof.
  split.
  - intros H pre. revert s H. induction pre as [|c pre IH]; intros s H m post -> Hm.
    + simpl in H. destruct (match_here_complete r m post Hm) as [n Hn].
      destruct (m ++ post); simpl in H; rewrite Hn in H; discriminate.
    + simpl in H. destruct (match_here r (c :: pre ++ m ++ post)); [discriminate|].
      destruct (regex_exec r (pre ++ m ++ post)) as [[i n]|] eqn:E; [discriminate|].
      exact (IH _ E m post eq_refl Hm).
  - intros H. destruct (regex_exec r s) as [[i n]|] eqn:E; [|reflexivity].
    exfalso. apply regex_exec_sound in E as (Hl & Hm & _).
    apply (H (take i s) (take n (drop i s)) (drop n (drop i s))); [|exact Hm].
    rewrite !take_drop. reflexivity.
Qed.

(** The first match is the leftmost occurrence. *)
Lemma regex_exec_first (r : regex) (s : jsstring) (i n : nat) :
  regex_exec r s = Some (i, n) ->
  occurs_at r s (take i s) (take n (drop i s)) /\
  forall pre m, occurs_at r s pre m -> i <= length pre.
Proof.
  intros H. apply regex_exec_sound in H as (Hl & Hm & _ & Hj). split.
  - exists (drop n (drop i s)). rewrite !take_drop. auto.
  - intros pre m (post & -> & Hm'). destruct (le_lt_dec i (length pre)) as [|Hlt];
      [assumption|].
    specialize (Hj _ Hlt). rewrite drop_app_length in Hj.
    destruct (match_here_complete r m post Hm') as [k Hk]. congruence.
Qed.

Lemma regex_exec_no_occurrence (r : regex) (s : jsstring) :
  regex_exec r s = None <-> no_occurrence r s.
Proof.
  rewrite regex_exec_None. unfold no_occurrence, occurs_at. split.
  - intros H pre m (post & Hs & Hm). exact (H pre m post Hs Hm).
  - intros H pre m post Hs Hm. apply (H pre m). eauto.
Qed.

(** ** The replacement template *)

Lemma expand_replacement_dollar_free (before matched after t : jsstring) :
  dollar_free t = true ->
  expand_replacement before matched after false t = t.
Proof.
  induction t as [|c t IH]; simpl; [reflexivity|].
  intros H. apply andb_true_iff in H as [Hc Ht].
  apply negb_true_iff in Hc. rewrite Hc, IH by assumption. reflexivity.
Qed.

(** With a replacement free of dollar signs, [replace] puts the
    replacement in the place of the first match. *)
Lemma string_replace_plain (r : regex) (replacement s : jsstring) (i n : nat) :
  dollar_free replacement = true ->
  regex_exec r s = Some (i, n) ->
  string_replace r replacement s = take i s ++ replacement ++ drop (i + n) s.
Proof.
  intros Hd He. unfold string_replace. rewrite He.
  rewrite expand_replacement_dollar_free by assumption. reflexivity.
Qed.

Lemma string_replace_no_match (r : regex) (replacement s : jsstring) :
  regex_exec r s = None -> string_replace r replacement s = s.
Proof. intros He. unfold string_replace. rewrite He. reflexivity. Qed.

(** ** The methods of the plugin, with the compiled pattern in place *)

Lemma replaceDateInFilename_eq (st : DateMirrorSettings) (filename newDate : jsstring) :
  replaceDateInFilename st filename newDate
  = Ok (string_replace (compiled (dateFormat st)) newDate filename).
Proof.
  unfold replaceDateInFilename. rewrite compile_tokens. simpl.
  unfold regex_test, string_replace.
  destruct (regex_exec (compiled (dateFormat st)) filename) as [[i n]|];
    reflexivity.
Qed.

Lemma extractDateFromFilename_eq (today : CalendarDate)
    (st : DateMirrorSettings) (filename : jsstring) :
  extractDateFromFilename today st filename
  = Ok match regex_match0 (compiled (dateFormat st)) filename with
       | Some dateString =>
           match moment_strict today dateString (dateFormat st) with
           | MValid d => Some d
           | MInvalid => None
           end
       | None => None
       end.
Proof.
  unfold extractDateFromFilename. rewrite compile_tokens. simpl.
  destruct (regex_match0 (compiled (dateFormat st)) filename) as [m|];
    [|reflexivity].
  destruct (moment_strict today m (dateFormat st)); reflexivity.
Qed.

Lemma matches_by_exec (r : regex) (s : jsstring) :
  match_here r s = Some (length s) -> matches r s.
Proof.
  intros H. apply match_here_sound in H as [_ H].
  rewrite firstn_all in H. exact H.
Qed.

Lemma regex_test_true (r : regex) (s : jsstring) :
  regex_test r s = true <-> exists pre m, occurs_at r s pre m.
Proof.
  unfold regex_test. destruct (regex_exec r s) as [[i n]|] eqn:E.
  - split; [intros _ | reflexivity].
    apply regex_exec_first in E as [H _]. eauto.
  - split; [discriminate|]. intros (pre & m & H).
    apply regex_exec_no_occurrence in E. destruct (E pre m H).
Qed.

(** ** The date formatter *)

(** The output of [/^\d+$/]: one digit or more and nothing else. *)
Lemma is_integer_text_spec (s : jsstring) :
  is_integer_text s = true <->
  s <> [] /\ Forall (fun c => is_digit c = true) s.
Proof.
  unfold is_integer_text, all_digits. destruct s as [|c s].
  - split; [discriminate | intros [H _]; congruence].
  - rewrite forallb_forall, Forall_forall. split.
    + intros H. split; [discriminate|]. intros x Hx.
      apply H, list_elem_of_In, Hx.
    + intros [_ H] x Hx. apply H, list_elem_of_In, Hx.
Qed.

(** ** The filename rewriter *)

(** With a replacement that has no dollar sign, replaceDateInFilename puts
    it in the place of the first match and keeps the rest; without a
    match it returns the filename. *)
Lemma replaceDateInFilename_plain (st : DateMirrorSettings)
    (filename newDate : jsstring) :
  dollar_free newDate = true ->
  replaceDateInFilename st filename newDate
  = Ok match regex_exec (compiled (dateFormat st)) filename with
       | Some (i, n) => take i filename ++ newDate ++ drop (i + n) filename
       | None => filename
       end.
Proof.
  intros Hd. rewrite replaceDateInFilename_eq. f_equal.
  destruct (regex_exec (compiled (dateFormat st)) filename) as [[i n]|] eqn:E.
  - apply string_replace_plain; assumption.
  - apply string_replace_no_match; assumption.
Qed.

Lemma replaceDateInFilename_no_match (st : DateMirrorSettings)
    (filename newDate : jsstring) :
  no_occurrence (compiled (dateFormat st)) filename ->
  replaceDateInFilename st filename newDate = Ok filename.
Proof.
  intros H. rewrite replaceDateInFilename_eq. f_equal.
  apply string_replace_no_match, regex_exec_no_occurrence, H.
Qed.

(** ** The handlers *)

Lemma js_strict_eq_true (a b : JsValue) : js_strict_eq a b = true <-> a = b.
Proof. unfold js_strict_eq. apply bool_decide_eq_true. Qed.

Lemma js_strict_eq_false (a b : JsValue) : js_strict_eq a b = false <-> a <> b.
Proof. unfold js_strict_eq. apply bool_decide_eq_false. Qed.

(** What updateFrontmatter does once a date has been extracted. *)
Lemma updateFrontmatter_cases (today : CalendarDate) (st : DateMirrorSettings)
    (file : TFile) (frontmatter : Frontmatter) (d : CalendarDate) :
  extractDateFromFilename today st (basename file) = Ok (Some d) ->
  let newDate := formatFrontmatterDate st d in
  let stored := fm_get frontmatter (dateProperty st) in
  (stored <> newDate ->
     updateFrontmatter_write today st file frontmatter = Ok (Some newDate) /\
     updateFrontmatter today st file frontmatter
       = Ok (<[dateProperty st := newDate]> frontmatter)) /\
  (stored = newDate ->
     updateFrontmatter_write today st file frontmatter = Ok None /\
     updateFrontmatter today st file frontmatter = Ok frontmatter).
Proof.
  intros He newDate stored.
  unfold updateFrontmatter, updateFrontmatter_write. rewrite He. simpl.
  unfold frontmatter_write. fold newDate stored.
  destruct (js_strict_eq stored newDate) eqn:E.
  - apply js_strict_eq_true in E. split; [congruence | auto].
  - apply js_strict_eq_false in E. split; [auto | congruence].
Qed.

Lemma updateFilename_falsy (moment : JsValue -> Moment)
    (st : DateMirrorSettings) (cache : option Frontmatter) (file : TFile) :
  js_truthy match cache with
            | Some frontmatter => fm_get frontmatter (dateProperty st)
            | None => JUndefined
            end = false ->
  updateFilename moment st cache file = Ok None.
Proof.
  intros H. unfold updateFilename, updateFilename_newName.
  rewrite H. reflexivity.
Qed.

Lemma updateFilename_same_name (moment : JsValue -> Moment)
    (st : DateMirrorSettings) (cache : option Frontmatter) (file : TFile) :
  (forall newDate,
     replaceDateInFilename st (basename file) newDate = Ok (basename file)) ->
  updateFilename moment st cache file = Ok None.
Proof.
  intros H. unfold updateFilename, updateFilename_newName.
  destruct (js_truthy _); [|reflexivity].
  rewrite H. simpl. rewrite bool_decide_eq_true_2 by reflexivity. reflexivity.
Qed.

(** ** Rendering and reading back *)

Lemma check_range (P : Z -> bool) (n : Z) :
  forallb P (map Z.of_nat (seq 0 (Z.to_nat n))) = true ->
  forall z, (0 <= z < n)%Z -> P z = true.
Proof.
  intros H z Hz. rewrite forallb_forall in H. apply H.
  apply in_map_iff. exists (Z.to_nat z). split; [lia|].
  apply in_seq. lia.
Qed.

Lemma zeroFill_4 (y : Z) : (0 <= y <= 9999)%Z -> padded_ok 4 y = true.
Proof.
  intros H. apply (check_range (padded_ok 4) 10000%Z); [|lia].
  vm_compute. reflexivity.
Qed.

Lemma zeroFill_2 (n : Z) : (0 <= n <= 99)%Z -> padded_ok 2 n = true.
Proof.
  intros H. apply (check_range (padded_ok 2) 100%Z); [|lia].
  vm_compute. reflexivity.
Qed.

Lemma number_to_string_2 (n : Z) : (0 <= n <= 99)%Z -> unpadded_ok n = true.
Proof.
  intros H. apply (check_range unpadded_ok 100%Z); [|lia].
  vm_compute. reflexivity.
Qed.

Lemma read_exact_app (ds rest : jsstring) :
  all_digits ds = true ->
  read_exact (length ds) (ds ++ rest) = Some (ds, rest).
Proof.
  intros Hd. unfold read_exact.
  rewrite take_app_length, drop_app_length, Nat.eqb_refl, Hd. reflexivity.
Qed.

Lemma read_exact_short (ds rest : jsstring) :
  starts_with_digit rest = false ->
  read_exact (S (length ds)) (ds ++ rest) = None.
Proof.
  intros Hr. unfold read_exact.
  destruct rest as [|c rest].
  - rewrite app_nil_r, firstn_all2 by lia.
    rewrite (proj2 (Nat.eqb_neq _ _)) by lia. reflexivity.
  - replace (S (length ds)) with (length (ds ++ [c]))
      by (rewrite length_app; simpl; lia).
    rewrite (app_assoc ds [c] rest : ds ++ c :: rest = (ds ++ [c]) ++ rest).
    rewrite take_app_length, Nat.eqb_refl, all_digits_app. simpl in *.
    rewrite Hr, andb_false_r. reflexivity.
Qed.

Lemma read_1to2_app (ds rest : jsstring) :
  1 <= length ds <= 2 -> all_digits ds = true ->
  (length ds = 1 -> starts_with_digit rest = false) ->
  read_1to2 (ds ++ rest) = Some (ds, rest).
Proof.
  intros Hl Hd Hr. unfold read_1to2.
  destruct (Nat.eq_dec (length ds) 2) as [E|E].
  - rewrite <- E, read_exact_app by assumption. reflexivity.
  - assert (E1 : length ds = 1) by lia.
    change 2 with (S 1). rewrite <- E1 at 1.
    rewrite read_exact_short by auto.
    rewrite <- E1 at 1. apply read_exact_app, Hd.
Qed.

Lemma match_digits_exact (k : nat) (r : regex) (ds rest : jsstring) :
  length ds = k -> all_digits ds = true ->
  match_here (ADigits k k :: r) (ds ++ rest)
  = Nat.add k <$> match_here r rest.
Proof.
  intros <- Hd. cbn [match_here]. unfold counts.
  replace (S (length ds) - length ds) with 1 by lia. cbn [seq rev app first_some].
  rewrite take_app_length, drop_app_length, Nat.eqb_refl, Hd. simpl.
  destruct (match_here r rest); reflexivity.
Qed.

Lemma match_digits_1to2 (r : regex) (ds rest : jsstring) (n : nat) :
  1 <= length ds <= 2 -> all_digits ds = true ->
  (length ds = 1 -> starts_with_digit rest = false) ->
  match_here r rest = Some n ->
  match_here (ADigits 1 2 :: r) (ds ++ rest) = Some (length ds + n).
Proof.
  intros Hl Hd Hr Hn. cbn [match_here].
  change (counts 1 2) with [2; 1]. cbn [first_some].
  destruct (Nat.eq_dec (length ds) 2) as [E|E].
  - rewrite <- E, take_app_length, drop_app_length, Nat.eqb_refl, Hd, Hn.
    reflexivity.
  - assert (E1 : length ds = 1) by lia.
    pose proof (read_exact_short ds rest (Hr E1)) as Hs.
    unfold read_exact in Hs. rewrite E1 in Hs.
    destruct ((length (take 2 (ds ++ rest)) =? 2)
              && all_digits (take 2 (ds ++ rest))); [discriminate|].
    rewrite <- E1, take_app_length, drop_app_length, Nat.eqb_refl, Hd, Hn.
    reflexivity.
Qed.

Lemma valid_date_bounds (d : CalendarDate) :
  valid_date d = true ->
  (1 <= month d <= 12)%Z /\ (1 <= day d <= 31)%Z.
Proof.
  unfold valid_date, days_in_month. intros H.
  repeat (apply andb_true_iff in H as [H ?]).
  repeat match goal with
         | _ : context [if ?b then _ else _] |- _ => destruct b
         end; lia.
Qed.

Lemma padded_ok_spec (w : nat) (n : Z) :
  padded_ok w n = true ->
  length (zeroFill n w) = w /\ all_digits (zeroFill n w) = true /\
  parse_digits (zeroFill n w) = n.
Proof.
  unfold padded_ok. intros H.
  apply andb_true_iff in H as [H Hp]. apply andb_true_iff in H as [Hl Hd].
  apply Nat.eqb_eq in Hl. apply Z.eqb_eq in Hp. auto.
Qed.

Lemma unpadded_ok_spec (n : Z) :
  unpadded_ok n = true ->
  1 <= length (number_to_string n) <= 2 /\
  all_digits (number_to_string n) = true /\
  parse_digits (number_to_string n) = n.
Proof.
  unfold unpadded_ok. intros H.
  apply andb_true_iff in H as [H Hp]. apply andb_true_iff in H as [H Hd].
  apply andb_true_iff in H as [H1 H2].
  apply Nat.leb_le in H1, H2. apply Z.eqb_eq in Hp. auto.
Qed.

Lemma read_exact_width (k : nat) (ds rest : jsstring) :
  length ds = k -> all_digits ds = true ->
  read_exact k (ds ++ rest) = Some (ds, rest).
Proof. intros <-. apply read_exact_app. Qed.

Lemma expressed_tail (d : CalendarDate) (t : token) (ts : list token) :
  expressed d (t :: ts) -> expressed d ts.
Proof.
  intros [Hv Hy Hw]. split; [assumption..|].
  intros H. apply Hw. simpl. rewrite H. apply orb_true_r.
Qed.

Lemma expressed_window_here (d : CalendarDate) (ts : list token) :
  expressed d (TYY :: ts) -> (1969 <= year d <= 2068)%Z.
Proof. intros [_ _ Hw]. apply Hw. reflexivity. Qed.

Lemma two_digit_year_back (y : Z) :
  (1969 <= y <= 2068)%Z -> parseTwoDigitYear (Z.rem y 100) = y.
Proof.
  intros H. unfold parseTwoDigitYear.
  rewrite Z.rem_mod_nonneg by lia.
  destruct (Z.ltb_spec 68 (y mod 100)); Z.div_mod_to_equations; lia.
Qed.

Lemma rem_100_range (y : Z) : (0 <= y)%Z -> (0 <= Z.rem y 100 <= 99)%Z.
Proof.
  intros H. rewrite Z.rem_mod_nonneg by lia. Z.div_mod_to_equations. lia.
Qed.

(** A token of the format reads its own rendering. *)
Lemma parse_token_render (d : CalendarDate) (t : token) (ts : list token)
    (rest : jsstring) (a : Fields) :
  expressed d (t :: ts) ->
  (is_unpadded t = true -> starts_with_digit rest = false) ->
  parse_token t (render_token d t ++ rest) a = Some (rest, read_token d a t).
Proof.
  intros He Hr. pose proof (expressed_valid _ _ He) as Hv.
  pose proof (expressed_year _ _ He) as Hy.
  destruct (valid_date_bounds d Hv) as [Hm Hd].
  destruct t; cbn [parse_token render_token read_token].
  - destruct (padded_ok_spec 4 (year d)) as (Hl & Hg & Hp);
      [apply zeroFill_4; lia|].
    rewrite (read_exact_width 4) by assumption. simpl. rewrite Hp. reflexivity.
  - destruct (padded_ok_spec 2 (Z.rem (year d) 100)) as (Hl & Hg & Hp);
      [apply zeroFill_2, rem_100_range; lia|].
    rewrite (read_exact_width 2) by assumption. simpl. rewrite Hp.
    rewrite two_digit_year_back by exact (expressed_window_here _ _ He).
    reflexivity.
  - destruct (padded_ok_spec 2 (month d)) as (Hl & Hg & Hp);
      [apply zeroFill_2; lia|].
    rewrite (read_exact_width 2) by assumption. simpl. rewrite Hp. reflexivity.
  - destruct (unpadded_ok_spec (month d)) as (Hl & Hg & Hp);
      [apply number_to_string_2; lia|].
    rewrite read_1to2_app by auto. simpl. rewrite Hp. reflexivity.
  - destruct (padded_ok_spec 2 (day d)) as (Hl & Hg & Hp);
      [apply zeroFill_2; lia|].
    rewrite (read_exact_width 2) by assumption. simpl. rewrite Hp. reflexivity.
  - destruct (unpadded_ok_spec (day d)) as (Hl & Hg & Hp);
      [apply number_to_string_2; lia|].
    rewrite read_1to2_app by auto. simpl. rewrite Hp. reflexivity.
  - simpl. rewrite Ascii.eqb_refl. reflexivity.
Qed.

(** The atom of a token matches the rendering of the token. *)
Lemma match_token_render (d : CalendarDate) (t : token) (ts : list token)
    (r : regex) (rest : jsstring) (n : nat) :
  expressed d (t :: ts) ->
  (is_unpadded t = true -> starts_with_digit rest = false) ->
  match_here r rest = Some n ->
  match_here (atom_of_token t :: r) (render_token d t ++ rest)
  = Some (length (render_token d t) + n).
Proof.
  intros He Hr Hn. pose proof (expressed_valid _ _ He) as Hv.
  pose proof (expressed_year _ _ He) as Hy.
  destruct (valid_date_bounds d Hv) as [Hm Hd].
  destruct t; cbn [atom_of_token render_token].
  - destruct (padded_ok_spec 4 (year d)) as (Hl & Hg & Hp);
      [apply zeroFill_4; lia|].
    rewrite match_digits_exact, Hn, Hl by assumption. reflexivity.
  - destruct (padded_ok_spec 2 (Z.rem (year d) 100)) as (Hl & Hg & Hp);
      [apply zeroFill_2, rem_100_range; lia|].
    rewrite match_digits_exact, Hn, Hl by assumption. reflexivity.
  - destruct (padded_ok_spec 2 (month d)) as (Hl & Hg & Hp);
      [apply zeroFill_2; lia|].
    rewrite match_digits_exact, Hn, Hl by assumption. reflexivity.
  - destruct (unpadded_ok_spec (month d)) as (Hl & Hg & Hp);
      [apply number_to_string_2; lia|].
    apply match_digits_1to2; auto.
  - destruct (padded_ok_spec 2 (day d)) as (Hl & Hg & Hp);
      [apply zeroFill_2; lia|].
    rewrite match_digits_exact, Hn, Hl by assumption. reflexivity.
  - destruct (unpadded_ok_spec (day d)) as (Hl & Hg & Hp);
      [apply number_to_string_2; lia|].
    apply match_digits_1to2; auto.
  - simpl. rewrite Ascii.eqb_refl, Hn. reflexivity.
Qed.

Lemma separator_not_digit (c : ascii) :
  is_separator c = true -> is_digit c = false.
Proof.
  unfold is_separator. intros H. apply negb_true_iff in H.
  apply orb_false_iff in H as [H _]. apply orb_false_iff in H as [_ H].
  exact H.
Qed.

(** What follows an unpadded token that is closed does not begin with a
    digit. *)
Lemma after_unpadded (d : CalendarDate) (t : token) (ts : list token)
    (tail : jsstring) :
  unpadded_closed (t :: ts) = true ->
  starts_with_digit tail = false ->
  is_unpadded t = true ->
  starts_with_digit (render_tokens d ts ++ tail) = false.
Proof.
  intros Hc Ht Hu. cbn [unpadded_closed] in Hc. rewrite Hu in Hc.
  apply andb_true_iff in Hc as [Hc _]. cbn [negb orb] in Hc.
  destruct ts as [|t' ts]; [exact Ht|].
  destruct t'; try discriminate. simpl.
  apply negb_true_iff, Hc.
Qed.

Lemma unpadded_closed_tail (t : token) (ts : list token) :
  unpadded_closed (t :: ts) = true -> unpadded_closed ts = true.
Proof.
  cbn [unpadded_closed]. intros H. apply andb_true_iff in H as [_ H]. exact H.
Qed.

Lemma parse_tokens_render (d : CalendarDate) (ts : list token) (a : Fields) :
  expressed d ts -> unpadded_closed ts = true ->
  parse_tokens ts (render_tokens d ts) a = Some (fold_left (read_token d) ts a).
Proof.
  revert a. induction ts as [|t ts IH]; intros a He Hc; [reflexivity|].
  cbn [parse_tokens render_tokens flat_map fold_left].
  rewrite (parse_token_render d t ts) ; [|assumption|].
  - apply IH; eauto using expressed_tail, unpadded_closed_tail.
  - intros Hu. rewrite <- (app_nil_r (flat_map _ _)).
    apply (after_unpadded d t ts []); auto.
Qed.

Lemma match_here_render (d : CalendarDate) (ts : list token) (tail : jsstring) :
  expressed d ts -> unpadded_closed ts = true ->
  starts_with_digit tail = false ->
  match_here (map atom_of_token ts) (render_tokens d ts ++ tail)
  = Some (length (render_tokens d ts)).
Proof.
  induction ts as [|t ts IH]; intros He Hc Ht; [reflexivity|].
  cbn [map render_tokens flat_map]. rewrite <- app_assoc.
  rewrite (match_token_render d t ts _ _ (length (render_tokens d ts))).
  - rewrite length_app. reflexivity.
  - assumption.
  - apply after_unpadded; assumption.
  - apply IH; eauto using expressed_tail, unpadded_closed_tail.
Qed.

Lemma read_tokens_fields (d : CalendarDate) (ts : list token) (a : Fields) :
  f_year (fold_left (read_token d) ts a)
    = (if existsb names_year ts then Some (year d) else f_year a) /\
  f_month (fold_left (read_token d) ts a)
    = (if existsb names_month ts then Some (month d) else f_month a) /\
  f_day (fold_left (read_token d) ts a)
    = (if existsb names_day ts then Some (day d) else f_day a).
Proof.
  revert a. induction ts as [|t ts IH]; intros a; [auto|].
  cbn [fold_left existsb]. destruct (IH (read_token d a t)) as (Hy & Hm & Hd).
  rewrite Hy, Hm, Hd.
  destruct t; simpl;
    destruct (existsb names_year ts), (existsb names_month ts),
      (existsb names_day ts); auto.
Qed.

Lemma expressible_expressed (d : CalendarDate) (format : jsstring) :
  expressible d format = true ->
  expressed d (tokenize format) /\
  existsb names_year (tokenize format) = true /\
  existsb names_month (tokenize format) = true /\
  existsb names_day (tokenize format) = true.
Proof.
  unfold expressible. intros H.
  apply andb_true_iff in H as [H Hd]. apply andb_true_iff in H as [H Hm].
  apply andb_true_iff in H as [H Hy]. apply andb_true_iff in H as [H Hw].
  apply andb_true_iff in H as [H H2]. apply andb_true_iff in H as [Hv H1].
  split; [|auto]. split; [assumption | lia |].
  intros E. rewrite E in Hw. simpl in Hw.
  apply andb_true_iff in Hw as [? ?]. lia.
Qed.

(** The strict parse reads a rendering back as the date rendered. *)
Lemma moment_strict_render (today d : CalendarDate) (format : jsstring) :
  expressible d format = true -> readable format = true ->
  moment_strict today (render_tokens d (tokenize format)) format = MValid d.
Proof.
  intros He Hu. apply expressible_expressed in He as (He & Hy & Hm & Hd).
  unfold readable in Hu. apply andb_true_iff in Hu as [_ Hw].
  unfold moment_strict. rewrite parse_tokens_render by assumption.
  destruct (read_tokens_fields d (tokenize format) no_fields) as (Ey & Em & Ed).
  rewrite Hy in Ey. rewrite Hm in Em. rewrite Hd in Ed.
  unfold resolve_fields. rewrite Ey, Em, Ed. simpl.
  destruct d as [y m dd]. simpl.
  change (valid_date (mkDate y m dd)) with (valid_date {| year := y; month := m; day := dd |}).
  rewrite (expressed_valid _ _ He). reflexivity.
Qed.

(** The compiled pattern matches a rendering from end to end, first. *)
Lemma regex_match0_render (d : CalendarDate) (format : jsstring) :
  expressible d format = true -> readable format = true ->
  regex_exec (compiled format) (render_tokens d (tokenize format))
  = Some (0, length (render_tokens d (tokenize format))).
Proof.
  intros He Hu. apply expressible_expressed in He as (He & _).
  unfold readable in Hu. apply andb_true_iff in Hu as [_ Hw].
  pose proof (match_here_render d (tokenize format) [] He Hw eq_refl) as H.
  rewrite app_nil_r in H. unfold compiled.
  destruct (render_tokens d (tokenize format)); simpl; rewrite H; reflexivity.
Qed.

(** ** Patterns without digit literals *)

Lemma same_class_digit (x y : ascii) :
  same_class x y -> is_digit x = is_digit y.
Proof. intros [->|[-> ->]]; reflexivity. Qed.

Lemma same_class_all_digits (s s' : jsstring) :
  Forall2 same_class s s' -> all_digits s = all_digits s'.
Proof.
  induction 1 as [|x y s s' Hxy _ IH]; [reflexivity|].
  unfold all_digits in *. cbn [forallb].
  rewrite (same_class_digit x y Hxy), IH. reflexivity.
Qed.

Lemma first_some_ext {A} (f g : nat -> option A) (ks : list nat) :
  (forall k, f k = g k) -> first_some f ks = first_some g ks.
Proof.
  intros H. induction ks as [|k ks IH]; [reflexivity|].
  simpl. rewrite H, IH. reflexivity.
Qed.

(** Such a pattern cannot tell one digit from another. *)
Lemma match_here_blind (r : regex) (s s' : jsstring) :
  forallb plain_atom r = true -> Forall2 same_class s s' ->
  match_here r s = match_here r s'.
Proof.
  revert s s'. induction r as [|a r IH]; intros s s' Hr Hs; [reflexivity|].
  simpl in Hr. apply andb_true_iff in Hr as [Ha Hr].
  destruct a as [c|lo hi]; cbn [match_here].
  - destruct Hs as [|x y s s' Hxy Hs]; [reflexivity|].
    destruct Hxy as [->|[Hx Hy]].
    + rewrite (IH s s') by assumption. reflexivity.
    + simpl in Ha. apply negb_true_iff in Ha.
      destruct (Ascii.eqb_spec x c) as [->|_]; [congruence|].
      destruct (Ascii.eqb_spec y c) as [->|_]; [congruence|]. reflexivity.
  - apply first_some_ext. intros k.
    rewrite (same_class_all_digits (take k s) (take k s'))
      by (apply Forall2_take, Hs).
    rewrite !length_take, (Forall2_length _ _ _ Hs).
    rewrite (IH (drop k s) (drop k s')) by (auto using Forall2_drop).
    reflexivity.
Qed.

Lemma regex_exec_blind (r : regex) (s s' : jsstring) :
  forallb plain_atom r = true -> Forall2 same_class s s' ->
  regex_exec r s = regex_exec r s'.
Proof.
  intros Hr Hs. induction Hs as [|x y s s' Hxy Hs IH]; [reflexivity|].
  cbn [regex_exec].
  rewrite (match_here_blind r (x :: s) (y :: s')) by (auto using Forall2_cons).
  rewrite IH. reflexivity.
Qed.

Lemma same_class_refl (s : jsstring) : Forall2 same_class s s.
Proof. induction s; constructor; [left; reflexivity | assumption]. Qed.

Lemma digits_same_class (a b : jsstring) :
  length a = length b -> all_digits a = true -> all_digits b = true ->
  Forall2 same_class a b.
Proof.
  revert b. induction a as [|x a IH]; intros [|y b] Hl Ha Hb;
    try discriminate; [constructor|].
  simpl in *. apply andb_true_iff in Ha as [Hx Ha].
  apply andb_true_iff in Hb as [Hy Hb].
  constructor; [right; auto | apply IH; auto].
Qed.

(** Two texts matched by a pattern of fixed width differ in their digits
    only. *)
Lemma matches_same_class (r : regex) (m s : jsstring) :
  forallb fixed_atom r = true -> matches r m -> matches r s ->
  Forall2 same_class m s.
Proof.
  intros Hr Hm. revert s Hr.
  induction Hm as [|c r m Hm IH|lo hi r ds m Hl Hd Hm IH]; intros s Hr Hs.
  - inversion Hs. constructor.
  - simpl in Hr. inversion Hs; subst.
    constructor; [left; reflexivity | auto].
  - simpl in Hr. apply andb_true_iff in Hr as [Hk Hr].
    apply Nat.eqb_eq in Hk. subst hi. inversion Hs; subst.
    apply Forall2_app; [|auto].
    apply digits_same_class; [lia | assumption..].
Qed.

Lemma name_separator_separator (c : ascii) :
  is_name_separator c = true -> is_separator c = true.
Proof.
  unfold is_name_separator. intros H.
  apply andb_true_iff in H as [H _]. apply andb_true_iff in H as [H _].
  exact H.
Qed.

Lemma fixed_width_tokens (format : jsstring) :
  fixed_width format = true ->
  forallb fixed_width_token (tokenize format) = true.
Proof.
  unfold fixed_width. intros H. apply andb_true_iff in H as [H _]. exact H.
Qed.

Lemma fixed_width_atoms (format : jsstring) :
  fixed_width format = true ->
  forallb plain_atom (compiled format) = true /\
  forallb fixed_atom (compiled format) = true.
Proof.
  intros H. apply fixed_width_tokens in H. revert H.
  unfold compiled. induction (tokenize format) as [|t ts IH]; [auto|].
  simpl. intros H. apply andb_true_iff in H as [Ht Hts].
  destruct (IH Hts) as [-> ->].
  destruct t; try discriminate; simpl; auto.
  rewrite (separator_not_digit c (name_separator_separator c Ht)). auto.
Qed.

Lemma separator_literal (c : ascii) :
  is_separator c = true -> library_literal c = true.
Proof.
  unfold is_separator, library_literal. intros H.
  apply negb_true_iff in H. apply orb_false_iff in H as [H ->].
  apply orb_false_iff in H as [-> _]. reflexivity.
Qed.

Lemma fixed_width_readable (format : jsstring) :
  fixed_width format = true -> readable format = true.
Proof.
  unfold fixed_width, readable. intros H.
  apply andb_true_iff in H as [Hf ->]. rewrite andb_true_r.
  induction (tokenize format) as [|t ts IH]; [reflexivity|].
  simpl in Hf. apply andb_true_iff in Hf as [Ht Hts].
  specialize (IH Hts). apply andb_true_iff in IH as [Hl Hw].
  cbn [forallb unpadded_closed]. rewrite Hl, Hw, !andb_true_r.
  destruct t; try discriminate; cbn [literal_ok is_unpadded negb orb andb];
    try reflexivity.
  rewrite andb_true_r. apply separator_literal, name_separator_separator, Ht.
Qed.

Lemma digit_not_dollar (s : jsstring) :
  all_digits s = true -> dollar_free s = true.
Proof.
  induction s as [|c s IH]; [reflexivity|].
  simpl. intros H. apply andb_true_iff in H as [Hc Hs].
  rewrite IH by assumption.
  destruct (Ascii.eqb_spec c "$") as [->|_]; [discriminate | reflexivity].
Qed.

Lemma separator_not_dollar (c : ascii) :
  is_name_separator c = true -> Ascii.eqb c "$" = false.
Proof.
  unfold is_name_separator. intros H.
  apply andb_true_iff in H as [_ H]. apply negb_true_iff in H. exact H.
Qed.

Lemma dollar_free_app (a b : jsstring) :
  dollar_free (a ++ b) = dollar_free a && dollar_free b.
Proof. apply forallb_app. Qed.

(** A rendering in a format of fixed width has no dollar sign. *)
Lemma render_dollar_free (d : CalendarDate) (ts : list token) :
  expressed d ts -> forallb fixed_width_token ts = true ->
  dollar_free (render_tokens d ts) = true.
Proof.
  induction ts as [|t ts IH]; intros He Hf; [reflexivity|].
  simpl in Hf. apply andb_true_iff in Hf as [Ht Hts].
  cbn [render_tokens flat_map]. rewrite dollar_free_app.
  fold (render_tokens d ts). rewrite IH by eauto using expressed_tail.
  rewrite andb_true_r.
  pose proof (expressed_valid _ _ He) as Hv.
  pose proof (expressed_year _ _ He) as Hy.
  destruct (valid_date_bounds d Hv) as [Hm Hd].
  destruct t; try discriminate; cbn [render_token].
  - apply digit_not_dollar, (padded_ok_spec 4), zeroFill_4. lia.
  - apply digit_not_dollar, (padded_ok_spec 2), zeroFill_2. lia.
  - apply digit_not_dollar, (padded_ok_spec 2), zeroFill_2. lia.
  - simpl. rewrite (separator_not_dollar c Ht). reflexivity.
Qed.

(** ** Rename, then the rename handler *)

(** Replacing the first match by a rendering in a format of fixed width
    leaves the first match where it was, and the rendering in it. *)
Lemma replace_keeps_first_match (d : CalendarDate) (format b : jsstring)
    (i n : nat) :
  fixed_width format = true -> expressible d format = true ->
  regex_exec (compiled format) b = Some (i, n) ->
  let s := render_tokens d (tokenize format) in
  let b' := take i b ++ s ++ drop (i + n) b in
  length s = n /\
  regex_exec (compiled format) b' = Some (i, n) /\
  take n (drop i b') = s.
Proof.
  intros Hfw He Hb s b'.
  pose proof (fixed_width_readable format Hfw) as Hu.
  destruct (fixed_width_atoms format Hfw) as [Hplain Hfixed].
  destruct (regex_exec_sound _ _ _ _ Hb) as (Hl & Hm & _).
  assert (Hs : matches (compiled format) s).
  { pose proof (regex_match0_render d format He Hu) as H.
    apply regex_exec_sound in H as (_ & H & _).
    rewrite drop_0, firstn_all in H. exact H. }
  pose proof (matches_same_class _ _ _ Hfixed Hm Hs) as Hc.
  assert (Hn : length s = n).
  { rewrite <- (Forall2_length _ _ _ Hc), length_take, length_drop. lia. }
  assert (Hb' : Forall2 same_class b b').
  { rewrite <- (take_drop i b) at 1. rewrite <- (take_drop n (drop i b)) at 1.
    rewrite drop_drop. unfold b'.
    apply Forall2_app; [apply same_class_refl|].
    apply Forall2_app; [exact Hc | apply same_class_refl]. }
  split; [exact Hn|]. split.
  - rewrite <- (regex_exec_blind _ b b') by assumption. exact Hb.
  - unfold b'. rewrite drop_app_length' by (rewrite length_take; lia).
    rewrite take_app_length' by (symmetry; assumption). reflexivity.
Qed.

(** ** Numbers *)

Lemma digit_char_of_value (c : ascii) (v : nat) :
  digit_value c = Some v -> v < 10 /\ c = digit_char (N.of_nat v).
Proof.
  unfold digit_value.
  destruct c as [[] [] [] [] [] [] [] []]; simpl; try discriminate;
    intros [= <-]; split; (lia || reflexivity).
Qed.

Lemma is_digit_value (c : ascii) :
  is_digit c = true -> exists v, digit_value c = Some v.
Proof.
  unfold is_digit, digit_value. destruct (Ascii.is_nat c); eauto. discriminate.
Qed.

Lemma parse_digits_snoc (s : jsstring) (c : ascii) :
  parse_digits (s ++ [c])
  = (10 * parse_digits s + Z.of_nat (default 0%nat (digit_value c)))%Z.
Proof. unfold parse_digits. rewrite fold_left_app. reflexivity. Qed.

(** Digit strings of one length that read as the same number are equal. *)
Lemma parse_digits_inj (s s' : jsstring) :
  length s = length s' -> all_digits s = true -> all_digits s' = true ->
  parse_digits s = parse_digits s' -> s = s'.
Proof.
  revert s'. induction s as [|c s IH] using rev_ind; intros s' Hl Hs Hs' Hp.
  - destruct s'; [reflexivity | discriminate].
  - destruct s' as [|c' s' _] using rev_ind.
    { rewrite length_app in Hl. simpl in Hl. lia. }
    rewrite !length_app in Hl. simpl in Hl.
    rewrite all_digits_app in Hs, Hs'.
    apply andb_true_iff in Hs as [Hs Hc]. apply andb_true_iff in Hs' as [Hs' Hc'].
    simpl in Hc, Hc'. rewrite andb_true_r in Hc, Hc'.
    destruct (is_digit_value c Hc) as [v Hv].
    destruct (is_digit_value c' Hc') as [v' Hv'].
    rewrite !parse_digits_snoc, Hv, Hv' in Hp.
    change (default 0%nat (Some v)) with v in Hp.
    change (default 0%nat (Some v')) with v' in Hp.
    destruct (digit_char_of_value c v Hv) as [Hlt ->].
    destruct (digit_char_of_value c' v' Hv') as [Hlt' ->].
    assert (v = v' /\ parse_digits s = parse_digits s') as [-> Hps] by lia.
    rewrite (IH s') by (assumption || lia). reflexivity.
Qed.

Lemma parse_digits_bound (s : jsstring) :
  all_digits s = true ->
  (0 <= parse_digits s < 10 ^ Z.of_nat (length s))%Z.
Proof.
  induction s as [|c s IH] using rev_ind; intros Hs.
  - unfold parse_digits. simpl. lia.
  - rewrite all_digits_app in Hs. apply andb_true_iff in Hs as [Hs Hc].
    simpl in Hc. rewrite andb_true_r in Hc.
    destruct (is_digit_value c Hc) as [v Hv].
    destruct (digit_char_of_value c v Hv) as [Hlt _].
    rewrite parse_digits_snoc, Hv, length_app.
    change (default 0%nat (Some v)) with v. cbn [length].
    rewrite Nat2Z.inj_add, Z.pow_add_r by lia.
    specialize (IH Hs). change (10 ^ Z.of_nat 1)%Z with 10%Z. lia.
Qed.

Lemma round_to_double_exact (n : Z) :
  (n < 2 ^ 53)%Z -> round_to_double n = n.
Proof.
  intros H. unfold round_to_double.
  destruct (Z.ltb_spec n (2 ^ 53)); [reflexivity | lia].
Qed.

(** Above 2^53 the result is a multiple [k * 2^e] of the unit in the
    last place with a significand [k] of 53 bits, at most half a unit
    away from the integer, and with an even significand at exactly half
    a unit. *)
Lemma round_to_double_nearest (n : Z) :
  (2 ^ 53 <= n)%Z ->
  let e := (Z.log2 n - 52)%Z in
  exists k,
    round_to_double n = (k * 2 ^ e)%Z /\
    (2 ^ 52 <= k <= 2 ^ 53)%Z /\
    (2 * Z.abs (round_to_double n - n) <= 2 ^ e)%Z /\
    ((2 * Z.abs (round_to_double n - n) = 2 ^ e)%Z -> Z.even k = true).
Proof.
  intros Hn e. unfold round_to_double.
  destruct (Z.ltb_spec n (2 ^ 53)); [lia|]. fold e.
  assert (Hpos : (0 < n)%Z) by lia.
  assert (Hl : (53 <= Z.log2 n)%Z) by (apply Z.log2_le_pow2; lia).
  assert (He : (1 <= e)%Z) by (unfold e; lia).
  destruct (Z.log2_spec n Hpos) as [Hlo Hhi].
  replace (Z.log2 n) with (e + 52)%Z in Hlo by (unfold e; lia).
  replace (Z.succ (Z.log2 n)) with (e + 53)%Z in Hhi by (unfold e; lia).
  rewrite Z.pow_add_r in Hlo, Hhi by lia.
  assert (Hhalf : (2 ^ e = 2 * 2 ^ (e - 1))%Z).
  { replace e with (1 + (e - 1))%Z at 1 by lia.
    rewrite Z.pow_add_r by lia. reflexivity. }
  assert (HP : (0 < 2 ^ (e - 1))%Z) by (apply Z.pow_pos_nonneg; lia).
  set (P := (2 ^ e)%Z) in *. set (H2 := (2 ^ (e - 1))%Z) in *.
  pose proof (Z.div_mod n P ltac:(lia)) as Hdm.
  pose proof (Z.mod_pos_bound n P ltac:(lia)) as Hr.
  set (q := (n / P)%Z) in *. set (r := (n mod P)%Z) in *.
  assert (Hq : (2 ^ 52 <= q < 2 ^ 53)%Z) by nia.
  destruct (Z.ltb_spec H2 r) as [Hgt|Hle]; cbn [orb].
  - exists (q + 1)%Z. split; [reflexivity|]. split; [lia|].
    split; [lia|]. intros E. exfalso. lia.
  - destruct (Z.eqb_spec r H2) as [Heq|Hne]; cbn [andb].
    + destruct (Z.odd q) eqn:Ho.
      * exists (q + 1)%Z. split; [reflexivity|]. split; [lia|].
        split; [lia|]. intros _.
        rewrite Z.even_add, <- Z.negb_odd, Ho. reflexivity.
      * exists q. split; [reflexivity|]. split; [lia|].
        split; [lia|]. intros _. rewrite <- Z.negb_odd, Ho. reflexivity.
    + exists q. split; [reflexivity|]. split; [lia|].
      split; [lia|]. intros E. exfalso. lia.
Qed.

(** The integers that become positive infinity: those from
    2^1024 - 2^970 on, half a unit in the last place above the largest
    double. *)
Lemma round_to_double_overflow (n : Z) :
  (0 <= n)%Z ->
  (round_to_double n < 2 ^ 1024 <-> n < 2 ^ 1024 - 2 ^ 970)%Z.
Proof.
  intros H0.
  assert (HA : (0 < 2 ^ 970)%Z) by (apply Z.pow_pos_nonneg; lia).
  assert (H1024 : (2 ^ 1024 = 2 ^ 54 * 2 ^ 970)%Z)
by reflexivity.
  destruct (Z.lt_ge_cases n (2 ^ 53)) as [Hs|Hb].
  { rewrite round_to_double_exact by assumption. rewrite H1024. nia. }
  destruct (round_to_double_nearest n Hb) as (k & -> & Hk & Hnear & Htie).
  assert (Hpos : (0 < n)%Z) by lia.
  destruct (Z.log2_spec n Hpos) as [Hlo Hhi].
  set (e := (Z.log2 n - 52)%Z) in *.
  assert (He : (1 <= e)%Z)
    by (unfold e; assert (53 <= Z.log2 n)%Z by (apply Z.log2_le_pow2; lia); lia).
  replace (Z.log2 n) with (52 + e)%Z in Hlo by (unfold e; lia).
  replace (Z.succ (Z.log2 n)) with (53 + e)%Z in Hhi by (unfold e; lia).
  rewrite Z.pow_add_r in Hlo, Hhi by lia.
  rewrite H1024.
  destruct (Z.lt_trichotomy e 971) as [Hlt|[Heq|Hgt]].
  - assert (Hm : (2 * 2 ^ e <= 2 ^ 971)%Z).
    { replace (2 * 2 ^ e)%Z with (2 ^ (1 + e))%Z
        by (rewrite Z.pow_add_r by lia; reflexivity).
      apply Z.pow_le_mono_r; lia. }
    assert (H971 : (2 ^ 971 = 2 * 2 ^ 970)%Z)
      by reflexivity.
    set (P := (2 ^ e)%Z) in *. set (A := (2 ^ 970)%Z) in *. nia.
  - rewrite Heq in *.
    assert (H971 : (2 ^ 971 = 2 * 2 ^ 970)%Z)
      by reflexivity.
    rewrite H971 in *. set (A := (2 ^ 970)%Z) in *.
    split.
    + intros Hr. assert (Hk' : (k <= 2 ^ 53 - 1)%Z) by nia.
      destruct (Z.eq_dec n ((2 ^ 54 - 1) * A)%Z) as [En|Hne]; [|nia].
      exfalso. assert (Ek : k = (2 ^ 53 - 1)%Z) by nia.
      assert (Et : Z.even k = true) by (apply Htie; nia).
      rewrite Ek in Et. discriminate Et.
    + intros Hn. nia.
  - assert (Hm : (2 ^ 972 <= 2 ^ e)%Z) by (apply Z.pow_le_mono_r; lia).
    assert (H972 : (2 ^ 972 = 4 * 2 ^ 970)%Z)
      by reflexivity.
    set (P := (2 ^ e)%Z) in *. set (A := (2 ^ 970)%Z) in *. nia.
Qed.

Lemma number_of_integer_cases (n : Z) :
  (0 <= n)%Z ->
  ((n < 2 ^ 1024 - 2 ^ 970)%Z ->
     number_of_integer n = JNum (round_to_double n)) /\
  ((2 ^ 1024 - 2 ^ 970 <= n)%Z -> number_of_integer n = JInfinity).
Proof.
  intros H0. unfold number_of_integer.
  pose proof (round_to_double_overflow n H0) as H.
  destruct (Z.ltb_spec (round_to_double n) (2 ^ 1024)); split; intros Hn;
    try reflexivity; exfalso; lia.
Qed.

(** ** What the formatter returns *)

Lemma digit_not_letter (c : ascii) : is_digit c = true -> is_letter c = false.
Proof.
  destruct c as [[] [] [] [] [] [] [] []]; vm_compute; intros H;
    (reflexivity || discriminate H).
Qed.

Lemma digits_no_letter (s : jsstring) :
  all_digits s = true -> forallb (fun c => negb (is_letter c)) s = true.
Proof.
  induction s as [|c s IH]; [reflexivity|]. simpl. intros H.
  apply andb_true_iff in H as [Hc Hs].
  rewrite (digit_not_letter c Hc), IH by assumption. reflexivity.
Qed.

Lemma render_token_digits (d : CalendarDate) (t : token) (ts : list token) :
  expressed d (t :: ts) ->
  match t with
  | TLit c => render_token d t = [c]
  | _ => all_digits (render_token d t) = true /\ render_token d t <> []
  end.
Proof.
  intros He. pose proof (expressed_valid _ _ He) as Hv.
  pose proof (expressed_year _ _ He) as Hy.
  destruct (valid_date_bounds d Hv) as [Hm Hd].
  assert (Hne : forall s : jsstring, 1 <= length s -> s <> [])
    by (intros s H ->; simpl in H; lia).
  destruct t; cbn [render_token]; try reflexivity.
  - destruct (padded_ok_spec 4 (year d)) as (Hl & Hg & _);
      [apply zeroFill_4; lia|]. split; [exact Hg | apply Hne; lia].
  - destruct (padded_ok_spec 2 (Z.rem (year d) 100)) as (Hl & Hg & _);
      [apply zeroFill_2, rem_100_range; lia|].
    split; [exact Hg | apply Hne; lia].
  - destruct (padded_ok_spec 2 (month d)) as (Hl & Hg & _);
      [apply zeroFill_2; lia|]. split; [exact Hg | apply Hne; lia].
  - destruct (unpadded_ok_spec (month d)) as (Hl & Hg & _);
      [apply number_to_string_2; lia|]. split; [exact Hg | apply Hne; lia].
  - destruct (padded_ok_spec 2 (day d)) as (Hl & Hg & _);
      [apply zeroFill_2; lia|]. split; [exact Hg | apply Hne; lia].
  - destruct (unpadded_ok_spec (day d)) as (Hl & Hg & _);
      [apply number_to_string_2; lia|]. split; [exact Hg | apply Hne; lia].
Qed.

(** A rendering has no letter when the literals of the format have
    none. *)
Lemma render_no_letter (d : CalendarDate) (ts : list token) :
  expressed d ts -> forallb literal_ok ts = true ->
  forallb (fun c => negb (is_letter c)) (render_tokens d ts) = true.
Proof.
  induction ts as [|t ts IH]; intros He Hl; [reflexivity|].
  simpl in Hl. apply andb_true_iff in Hl as [Ht Hts].
  cbn [render_tokens flat_map]. rewrite forallb_app.
  fold (render_tokens d ts). rewrite IH by eauto using expressed_tail.
  rewrite andb_true_r.
  pose proof (render_token_digits d t ts He) as H.
  destruct t; try (apply digits_no_letter, H).
  rewrite H. simpl. rewrite andb_true_r.
  unfold library_literal in Ht. apply negb_true_iff in Ht.
  apply orb_false_iff in Ht as [-> _]. reflexivity.
Qed.

Lemma parse_digits_positive (s : jsstring) :
  all_digits s = true -> existsb nonzero_digit s = true ->
  (0 < parse_digits s)%Z.
Proof.
  induction s as [|c s IH] using rev_ind; intros Hs Hz; [discriminate|].
  rewrite all_digits_app in Hs. apply andb_true_iff in Hs as [Hs Hc].
  simpl in Hc. rewrite andb_true_r in Hc.
  rewrite existsb_app in Hz. simpl in Hz. rewrite orb_false_r in Hz.
  destruct (is_digit_value c Hc) as [v Hv].
  destruct (digit_char_of_value c v Hv) as [Hlt ->].
  rewrite parse_digits_snoc, Hv. change (default 0%nat (Some v)) with v.
  pose proof (parse_digits_bound s Hs) as Hb.
  apply orb_true_iff in Hz as [Hz|Hz]; [specialize (IH Hs Hz); lia|].
  destruct v as [|v]; [discriminate Hz | lia].
Qed.

Lemma render_nonzero_digit (d : CalendarDate) (ts : list token) :
  expressed d ts -> existsb names_month ts = true ->
  existsb nonzero_digit (render_tokens d ts) = true.
Proof.
  induction ts as [|t ts IH]; intros He Hm; [discriminate|].
  cbn [render_tokens flat_map]. rewrite existsb_app.
  fold (render_tokens d ts).
  pose proof (expressed_valid _ _ He) as Hv.
  destruct (valid_date_bounds d Hv) as [Hmo _].
  assert (H2 : forall m, (1 <= m <= 12)%Z ->
                 existsb nonzero_digit (zeroFill m 2) = true).
  { intros m Hr.
    pose proof (check_range (fun m => (m =? 0)%Z
                  || existsb nonzero_digit (zeroFill m 2)) 13%Z eq_refl m) as H.
    cbv beta in H. destruct (Z.eqb_spec m 0); [lia | apply H; lia]. }
  assert (H1 : forall m, (1 <= m <= 12)%Z ->
                 existsb nonzero_digit (number_to_string m) = true).
  { intros m Hr.
    pose proof (check_range (fun m => (m =? 0)%Z
                  || existsb nonzero_digit (number_to_string m)) 13%Z
                  eq_refl m) as H.
    cbv beta in H. destruct (Z.eqb_spec m 0); [lia | apply H; lia]. }
  destruct t; cbn [existsb names_month orb] in Hm;
    try (rewrite IH by eauto using expressed_tail; apply orb_true_r).
  - cbn [render_token]. rewrite H2 by lia. reflexivity.
  - cbn [render_token]. rewrite H1 by lia. reflexivity.
Qed.

Lemma round_to_double_positive (n : Z) :
  (0 < n)%Z -> (0 < round_to_double n)%Z.
Proof.
  intros Hn. destruct (Z.lt_ge_cases n (2 ^ 53)) as [Hs|Hb].
  - rewrite round_to_double_exact by assumption. exact Hn.
  - destruct (round_to_double_nearest n Hb) as (k & -> & Hk & _).
    assert (0 < 2 ^ (Z.log2 n - 52))%Z.
    { apply Z.pow_pos_nonneg; [lia|].
      assert (53 <= Z.log2 n)%Z by (apply Z.log2_le_pow2; lia). lia. }
    nia.
Qed.

(** The value that the formatter returns for a date that the format can
    express is truthy: a text that is not empty, or a number that is not
    zero. *)
Lemma formatFrontmatterDate_truthy (st : DateMirrorSettings) (d : CalendarDate) :
  expressible d (dateFormat st) = true ->
  js_truthy (formatFrontmatterDate st d) = true.
Proof.
  intros He. apply expressible_expressed in He as (He & _ & Hm & _).
  pose proof (render_nonzero_digit d _ He Hm) as Hz.
  unfold formatFrontmatterDate. cbn [moment_format].
  set (output := render_tokens d (tokenize (dateFormat st))) in *.
  destruct (is_integer_text output) eqn:Hi.
  - assert (Hd : all_digits output = true)
      by (destruct output; [discriminate | exact Hi]).
    pose proof (parse_digits_positive output Hd Hz) as Hp.
    pose proof (round_to_double_positive _ Hp) as Hr.
    unfold parseInt, number_of_integer.
    destruct (round_to_double (parse_digits output) <? 2 ^ 1024)%Z;
      [|reflexivity].
    simpl. destruct (Z.eqb_spec (round_to_double (parse_digits output)) 0);
      [lia | reflexivity].
  - destruct output; [discriminate Hz | reflexivity].
Qed.

(** ** Formats without a token letter *)

Lemma tokenize_literals (format : jsstring) :
  forallb (fun c => negb (token_letter c)) format = true ->
  tokenize format = map TLit format.
Proof.
  induction format as [|c f IH]; [reflexivity|].
  cbn [forallb]. intros H. apply andb_true_iff in H as [Hc Hf].
  rewrite tokenize_cons.
  assert (Hn : next_token (c :: f) = (TLit c, 1)).
  { unfold next_token. cbv [str String.list_ascii_of_string starts_with].
    unfold token_letter in Hc. cbv [str String.list_ascii_of_string existsb] in Hc.
    rewrite orb_false_r in Hc. apply negb_true_iff in Hc.
    apply orb_false_iff in Hc as [HY Hc]. apply orb_false_iff in Hc as [HM HD].
    rewrite Ascii.eqb_sym in HY, HM, HD. rewrite HY, HM, HD. reflexivity. }
  rewrite Hn. cbn [fst snd]. rewrite Nat.sub_diag, drop_0, IH by assumption.
  reflexivity.
Qed.

Lemma matches_literals (format m : jsstring) :
  matches (map AChar format) m <-> m = format.
Proof.
  split.
  - revert m. induction format as [|c f IH]; intros m H; inversion H; subst.
    + reflexivity.
    + f_equal. auto.
  - intros ->. induction format as [|c f IH]; constructor. exact IH.
Qed.
(** * The claims of the specification *)

(** C1, as stated, fails: with the settings still at their defaults the
    handlers use "DEFAULT" as the name of the property.  A rename to
    "Daily 2025-01-02" writes that date under the key "DEFAULT", and a
    frontmatter that has a key "DEFAULT" makes updateFilename rename the
    file. *)
Lemma C1_counterexample :
  let st := loadSettings None in
  dateProperty st = str "DEFAULT" /\
  updateFrontmatter_write a_day st
    (mkFile (Some (str "journal")) (str "Daily 2025-01-02") (str "md")) ∅
    = Ok (Some (JStr (str "2025-01-02"))) /\
  updateFrontmatter a_day st
    (mkFile (Some (str "journal")) (str "Daily 2025-01-02") (str "md")) ∅
    = Ok {[ str "DEFAULT" := JStr (str "2025-01-02") ]} /\
  updateFilename moment_iso st
    (Some {[ str "DEFAULT" := JStr (str "2024-11-30") ]})
    (mkFile (Some (str "notes")) (str "Meeting 2023-05-01 notes") (str "md"))
    = Ok (Some (str "notes/Meeting 2024-11-30 notes.md")).
Proof. repeat split; reflexivity. Qed.

(** C1, amended.  When dateProperty still holds "DEFAULT" the handlers
    treat it as the name of a property like any other: updateFilename
    requests no rename for every file whose frontmatter has no truthy
    value under the key "DEFAULT", and updateFrontmatter makes no
    assignment exactly when no date is extracted from the basename or the
    value stored under "DEFAULT" is already the new value; otherwise it
    assigns the new value to the key "DEFAULT". *)
Theorem C1_default_is_an_ordinary_key (today : CalendarDate)
    (moment : JsValue -> Moment) (st : DateMirrorSettings)
    (cache : option Frontmatter) (frontmatter : Frontmatter) (file : TFile) :
  dateProperty st = str "DEFAULT" ->
  (js_truthy match cache with
             | Some fm => fm_get fm (str "DEFAULT")
             | None => JUndefined
             end = false ->
   updateFilename moment st cache file = Ok None) /\
  (updateFrontmatter_write today st file frontmatter = Ok None <->
     extractDateFromFilename today st (basename file) = Ok None \/
     exists d, extractDateFromFilename today st (basename file) = Ok (Some d) /\
               fm_get frontmatter (str "DEFAULT") = formatFrontmatterDate st d) /\
  (forall d,
     extractDateFromFilename today st (basename file) = Ok (Some d) ->
     fm_get frontmatter (str "DEFAULT") <> formatFrontmatterDate st d ->
     updateFrontmatter today st file frontmatter
       = Ok (<[str "DEFAULT" := formatFrontmatterDate st d]> frontmatter)).
Proof.
  intros Hp. split; [|split].
  - intros H. apply updateFilename_falsy. rewrite Hp. exact H.
  - unfold updateFrontmatter_write.
    rewrite extractDateFromFilename_eq.
    destruct (match regex_match0 _ _ with Some _ => _ | None => _ end)
      as [d|]; simpl.
    + unfold frontmatter_write. rewrite Hp.
      destruct (js_strict_eq _ _) eqn:E.
      * apply js_strict_eq_true in E. split; [|reflexivity].
        intros _. right. eauto.
      * apply js_strict_eq_false in E. split; [discriminate|].
        intros [H | (d' & [= <-] & H)]; [discriminate | contradiction].
    + split; [auto | reflexivity].
  - intros d He Hne. rewrite <- Hp. rewrite <- Hp in Hne.
    apply (updateFrontmatter_cases today st file frontmatter d He), Hne.
Qed.

Lemma C1_default_is_an_ordinary_key_witness :
  let st := loadSettings None in
  let cache : option Frontmatter :=
    Some {[ str "date" := JStr (str "2024-11-30") ]} in
  let file := mkFile (Some (str "notes")) (str "Meeting 2023-05-01 notes")
                (str "md") in
  dateProperty st = str "DEFAULT" /\
  js_truthy match cache with
            | Some fm => fm_get fm (str "DEFAULT")
            | None => JUndefined
            end = false /\
  updateFilename moment_iso st cache file = Ok None.
Proof.
  intros st cache file.
  split; [reflexivity|]. split; [reflexivity|].
  exact (proj1 (C1_default_is_an_ordinary_key a_day moment_iso st cache ∅ file
                  eq_refl) eq_refl).
Defined.

(** C2, as stated, fails: with the format "YYYY-MD" the eleventh of
    January 2024 is rendered as "2024-111", which the extractor reads as
    the first of November. *)
Lemma C2_counterexample :
  let st := mkSettings (str "date") (str "YYYY-MD") in
  expressible (mkDate 2024 1 11) (dateFormat st) = true /\
  formatFrontmatterDate st (mkDate 2024 1 11) = JStr (str "2024-111") /\
  extractDateFromFilename a_day st (str "2024-111")
    = Ok (Some (mkDate 2024 11 1)).
Proof. repeat split; reflexivity. Qed.

(** C2, amended.  Take a format in which every unpadded token M or D
    ends the format or is followed by a literal that is not a digit, and
    which lies in the vocabulary of the date library that the model
    covers (no literal is a letter, a bracket or a backslash, and no two
    tokens of one field stand side by side), and a date that the format
    can express (an existing date with a year of at most four digits,
    inside 1969-2068 when the format has the two-digit year, the format
    naming year, month and day).  Then the extractor applied to the
    rendered text returns the date, whether the rendering is made of
    digits only or not.  The formatter returns the rendered text itself,
    so that extracting from what it returns gives the date, unless the
    rendering is made of digits only: then it returns the number that
    parseInt reads from the rendering. *)
Theorem C2_roundtrip_rendered (today : CalendarDate)
    (st : DateMirrorSettings) (d : CalendarDate) :
  expressible d (dateFormat st) = true ->
  readable (dateFormat st) = true ->
  let output := moment_format (MValid d) (dateFormat st) in
  extractDateFromFilename today st output = Ok (Some d) /\
  (forall s, formatFrontmatterDate st d = JStr s ->
     extractDateFromFilename today st s = Ok (Some d)) /\
  (formatFrontmatterDate st d = JStr output \/
   is_integer_text output = true /\
   formatFrontmatterDate st d = parseInt output).
Proof.
  intros He Hu output.
  assert (Hx : extractDateFromFilename today st output = Ok (Some d)).
  { unfold output. cbn [moment_format].
    rewrite extractDateFromFilename_eq. unfold regex_match0.
    rewrite regex_match0_render by assumption.
    rewrite drop_0, firstn_all, moment_strict_render by assumption.
    reflexivity. }
  split; [exact Hx|]. unfold formatFrontmatterDate. fold output.
  destruct (is_integer_text output) eqn:Hi.
  - split; [|right; auto]. intros s Hs. exfalso. revert Hs.
    unfold parseInt, number_of_integer.
    destruct (_ <? _)%Z; discriminate.
  - split; [|left; reflexivity]. intros s [= <-]. exact Hx.
Qed.

Lemma C2_roundtrip_rendered_witness :
  let st := mkSettings (str "date") (str "YYYYMMDD") in
  let st' := mkSettings (str "date") (str "D.M.YY") in
  expressible (mkDate 2024 1 11) (dateFormat st) = true /\
  readable (dateFormat st) = true /\
  extractDateFromFilename a_day st (str "20240111")
    = Ok (Some (mkDate 2024 1 11)) /\
  expressible (mkDate 2024 1 11) (dateFormat st') = true /\
  readable (dateFormat st') = true /\
  formatFrontmatterDate st' (mkDate 2024 1 11) = JStr (str "11.1.24") /\
  extractDateFromFilename a_day st' (str "11.1.24")
    = Ok (Some (mkDate 2024 1 11)).
Proof.
  intros st st'. split; [reflexivity|]. split; [reflexivity|].
  split; [exact (proj1 (C2_roundtrip_rendered a_day st (mkDate 2024 1 11)
                          eq_refl eq_refl))|].
  split; [reflexivity|]. split; [reflexivity|]. split; [reflexivity|].
  exact (proj1 (proj2 (C2_roundtrip_rendered a_day st' (mkDate 2024 1 11)
                         eq_refl eq_refl)) (str "11.1.24") eq_refl).
Defined.

(** C3. The two handlers do not read the property in the same way:
    updateFrontmatter writes the date in the configured format, and
    updateFilename reads the stored value with the permissive parse of
    the date library, which need not read that format.  Let the format
    consist of the padded tokens YYYY, MM and DD and of separators, let
    the stored value be read by the host as the date d and differ from
    the value that the formatter gives for d, and let the host not read
    that value back.  When the frontmatter-changed handler renames the
    file, the rename handler applied to the renamed file replaces the
    stored value, and the frontmatter-changed handler, run on the result,
    renames the file once more and puts the text "Invalid date" in the
    place of the date.  So it goes with the format "DD.MM.YYYY", the
    stored value "2024-11-30" and the file "Meeting 01.05.2023 notes":
    the file becomes "Meeting 30.11.2024 notes", the stored value
    "30.11.2024", and the file "Meeting Invalid date notes". *)
Theorem C3_rename_then_write_oscillates (today : CalendarDate)
    (moment : JsValue -> Moment) (st : DateMirrorSettings) (file : TFile)
    (frontmatter : Frontmatter) (d : CalendarDate) (newName : jsstring) :
  let stored := fm_get frontmatter (dateProperty st) in
  let written := formatFrontmatterDate st d in
  let frontmatter' := <[dateProperty st := written]> frontmatter in
  fixed_width (dateFormat st) = true ->
  expressible d (dateFormat st) = true ->
  moment stored = MValid d ->
  stored <> written ->
  moment written = MInvalid ->
  updateFilename_newName moment st (Some frontmatter) file = Ok (Some newName) ->
  updateFrontmatter today st (renamed file newName) frontmatter
    = Ok frontmatter' /\
  fm_get frontmatter' (dateProperty st) <> stored /\
  exists pre m post,
    basename file = pre ++ m ++ post /\
    regex_match0 (compiled (dateFormat st)) (basename file) = Some m /\
    newName = pre ++ moment_format (MValid d) (dateFormat st) ++ post /\
    updateFilename_newName moment st (Some frontmatter') (renamed file newName)
      = Ok (Some (pre ++ str "Invalid date" ++ post)) /\
    updateFilename moment st (Some frontmatter') (renamed file newName)
      = Ok (Some (new_path file (pre ++ str "Invalid date" ++ post))).
Proof.
  intros stored written frontmatter' Hfw He Hm Hne Hinv Hren.
  pose proof (fixed_width_readable _ Hfw) as Hu.
  pose proof (expressible_expressed _ _ He) as (Hex & _).
  assert (Hdf : dollar_free (render_tokens d (tokenize (dateFormat st))) = true)
    by (apply render_dollar_free; [assumption | apply fixed_width_tokens, Hfw]).
  unfold updateFilename_newName in Hren. fold stored in Hren.
  rewrite Hm in Hren.
  destruct (js_truthy stored) eqn:Htruthy; [|discriminate].
  cbn [moment_format] in Hren.
  rewrite replaceDateInFilename_plain in Hren by assumption.
  cbn [and_then] in Hren.
  destruct (regex_exec (compiled (dateFormat st)) (basename file))
    as [[i n]|] eqn:Hb.
  2:{ rewrite bool_decide_eq_true_2 in Hren by reflexivity. discriminate. }
  destruct (bool_decide _) in Hren; [discriminate|].
  injection Hren as <-.
  destruct (replace_keeps_first_match d _ _ i n Hfw He Hb) as (Hn & Hb' & Hs).
  destruct (regex_exec_sound _ _ _ _ Hb) as (Hlen & _).
  set (s := render_tokens d (tokenize (dateFormat st))) in *.
  set (pre := take i (basename file)) in *.
  set (post := drop (i + n) (basename file)) in *.
  set (b' := pre ++ s ++ post) in *.
  assert (Hpre : length pre = i) by (unfold pre; rewrite length_take; lia).
  assert (Hx : extractDateFromFilename today st b' = Ok (Some d)).
  { rewrite extractDateFromFilename_eq. unfold regex_match0.
    rewrite Hb', Hs. unfold s. rewrite moment_strict_render by assumption.
    reflexivity. }
  destruct (updateFrontmatter_cases today st (renamed file b') frontmatter d Hx)
    as [Hdiff _].
  destruct (Hdiff Hne) as [_ Hf]. split; [exact Hf|].
  assert (Hget : fm_get frontmatter' (dateProperty st) = written)
    by (unfold frontmatter', fm_get; rewrite lookup_insert_eq; reflexivity).
  split; [rewrite Hget; congruence|].
  exists pre, (take n (drop i (basename file))), post.
  split; [unfold pre, post; rewrite <- drop_drop, !take_drop; reflexivity|].
  split; [unfold regex_match0; rewrite Hb; reflexivity|].
  split; [reflexivity|].
  assert (Hnew : updateFilename_newName moment st (Some frontmatter')
                   (renamed file b')
                 = Ok (Some (pre ++ str "Invalid date" ++ post))).
  { unfold updateFilename_newName. rewrite Hget.
    unfold written. rewrite formatFrontmatterDate_truthy by assumption.
    fold written. rewrite Hinv. cbn [moment_format renamed basename].
    rewrite replaceDateInFilename_plain by reflexivity. rewrite Hb'.
    cbn [and_then].
    assert (E1 : take i b' = pre)
      by (unfold b'; rewrite take_app_length' by (symmetry; assumption);
          reflexivity).
    assert (E2 : drop (i + n) b' = post).
    { unfold b'. rewrite app_assoc, drop_app_length'; [reflexivity|].
      rewrite length_app. lia. }
    rewrite E1, E2.
    rewrite bool_decide_eq_false_2; [reflexivity|].
    unfold b'. intros E. apply app_inv_head, app_inv_tail in E.
    pose proof (render_no_letter d _ Hex) as Hl.
    unfold readable in Hu. apply andb_true_iff in Hu as [Hu _].
    apply andb_true_iff in Hu as [Hu _]. specialize (Hl Hu).
    fold s in Hl. rewrite <- E in Hl. discriminate Hl. }
  split; [exact Hnew|].
  unfold updateFilename. rewrite Hnew. reflexivity.
Qed.

Lemma C3_rename_then_write_oscillates_witness :
  let st := mkSettings (str "date") (str "DD.MM.YYYY") in
  let file := mkFile (Some (str "notes")) (str "Meeting 01.05.2023 notes")
                (str "md") in
  let frontmatter : Frontmatter := {[ str "date" := JStr (str "2024-11-30") ]} in
  let frontmatter' : Frontmatter :=
    <[ str "date" := JStr (str "30.11.2024") ]> frontmatter in
  let d := mkDate 2024 11 30 in
  let renamed_file := renamed file (str "Meeting 30.11.2024 notes") in
  (fixed_width (dateFormat st) = true /\
   expressible d (dateFormat st) = true /\
   moment_iso (fm_get frontmatter (dateProperty st)) = MValid d /\
   fm_get frontmatter (dateProperty st) <> formatFrontmatterDate st d /\
   moment_iso (formatFrontmatterDate st d) = MInvalid) /\
  updateFilename_newName moment_iso st (Some frontmatter) file
    = Ok (Some (str "Meeting 30.11.2024 notes")) /\
  updateFrontmatter a_day st renamed_file frontmatter = Ok frontmatter' /\
  updateFilename moment_iso st (Some frontmatter') renamed_file
    = Ok (Some (str "notes/Meeting Invalid date notes.md")).
Proof.
  intros st file frontmatter frontmatter' d renamed_file.
  assert (Hne : fm_get frontmatter (dateProperty st)
                <> formatFrontmatterDate st d) by discriminate.
  split; [repeat split; (reflexivity || exact Hne)|].
  split; [reflexivity|].
  pose proof (C3_rename_then_write_oscillates a_day moment_iso st file
                frontmatter d (str "Meeting 30.11.2024 notes")
                eq_refl eq_refl eq_refl Hne eq_refl eq_refl) as [H _].
  split; [exact H | reflexivity].
Defined.

(** ** The format-to-pattern compiler *)

(** C4. For every format, createDatePatternFromFormat escapes the syntax
    characters of the pattern language, the fourteen characters
    . * + ? ^ $ { } ( ) | [ ] and the backslash, each with a backslash,
    and no other character, and substitutes the tokens in the order
    YYYY, YY, MM, M, DD, D: the text of the pattern is the
    token-by-token translation of the format read longest token first,
    the pattern is built without an exception, YYYY becomes exactly four
    digits (a YYYY at the head is never split into two YY), YY, MM and
    DD exactly two, M and D one or two, and every other character
    stands for itself: a format without the letters Y, M and D compiles
    to a pattern that matches the text of the format and nothing else.
    The pattern has no anchors: a text it matches is found anywhere in a
    longer string.  The pattern of "YYYY-MM-DD" matches the whole of
    "2024-01-05", where that of "YY-MM-DD" would take "24-01-05" only, and
    it does not match "24-01-05". *)
Theorem C4_compiler_priority_no_anchor (format : jsstring) :
  escape_regex (str ".*+?^${}()|[]\ YMD-/:_a0")
    = str "\.\*\+\?\^\$\{\}\(\)\|\[\]\\ YMD-/:_a0" /\
  escape_regex format
    = flat_map (fun c => if is_syntax_character c then ["\"; c] else [c])
        format /\
  date_pattern_source format = flat_map token_source (tokenize format) /\
  date_pattern_source (str "YYYY" ++ format)
    = str "\d{4}" ++ date_pattern_source format /\
  createDatePatternFromFormat format
    = Ok (map atom_of_token (tokenize format)) /\
  (forallb (fun c => negb (token_letter c)) format = true ->
   createDatePatternFromFormat format = Ok (map AChar format) /\
   forall m, matches (compiled format) m <-> m = format) /\
  (forall pre m post,
     matches (compiled format) m ->
     regex_test (compiled format) (pre ++ m ++ post) = true) /\
  createDatePatternFromFormat (str "YYYY-MM-DD")
    = Ok [ADigits 4 4; AChar "-"; ADigits 2 2; AChar "-"; ADigits 2 2] /\
  regex_match0 (compiled (str "YYYY-MM-DD")) (str "2024-01-05")
    = Some (str "2024-01-05") /\
  regex_match0 (compiled (str "YY-MM-DD")) (str "2024-01-05")
    = Some (str "24-01-05") /\
  regex_test (compiled (str "YYYY-MM-DD")) (str "24-01-05") = false.
Proof.
  split; [reflexivity|].
  split.
  { unfold escape_regex. apply flat_map_ext. intros c.
    unfold escape_char. rewrite regex_special_syntax. reflexivity. }
  split; [apply date_pattern_source_tokens|].
  split; [apply date_pattern_source_YYYY|].
  split; [apply compile_tokens|].
  split.
  { intros Hl. pose proof (tokenize_literals format Hl) as Ht.
    assert (Hc : compiled format = map AChar format).
    { unfold compiled. rewrite Ht, map_map. reflexivity. }
    split; [rewrite compile_tokens, Hc; reflexivity|].
    intros m. rewrite Hc. apply matches_literals. }
  split; [|repeat split; reflexivity].
  intros pre m post Hm. apply regex_test_true.
  exists pre, m, post. auto.
Qed.

Lemma C4_compiler_priority_no_anchor_witness :
  (matches (compiled (str "YYYY-MM-DD")) (str "2024-01-05") /\
   regex_test (compiled (str "YYYY-MM-DD")) (str "Meeting 2024-01-05 notes")
     = true) /\
  (forallb (fun c => negb (token_letter c)) (str "v1.0 (a+b)") = true /\
   createDatePatternFromFormat (str "v1.0 (a+b)")
     = Ok (map AChar (str "v1.0 (a+b)")) /\
   regex_test (compiled (str "v1.0 (a+b)")) (str "v1x0 (aab)") = false).
Proof.
  assert (H : matches (compiled (str "YYYY-MM-DD")) (str "2024-01-05"))
    by (apply matches_by_exec; reflexivity).
  split; [split; [exact H|]|].
  - exact (proj1 (proj2 (proj2 (proj2 (proj2 (proj2 (proj2
             (C4_compiler_priority_no_anchor (str "YYYY-MM-DD"))))))))
             (str "Meeting ") (str "2024-01-05") (str " notes") H).
  - split; [reflexivity|]. split; [|reflexivity].
    exact (proj1 (proj1 (proj2 (proj2 (proj2 (proj2 (proj2
             (C4_compiler_priority_no_anchor (str "v1.0 (a+b)")))))))
             eq_refl)).
Defined.

(** ** The date extractor *)

(** C5. For every filename, extractDateFromFilename returns without an
    exception; it returns null exactly when the compiled pattern occurs
    nowhere in the filename or the first match fails the strict parse
    against the format, and it returns a date exactly when the first
    match parses to it.  The first match is the leftmost occurrence and
    no other is looked at: in "2024-13-05 then 2024-01-05" the first
    match names month 13 and the result is null although a later
    occurrence is a date. *)
Theorem C5_extractor_not_found (today : CalendarDate)
    (st : DateMirrorSettings) (filename : jsstring) :
  let r := compiled (dateFormat st) in
  (exists res, extractDateFromFilename today st filename = Ok res) /\
  (extractDateFromFilename today st filename = Ok None <->
     no_occurrence r filename \/
     exists m, regex_match0 r filename = Some m /\
               moment_strict today m (dateFormat st) = MInvalid) /\
  (forall d, extractDateFromFilename today st filename = Ok (Some d) <->
     exists m, regex_match0 r filename = Some m /\
               moment_strict today m (dateFormat st) = MValid d) /\
  (forall m, regex_match0 r filename = Some m ->
     exists pre, occurs_at r filename pre m /\
       forall pre' m', occurs_at r filename pre' m' ->
                       length pre <= length pre') /\
  extractDateFromFilename today DEFAULT_SETTINGS
    (str "2024-13-05 then 2024-01-05") = Ok None.
Proof.
  intros r. rewrite extractDateFromFilename_eq. fold r.
  split; [eauto|]. split; [|split; [|split]].
  - unfold regex_match0. rewrite <- regex_exec_no_occurrence.
    destruct (regex_exec r filename) as [[i n]|] eqn:E.
    + destruct (moment_strict today (take n (drop i filename)) (dateFormat st))
        eqn:Ep.
      * split; [discriminate|].
        intros [H | (m & [= <-] & H)]; congruence.
      * split; [|reflexivity]. intros _. right. eauto.
    + split; [auto | reflexivity].
  - intros d. destruct (regex_match0 r filename) as [m|].
    + destruct (moment_strict today m (dateFormat st)) eqn:Ep.
      * split.
        -- intros [= ->]. eauto.
        -- intros (m' & [= <-] & H). congruence.
      * split; [discriminate|]. intros (m' & [= <-] & H). congruence.
    + split; [discriminate|]. intros (m' & H & _). discriminate.
  - intros m. unfold regex_match0.
    destruct (regex_exec r filename) as [[i n]|] eqn:E; [|discriminate].
    intros [= <-]. apply regex_exec_first in E as [Ho Hf].
    exists (take i filename). split; [exact Ho|].
    intros pre' m' H. specialize (Hf _ _ H).
    rewrite length_take. lia.
  - reflexivity.
Qed.

Lemma C5_extractor_not_found_witness :
  regex_match0 (compiled (str "YYYY-MM-DD")) (str "Daily 2025-01-02")
    = Some (str "2025-01-02") /\
  exists pre,
    occurs_at (compiled (str "YYYY-MM-DD")) (str "Daily 2025-01-02") pre
      (str "2025-01-02") /\
    forall pre' m',
      occurs_at (compiled (str "YYYY-MM-DD")) (str "Daily 2025-01-02") pre' m' ->
      length pre <= length pre'.
Proof.
  split; [reflexivity|].
  exact (proj1 (proj2 (proj2 (proj2
           (C5_extractor_not_found a_day DEFAULT_SETTINGS
              (str "Daily 2025-01-02")))))
           (str "2025-01-02") eq_refl).
Defined.

(** C6, as stated, fails where the digits denote more than a number can
    hold.  With the format "YYYYMMDDYYYYMMDDYYYYMMDD" the date 2024-01-05
    renders as "202401052024010520240105" and the formatter returns the
    number 202401052024010507812864; with "YYYYMMDD" 39 times over the
    rendering has 312 digits and the formatter returns Infinity, which is
    not an integer. *)
Lemma C6_counterexample :
  let d := mkDate 2024 1 5 in
  let st := mkSettings (str "date") (str "YYYYMMDDYYYYMMDDYYYYMMDD") in
  let st' := mkSettings (str "date") (List.concat (repeat (str "YYYYMMDD") 39)) in
  moment_format (MValid d) (dateFormat st) = str "202401052024010520240105" /\
  formatFrontmatterDate st d = JNum 202401052024010507812864 /\
  is_integer_text (moment_format (MValid d) (dateFormat st')) = true /\
  formatFrontmatterDate st' d = JInfinity.
Proof. repeat split; vm_compute; reflexivity. Qed.

(** C6, amended.  For every date and format, formatFrontmatterDate
    returns a number exactly when the rendered text is made of digits
    only (one or more), and returns the rendered text unchanged
    otherwise.  The number is the double nearest to the integer that the
    digits denote: that integer itself when it is below 2^53, as for
    every rendering of at most 15 digits; from 2^53 on a multiple of the
    unit in the last place, at most half a unit away and with an even
    significand at exactly half a unit; and Infinity from
    2^1024 - 2^970 on.  For "YYYYMMDD" and 2024-01-05 it returns the
    number 20240105. *)
Theorem C6_formatter_number_iff_digits (st : DateMirrorSettings)
    (d : CalendarDate) :
  let output := moment_format (MValid d) (dateFormat st) in
  let digits_only := output <> [] /\ Forall (fun c => is_digit c = true) output in
  let n := parse_digits output in
  let result := formatFrontmatterDate st d in
  ((exists v, result = JNum v) \/ result = JInfinity <-> digits_only) /\
  (digits_only -> (n < 2 ^ 53)%Z -> result = JNum n) /\
  (digits_only -> length output <= 15 -> result = JNum n) /\
  (digits_only -> (2 ^ 53 <= n < 2 ^ 1024 - 2 ^ 970)%Z ->
     let ulp := (2 ^ (Z.log2 n - 52))%Z in
     exists k, result = JNum (k * ulp) /\ (2 ^ 52 <= k <= 2 ^ 53)%Z /\
       (2 * Z.abs (k * ulp - n) <= ulp)%Z /\
       ((2 * Z.abs (k * ulp - n) = ulp)%Z -> Z.even k = true)) /\
  (digits_only -> (2 ^ 1024 - 2 ^ 970 <= n)%Z -> result = JInfinity) /\
  (~ digits_only -> result = JStr output) /\
  formatFrontmatterDate (mkSettings (str "date") (str "YYYYMMDD"))
    (mkDate 2024 1 5) = JNum 20240105.
Proof.
  intros output digits_only n result.
  unfold result, formatFrontmatterDate. fold output.
  unfold digits_only. rewrite <- is_integer_text_spec.
  destruct (is_integer_text output) eqn:Hi.
  - assert (Hd : all_digits output = true)
      by (destruct output; [discriminate | exact Hi]).
    pose proof (parse_digits_bound output Hd) as Hb. fold n in Hb.
    destruct (number_of_integer_cases n (proj1 Hb)) as [Hfin Hinf].
    unfold parseInt. fold n.
    assert (Hsmall : (n < 2 ^ 53)%Z -> number_of_integer n = JNum n).
    { intros Hn. rewrite Hfin.
      - rewrite round_to_double_exact by assumption. reflexivity.
      - assert (2 ^ 53 < 2 ^ 1024 - 2 ^ 970)%Z by reflexivity. lia. }
    split; [|split; [|split; [|split; [|split; [|split]]]]].
    + split; [reflexivity|]. intros _.
      unfold number_of_integer. destruct (_ <? _)%Z; eauto.
    + intros _. exact Hsmall.
    + intros _ Hl. apply Hsmall.
      assert (10 ^ Z.of_nat (length output) <= 10 ^ 15)%Z
        by (apply Z.pow_le_mono_r; lia).
      assert (10 ^ 15 < 2 ^ 53)%Z by reflexivity. lia.
    + intros _ [Hlo Hhi]. cbv zeta. rewrite Hfin by assumption.
      destruct (round_to_double_nearest n Hlo) as (k & Hk & Hr & Hn & Ht).
      rewrite Hk in *. eauto.
    + intros _. exact Hinf.
    + intros H. exfalso. auto.
    + reflexivity.
  - split; [|split; [|split; [|split; [|split; [|split]]]]];
      try discriminate; try reflexivity.
    split; [intros [[v H]|H]; discriminate | discriminate].
Qed.

Lemma C6_formatter_number_iff_digits_witness :
  let d := mkDate 2024 1 5 in
  let digits_only (s : jsstring) :=
    s <> [] /\ Forall (fun c => is_digit c = true) s in
  (digits_only (str "20240105") /\
   formatFrontmatterDate (mkSettings (str "date") (str "YYYYMMDD")) d
     = JNum 20240105) /\
  (~ digits_only (str "2024-01-05") /\
   formatFrontmatterDate DEFAULT_SETTINGS d = JStr (str "2024-01-05")) /\
  (digits_only (List.concat (repeat (str "20240105") 39)) /\
   formatFrontmatterDate
     (mkSettings (str "date") (List.concat (repeat (str "YYYYMMDD") 39))) d
     = JInfinity).
Proof.
  intros d digits_only.
  assert (H1 : digits_only (str "20240105"))
    by (apply is_integer_text_spec; reflexivity).
  assert (H2 : ~ digits_only (str "2024-01-05")).
  { intros H. apply is_integer_text_spec in H. discriminate H. }
  assert (H3 : digits_only (List.concat (repeat (str "20240105") 39)))
    by (apply is_integer_text_spec; reflexivity).
  split; [split; [exact H1|]|split; [split; [exact H2|]|split; [exact H3|]]].
  - exact (proj1 (proj2 (proj2
      (C6_formatter_number_iff_digits (mkSettings (str "date") (str "YYYYMMDD"))
         d))) H1 ltac:(simpl; lia)).
  - exact (proj1 (proj2 (proj2 (proj2 (proj2 (proj2
      (C6_formatter_number_iff_digits DEFAULT_SETTINGS d)))))) H2).
  - apply (proj1 (proj2 (proj2 (proj2 (proj2
      (C6_formatter_number_iff_digits
         (mkSettings (str "date") (List.concat (repeat (str "YYYYMMDD") 39)))
         d))))) H3).
    apply Z.leb_le. vm_compute. reflexivity.
Defined.

(** C7. replaceDateInFilename hands its second argument to
    [String.prototype.replace] as a template.  With the format
    "YYYY-MM-DD" the first example of the specification holds, later
    matches are left alone and a filename without a match comes back
    unchanged; but the replacement "$&" brings back the old date instead
    of the two characters, and with the format "YYYY-MM-DD $$" the new
    name loses one of the two dollar signs. *)
Theorem C7_rewriter_replacement_template :
  replaceDateInFilename DEFAULT_SETTINGS
    (str "Meeting 2023-05-01 notes") (str "2024-11-30")
    = Ok (str "Meeting 2024-11-30 notes") /\
  replaceDateInFilename DEFAULT_SETTINGS
    (str "2023-05-01 to 2023-06-01") (str "2024-11-30")
    = Ok (str "2024-11-30 to 2023-06-01") /\
  replaceDateInFilename DEFAULT_SETTINGS (str "Meeting notes") (str "2024-11-30")
    = Ok (str "Meeting notes") /\
  replaceDateInFilename DEFAULT_SETTINGS
    (str "Meeting 2023-05-01 notes") (str "$&")
    = Ok (str "Meeting 2023-05-01 notes") /\
  replaceDateInFilename (mkSettings (str "date") (str "YYYY-MM-DD $$"))
    (str "Meeting 2023-05-01 $$ notes")
    (moment_format (MValid (mkDate 2024 11 30)) (str "YYYY-MM-DD $$"))
    = Ok (str "Meeting 2024-11-30 $ notes").
Proof. repeat split; reflexivity. Qed.

(** C8. When a date is extracted from the new basename, updateFrontmatter
    assigns the new value to frontmatter[dateProperty] if and only if it
    differs from the value stored there; when the stored value is equal
    there is no assignment and the mapping is the one it was. *)
Theorem C8_write_iff_differs (today : CalendarDate) (st : DateMirrorSettings)
    (file : TFile) (frontmatter : Frontmatter) (d : CalendarDate) :
  extractDateFromFilename today st (basename file) = Ok (Some d) ->
  let newDate := formatFrontmatterDate st d in
  let stored := fm_get frontmatter (dateProperty st) in
  ((exists v, updateFrontmatter_write today st file frontmatter = Ok (Some v))
     <-> stored <> newDate) /\
  (stored <> newDate ->
     updateFrontmatter_write today st file frontmatter = Ok (Some newDate) /\
     updateFrontmatter today st file frontmatter
       = Ok (<[dateProperty st := newDate]> frontmatter)) /\
  (stored = newDate ->
     updateFrontmatter_write today st file frontmatter = Ok None /\
     updateFrontmatter today st file frontmatter = Ok frontmatter).
Proof.
  intros He newDate stored.
  destruct (updateFrontmatter_cases today st file frontmatter d He)
    as [Hw Hn]. fold newDate stored in Hw, Hn.
  split; [|split; assumption]. split.
  - intros [v Hv] Heq. destruct (Hn Heq) as [H _]. congruence.
  - intros Hne. destruct (Hw Hne) as [H _]. eauto.
Qed.

Lemma C8_write_iff_differs_witness :
  let file := mkFile (Some (str "journal")) (str "Daily 2025-01-02") (str "md") in
  let before : Frontmatter := {[ str "date" := JStr (str "2024-11-30") ]} in
  let after : Frontmatter := {[ str "date" := JStr (str "2025-01-02") ]} in
  let st := mkSettings (str "date") (str "YYYY-MM-DD") in
  extractDateFromFilename a_day st (basename file)
    = Ok (Some (mkDate 2025 1 2)) /\
  updateFrontmatter a_day st file before = Ok after /\
  updateFrontmatter_write a_day st file after = Ok None /\
  updateFrontmatter a_day st file after = Ok after.
Proof.
  intros file before after st.
  assert (He : extractDateFromFilename a_day st (basename file)
               = Ok (Some (mkDate 2025 1 2))) by reflexivity.
  split; [exact He|].
  destruct (C8_write_iff_differs a_day st file before _ He) as (_ & Hw & _).
  destruct (C8_write_iff_differs a_day st file after _ He) as (_ & _ & Hn).
  split.
  - rewrite (proj2 (Hw ltac:(discriminate))).
    unfold before, after. rewrite insert_singleton_eq. reflexivity.
  - apply Hn. reflexivity.
Defined.

(** C9. When the basename that replaceDateInFilename computes is the
    current basename, updateFilename requests no rename; this is so in
    particular when the compiled pattern occurs nowhere in the basename. *)
Theorem C9_no_rename_when_name_unchanged (moment : JsValue -> Moment)
    (st : DateMirrorSettings) (cache : option Frontmatter) (file : TFile) :
  let value :=
    match cache with
    | Some frontmatter => fm_get frontmatter (dateProperty st)
    | None => JUndefined
    end in
  let formattedDate := moment_format (moment value) (dateFormat st) in
  (replaceDateInFilename st (basename file) formattedDate
     = Ok (basename file) ->
   updateFilename moment st cache file = Ok None) /\
  (no_occurrence (compiled (dateFormat st)) (basename file) ->
   updateFilename moment st cache file = Ok None).
Proof.
  intros value formattedDate. split.
  - intros H. unfold updateFilename, updateFilename_newName.
    fold value. destruct (js_truthy value); [|reflexivity].
    fold formattedDate. rewrite H. simpl.
    rewrite bool_decide_eq_true_2 by reflexivity. reflexivity.
  - intros H. apply updateFilename_same_name. intros newDate.
    apply replaceDateInFilename_no_match, H.
Qed.

Lemma C9_no_rename_when_name_unchanged_witness :
  let st := mkSettings (str "date") (str "YYYY-MM-DD") in
  let cache : option Frontmatter :=
    Some {[ str "date" := JStr (str "2024-11-30") ]} in
  no_occurrence (compiled (dateFormat st)) (str "Shopping list") /\
  updateFilename moment_iso st cache
    (mkFile (Some (str "notes")) (str "Shopping list") (str "md")) = Ok None /\
  updateFilename moment_iso st cache
    (mkFile (Some (str "notes")) (str "Daily 2024-11-30") (str "md")) = Ok None.
Proof.
  intros st cache.
  assert (H : no_occurrence (compiled (dateFormat st)) (str "Shopping list"))
    by (apply regex_exec_no_occurrence; reflexivity).
  split; [exact H|]. split.
  - exact (proj2 (C9_no_rename_when_name_unchanged moment_iso st cache
                    (mkFile (Some (str "notes")) (str "Shopping list") (str "md")))
             H).
  - exact (proj1 (C9_no_rename_when_name_unchanged moment_iso st cache
                    (mkFile (Some (str "notes")) (str "Daily 2024-11-30") (str "md")))
             eq_refl).
Defined.

(** C10. updateFilename tests the value of the configured property for
    truthiness: when the value stored under dateProperty is the number 0,
    the empty string, false or null, the handler requests no rename, as
    it does when the key is missing. *)
Theorem C10_falsy_value_no_rename (moment : JsValue -> Moment)
    (st : DateMirrorSettings) (frontmatter : Frontmatter) (file : TFile)
    (v : JsValue) :
  frontmatter !! dateProperty st = Some v ->
  In v [JNum 0; JStr []; JBool false; JNull] ->
  js_truthy v = false /\
  updateFilename moment st (Some frontmatter) file = Ok None.
Proof.
  intros Hv Hin.
  assert (Hf : js_truthy v = false).
  { simpl in Hin. destruct Hin as [<-|[<-|[<-|[<-|[]]]]]; reflexivity. }
  split; [exact Hf|].
  apply updateFilename_falsy. unfold fm_get. rewrite Hv. exact Hf.
Qed.

Lemma C10_falsy_value_no_rename_witness :
  let st := mkSettings (str "date") (str "YYYY-MM-DD") in
  let frontmatter : Frontmatter := {[ str "date" := JNum 0 ]} in
  frontmatter !! dateProperty st = Some (JNum 0) /\
  updateFilename moment_iso st (Some frontmatter)
    (mkFile (Some (str "notes")) (str "Daily 2024-11-30") (str "md")) = Ok None.
Proof.
  intros st frontmatter.
  assert (H : frontmatter !! dateProperty st = Some (JNum 0))
    by apply lookup_singleton_eq.
  split; [exact H|].
  apply (C10_falsy_value_no_rename moment_iso st frontmatter _ (JNum 0) H).
  simpl. auto.
Defined.

(** * Further properties of the code *)

(** ** The handlers never raise *)

(** X2. Whatever the format, the file or folder and the frontmatter, the
    two event callbacks end without an exception: the pattern that the
    plugin builds is always a well-formed pattern. *)
Theorem X2_callbacks_never_raise (today : CalendarDate)
    (moment : JsValue -> Moment) (st : DateMirrorSettings)
    (cache : option Frontmatter) (frontmatter : Frontmatter)
    (file : TAbstractFile) :
  (exists request, on_changed moment st cache file = Ok request) /\
  (exists frontmatter', on_rename today st file frontmatter = Ok frontmatter').
Proof.
  destruct file as [f|]; [|simpl; eauto]. split.
  - unfold on_changed, updateFilename, updateFilename_newName.
    destruct (js_truthy _); [|simpl; eauto].
    rewrite replaceDateInFilename_eq. simpl.
    destruct (bool_decide _); simpl; eauto.
  - unfold on_rename, updateFrontmatter, updateFrontmatter_write.
    rewrite extractDateFromFilename_eq. simpl.
    destruct (match regex_match0 _ _ with Some _ => _ | None => _ end) as [d|];
      simpl; [|eauto].
    destruct (frontmatter_write st d frontmatter); simpl; eauto.
Qed.

(** ** The rename handler *)

Lemma formatFrontmatterDate_defined (st : DateMirrorSettings) (d : CalendarDate) :
  formatFrontmatterDate st d <> JUndefined.
Proof.
  unfold formatFrontmatterDate, parseInt, number_of_integer.
  destruct (is_integer_text _); [|discriminate].
  destruct (_ <? _)%Z; discriminate.
Qed.

Lemma fm_get_insert (fm : Frontmatter) (k : jsstring) (v : JsValue) :
  fm_get (<[k := v]> fm) k = v.
Proof. unfold fm_get. rewrite lookup_insert_eq. reflexivity. Qed.

(** After updateFrontmatter the value under dateProperty is the
    formatted date if a date was extracted; otherwise nothing changed. *)
Lemma updateFrontmatter_post (today : CalendarDate)
    (st : DateMirrorSettings) (file : TFile)
    (frontmatter frontmatter' : Frontmatter) :
  updateFrontmatter today st file frontmatter = Ok frontmatter' ->
  (forall d, extractDateFromFilename today st (basename file) = Ok (Some d) ->
     fm_get frontmatter' (dateProperty st) = formatFrontmatterDate st d) /\
  (extractDateFromFilename today st (basename file) = Ok None ->
     frontmatter' = frontmatter).
Proof.
  unfold updateFrontmatter, updateFrontmatter_write.
  rewrite extractDateFromFilename_eq. simpl.
  destruct (match regex_match0 _ _ with Some _ => _ | None => _ end) as [d|];
    simpl.
  - unfold frontmatter_write.
    destruct (js_strict_eq _ _) eqn:E; simpl; intros [= <-].
    + apply js_strict_eq_true in E. split; [|discriminate].
      intros d' [= <-]. exact E.
    + split; [|discriminate]. intros d' [= <-]. apply fm_get_insert.
  - intros [= <-]. split; [discriminate | auto].
Qed.

(** X4. updateFrontmatter changes no key but dateProperty.  When a date
    is extracted from the basename, the value under dateProperty
    afterwards is the formatted date, whether an assignment was needed
    or not; when none is extracted the frontmatter is the one it was. *)
Theorem X4_rename_handler_frame (today : CalendarDate)
    (st : DateMirrorSettings) (file : TFile)
    (frontmatter frontmatter' : Frontmatter) :
  updateFrontmatter today st file frontmatter = Ok frontmatter' ->
  (forall key, key <> dateProperty st ->
     frontmatter' !! key = frontmatter !! key) /\
  (forall d, extractDateFromFilename today st (basename file) = Ok (Some d) ->
     fm_get frontmatter' (dateProperty st) = formatFrontmatterDate st d) /\
  (extractDateFromFilename today st (basename file) = Ok None ->
     frontmatter' = frontmatter).
Proof.
  unfold updateFrontmatter, updateFrontmatter_write.
  rewrite extractDateFromFilename_eq. simpl.
  destruct (match regex_match0 _ _ with Some _ => _ | None => _ end) as [d|];
    simpl.
  - unfold frontmatter_write.
    destruct (js_strict_eq _ _) eqn:E; simpl; intros [= <-].
    + apply js_strict_eq_true in E. split; [auto|]. split; [|discriminate].
      intros d' [= <-]. exact E.
    + split; [intros key Hk; apply lookup_insert_ne; congruence|].
      split; [|discriminate]. intros d' [= <-]. apply fm_get_insert.
  - intros [= <-]. split; [auto|]. split; [discriminate | auto].
Qed.

Lemma X4_rename_handler_frame_witness :
  let st := mkSettings (str "date") (str "YYYY-MM-DD") in
  let file := mkFile (Some (str "journal")) (str "Daily 2025-01-02") (str "md") in
  let before : Frontmatter :=
    {[ str "date" := JStr (str "2024-11-30"); str "tags" := JStr (str "daily") ]} in
  let after : Frontmatter :=
    <[ str "date" := JStr (str "2025-01-02") ]> before in
  updateFrontmatter a_day st file before = Ok after /\
  after !! str "tags" = before !! str "tags".
Proof.
  intros st file before after.
  assert (H : updateFrontmatter a_day st file before = Ok after) by reflexivity.
  split; [exact H|].
  apply (proj1 (X4_rename_handler_frame a_day st file before after H)).
  discriminate.
Defined.

(** X5. updateFrontmatter is idempotent: applied to its own result for
    the same file it makes no assignment and returns that result. *)
Theorem X5_rename_handler_idempotent (today : CalendarDate)
    (st : DateMirrorSettings) (file : TFile)
    (frontmatter frontmatter' : Frontmatter) :
  updateFrontmatter today st file frontmatter = Ok frontmatter' ->
  updateFrontmatter_write today st file frontmatter' = Ok None /\
  updateFrontmatter today st file frontmatter' = Ok frontmatter'.
Proof.
  intros H.
  assert (Hw : updateFrontmatter_write today st file frontmatter' = Ok None).
  { destruct (updateFrontmatter_post today st file frontmatter frontmatter' H)
      as [Hd Hn].
    unfold updateFrontmatter_write. rewrite extractDateFromFilename_eq in *.
    simpl.
    destruct (match regex_match0 _ _ with Some _ => _ | None => _ end) as [d|];
      [|reflexivity].
    unfold frontmatter_write. rewrite (Hd d eq_refl).
    unfold js_strict_eq. rewrite bool_decide_eq_true_2 by reflexivity.
    reflexivity. }
  split; [exact Hw|]. unfold updateFrontmatter. rewrite Hw. reflexivity.
Qed.

Lemma X5_rename_handler_idempotent_witness :
  let st := mkSettings (str "date") (str "YYYY-MM-DD") in
  let file := mkFile (Some (str "journal")) (str "Daily 2025-01-02") (str "md") in
  let before : Frontmatter := {[ str "date" := JStr (str "2024-11-30") ]} in
  let after : Frontmatter := <[ str "date" := JStr (str "2025-01-02") ]> before in
  updateFrontmatter a_day st file before = Ok after /\
  updateFrontmatter a_day st file after = Ok after.
Proof.
  intros st file before after.
  assert (H : updateFrontmatter a_day st file before = Ok after) by reflexivity.
  split; [exact H|].
  exact (proj2 (X5_rename_handler_idempotent a_day st file before after H)).
Defined.

(** X6. A file whose frontmatter lacks the property gets it: when the key
    is missing and a date is extracted from the basename, updateFrontmatter
    assigns the formatted date, which is never undefined. *)
Theorem X6_missing_property_is_added (today : CalendarDate)
    (st : DateMirrorSettings) (file : TFile) (frontmatter : Frontmatter)
    (d : CalendarDate) :
  frontmatter !! dateProperty st = None ->
  extractDateFromFilename today st (basename file) = Ok (Some d) ->
  updateFrontmatter_write today st file frontmatter
    = Ok (Some (formatFrontmatterDate st d)) /\
  updateFrontmatter today st file frontmatter
    = Ok (<[dateProperty st := formatFrontmatterDate st d]> frontmatter) /\
  formatFrontmatterDate st d <> JUndefined.
Proof.
  intros Hk He.
  destruct (updateFrontmatter_cases today st file frontmatter d He) as [Hw _].
  assert (Hne : fm_get frontmatter (dateProperty st)
                <> formatFrontmatterDate st d).
  { unfold fm_get. rewrite Hk. simpl. intros E. symmetry in E.
    exact (formatFrontmatterDate_defined st d E). }
  destruct (Hw Hne) as [H1 H2]. repeat split; try assumption.
  apply formatFrontmatterDate_defined.
Qed.

Lemma X6_missing_property_is_added_witness :
  let st := mkSettings (str "date") (str "YYYYMMDD") in
  let file := mkFile (Some (str "journal")) (str "Daily 20250102") (str "md") in
  (∅ : Frontmatter) !! dateProperty st = None /\
  extractDateFromFilename a_day st (basename file) = Ok (Some (mkDate 2025 1 2)) /\
  updateFrontmatter a_day st file ∅ = Ok {[ str "date" := JNum 20250102 ]}.
Proof.
  intros st file. split; [reflexivity|]. split; [reflexivity|].
  exact (proj1 (proj2 (X6_missing_property_is_added a_day st file ∅
                         (mkDate 2025 1 2) eq_refl eq_refl))).
Defined.

(** ** The filename rewriter *)

(** X7. For a replacement without a dollar sign, replaceDateInFilename
    either finds no occurrence of the pattern and returns the filename,
    or splits the filename at the leftmost occurrence and returns the
    text before it, the replacement and the text after it. *)
Theorem X7_rewriter_plain_replacement (st : DateMirrorSettings)
    (filename newDate : jsstring) :
  dollar_free newDate = true ->
  let r := compiled (dateFormat st) in
  (no_occurrence r filename /\
   replaceDateInFilename st filename newDate = Ok filename) \/
  (exists pre m post,
     filename = pre ++ m ++ post /\ matches r m /\
     (forall pre' m', occurs_at r filename pre' m' -> length pre <= length pre') /\
     replaceDateInFilename st filename newDate = Ok (pre ++ newDate ++ post)).
Proof.
  intros Hd r. rewrite replaceDateInFilename_plain by assumption. fold r.
  destruct (regex_exec r filename) as [[i n]|] eqn:E.
  - right. destruct (regex_exec_sound _ _ _ _ E) as (Hl & Hm & _).
    destruct (regex_exec_first _ _ _ _ E) as [_ Hf].
    exists (take i filename), (take n (drop i filename)),
      (drop (i + n) filename).
    split; [rewrite <- drop_drop, !take_drop; reflexivity|].
    split; [exact Hm|]. split; [|reflexivity].
    intros pre' m' H. rewrite length_take. specialize (Hf _ _ H). lia.
  - left. split; [apply regex_exec_no_occurrence, E | reflexivity].
Qed.

Lemma X7_rewriter_plain_replacement_witness :
  dollar_free (str "2024-11-30") = true /\
  ((no_occurrence (compiled (str "YYYY-MM-DD")) (str "Ideas") /\
    replaceDateInFilename DEFAULT_SETTINGS (str "Ideas") (str "2024-11-30")
      = Ok (str "Ideas")) \/
   (exists pre m post,
      str "Ideas" = pre ++ m ++ post /\
      matches (compiled (str "YYYY-MM-DD")) m /\
      (forall pre' m',
         occurs_at (compiled (str "YYYY-MM-DD")) (str "Ideas") pre' m' ->
         length pre <= length pre') /\
      replaceDateInFilename DEFAULT_SETTINGS (str "Ideas") (str "2024-11-30")
        = Ok (pre ++ str "2024-11-30" ++ post))).
Proof.
  split; [reflexivity|].
  exact (X7_rewriter_plain_replacement DEFAULT_SETTINGS (str "Ideas")
           (str "2024-11-30") eq_refl).
Defined.

Lemma expand_replacement_app (before matched after a t : jsstring) :
  dollar_free a = true ->
  expand_replacement before matched after false (a ++ t)
  = a ++ expand_replacement before matched after false t.
Proof.
  induction a as [|c a IH]; simpl; [reflexivity|].
  intros H. apply andb_true_iff in H as [Hc Ha].
  apply negb_true_iff in Hc. rewrite Hc, IH by assumption. reflexivity.
Qed.

(** X8. The replacement is a template.  Where the pattern has a first
    match, a replacement with "$$" between two texts free of dollar
    signs puts a single dollar sign between them, and one with "$&" puts
    the matched text there: a formatted date with two dollar signs loses
    one, and "$&" alone gives the filename back. *)
Theorem X8_rewriter_template (st : DateMirrorSettings)
    (filename a b : jsstring) (i n : nat) :
  dollar_free a = true -> dollar_free b = true ->
  regex_exec (compiled (dateFormat st)) filename = Some (i, n) ->
  let pre := take i filename in
  let m := take n (drop i filename) in
  let post := drop (i + n) filename in
  filename = pre ++ m ++ post /\
  replaceDateInFilename st filename (a ++ str "$$" ++ b)
    = Ok (pre ++ (a ++ str "$" ++ b) ++ post) /\
  replaceDateInFilename st filename (a ++ str "$&" ++ b)
    = Ok (pre ++ (a ++ m ++ b) ++ post) /\
  replaceDateInFilename st filename (str "$&") = Ok filename.
Proof.
  intros Ha Hb He pre m post.
  assert (Hf : filename = pre ++ m ++ post)
    by (unfold pre, m, post; rewrite <- drop_drop, !take_drop; reflexivity).
  split; [exact Hf|].
  assert (Hd : forall t, expand_replacement pre m post false (str "$$" ++ t)
                       = "$"%char :: expand_replacement pre m post false t)
    by reflexivity.
  assert (Hm : forall t, expand_replacement pre m post false (str "$&" ++ t)
                       = m ++ expand_replacement pre m post false t)
    by reflexivity.
  rewrite !replaceDateInFilename_eq. unfold string_replace. rewrite He.
  fold pre m post. split; [|split].
  - rewrite expand_replacement_app, Hd, expand_replacement_dollar_free
      by assumption.
    reflexivity.
  - rewrite expand_replacement_app, Hm, expand_replacement_dollar_free
      by assumption.
    reflexivity.
  - change (expand_replacement pre m post false (str "$&")) with (m ++ []).
    rewrite app_nil_r, <- Hf. reflexivity.
Qed.

Lemma X8_rewriter_template_witness :
  let st := mkSettings (str "date") (str "YYYY-MM-DD $$") in
  regex_exec (compiled (dateFormat st)) (str "Meeting 2023-05-01 $$ notes")
    = Some (8, 13) /\
  replaceDateInFilename st (str "Meeting 2023-05-01 $$ notes")
    (str "2024-11-30 $$") = Ok (str "Meeting 2024-11-30 $ notes").
Proof.
  intros st. split; [reflexivity|].
  exact (proj1 (proj2 (X8_rewriter_template st
           (str "Meeting 2023-05-01 $$ notes") (str "2024-11-30 ") []
           8 13 eq_refl eq_refl eq_refl))).
Defined.

(** ** The frontmatter-changed handler *)

(** With a formatted date free of dollar signs, the handler compares the
    first match with the formatted date. *)
Lemma updateFilename_newName_plain (moment : JsValue -> Moment)
    (st : DateMirrorSettings) (cache : option Frontmatter) (file : TFile) :
  let value :=
    match cache with
    | Some frontmatter => fm_get frontmatter (dateProperty st)
    | None => JUndefined
    end in
  let formattedDate := moment_format (moment value) (dateFormat st) in
  let b := basename file in
  js_truthy value = true -> dollar_free formattedDate = true ->
  updateFilename_newName moment st cache file
  = Ok match regex_exec (compiled (dateFormat st)) b with
       | Some (i, n) =>
           if bool_decide (take n (drop i b) = formattedDate) then None
           else Some (take i b ++ formattedDate ++ drop (i + n) b)
       | None => None
       end.
Proof.
  intros value formattedDate b Ht Hd. unfold updateFilename_newName.
  fold value. rewrite Ht. fold formattedDate.
  rewrite replaceDateInFilename_plain by assumption. fold b. cbn [and_then].
  destruct (regex_exec _ b) as [[i n]|] eqn:E.
  - destruct (decide (take n (drop i b) = formattedDate)) as [Heq|Hne].
    + rewrite (bool_decide_eq_true_2 _ Heq), bool_decide_eq_true_2;
        [reflexivity|].
      rewrite <- Heq, <- drop_drop, !take_drop. reflexivity.
    + rewrite (bool_decide_eq_false_2 _ Hne), bool_decide_eq_false_2;
        [reflexivity|].
      intros Heq. apply Hne.
      assert (Hb : take i b ++ take n (drop i b) ++ drop (i + n) b = b)
        by (rewrite <- drop_drop, !take_drop; reflexivity).
      pose proof (eq_trans Heq (eq_sym Hb)) as H.
      apply app_inv_head, app_inv_tail in H. congruence.
  - rewrite bool_decide_eq_true_2 by reflexivity. reflexivity.
Qed.

(** X9. When the value of the property is truthy and the formatted date
    has no dollar sign, updateFilename requests a rename exactly when
    the pattern occurs in the basename and its first match is not the
    formatted date already.  The requested path is the path of the
    parent folder (the text "undefined" when the file has no parent), a
    slash, the basename with its first match, the leftmost occurrence of
    the pattern, replaced by the formatted date, and, unless the
    extension is empty, a dot and the extension. *)
Theorem X9_rename_iff_first_match_differs (moment : JsValue -> Moment)
    (st : DateMirrorSettings) (cache : option Frontmatter) (file : TFile) :
  let value :=
    match cache with
    | Some frontmatter => fm_get frontmatter (dateProperty st)
    | None => JUndefined
    end in
  let formattedDate := moment_format (moment value) (dateFormat st) in
  let r := compiled (dateFormat st) in
  js_truthy value = true -> dollar_free formattedDate = true ->
  ((exists path, updateFilename moment st cache file = Ok (Some path)) <->
   (exists m, regex_match0 r (basename file) = Some m /\ m <> formattedDate)) /\
  (forall path, updateFilename moment st cache file = Ok (Some path) ->
     exists pre m post,
       basename file = pre ++ m ++ post /\
       regex_match0 r (basename file) = Some m /\
       (forall pre' m', occurs_at r (basename file) pre' m' ->
                        length pre <= length pre') /\
       path = default (str "undefined") (parent_path file) ++ str "/"
              ++ (pre ++ formattedDate ++ post)
              ++ match extension file with
                 | [] => []
                 | _ :: _ => str "." ++ extension file
                 end).
Proof.
  intros value formattedDate r Ht Hd. unfold updateFilename.
  rewrite (updateFilename_newName_plain moment st cache file Ht Hd).
  fold formattedDate r. unfold regex_match0. cbn [and_then].
  destruct (regex_exec r (basename file)) as [[i n]|] eqn:E.
  - destruct (regex_exec_first _ _ _ _ E) as [_ Hfirst].
    destruct (decide (take n (drop i (basename file)) = formattedDate))
      as [Heq|Hne].
    + rewrite (bool_decide_eq_true_2 _ Heq). simpl. split.
      * split; [intros [p H]; discriminate|].
        intros (m & [= <-] & H). contradiction.
      * intros p H. discriminate.
    + rewrite (bool_decide_eq_false_2 _ Hne). simpl. split.
      * split; eauto.
      * intros p [= <-].
        exists (take i (basename file)), (take n (drop i (basename file))),
          (drop (i + n) (basename file)).
        split; [rewrite <- drop_drop, !take_drop; reflexivity|].
        split; [reflexivity|]. split.
        -- intros pre' m' H. specialize (Hfirst _ _ H).
           rewrite length_take. lia.
        -- unfold new_path. destruct (extension file).
           ++ rewrite app_nil_r. reflexivity.
           ++ rewrite <- !app_assoc. reflexivity.
  - simpl. split.
    + split; [intros [p H]; discriminate | intros (m & H & _); discriminate].
    + intros p H. discriminate.
Qed.

Lemma X9_rename_iff_first_match_differs_witness :
  let st := mkSettings (str "date") (str "YYYY-MM-DD") in
  let cache : option Frontmatter :=
    Some {[ str "date" := JStr (str "2024-11-30") ]} in
  let file := mkFile (Some (str "notes")) (str "Meeting 2023-05-01 notes")
                (str "md") in
  js_truthy (JStr (str "2024-11-30")) = true /\
  dollar_free (str "2024-11-30") = true /\
  updateFilename moment_iso st cache file
    = Ok (Some (str "notes/Meeting 2024-11-30 notes.md")) /\
  exists pre m post,
    basename file = pre ++ m ++ post /\
    regex_match0 (compiled (dateFormat st)) (basename file) = Some m /\
    (forall pre' m',
       occurs_at (compiled (dateFormat st)) (basename file) pre' m' ->
       length pre <= length pre') /\
    str "notes/Meeting 2024-11-30 notes.md"
    = default (str "undefined") (parent_path file) ++ str "/"
      ++ (pre ++ str "2024-11-30" ++ post)
      ++ match extension file with
         | [] => []
         | _ :: _ => str "." ++ extension file
         end.
Proof.
  intros st cache file. split; [reflexivity|]. split; [reflexivity|].
  split; [reflexivity|].
  exact (proj2 (X9_rename_iff_first_match_differs moment_iso st cache file
                  eq_refl eq_refl)
           (str "notes/Meeting 2024-11-30 notes.md") eq_refl).
Defined.

(** X10. A value that the date library cannot read is rendered as the text
    "Invalid date": when the value is truthy, the pattern occurs in the
    basename and the first match is not that text itself, updateFilename
    requests a rename that puts "Invalid date" in the place of the first
    match. *)
Theorem X10_unreadable_value_renames (moment : JsValue -> Moment)
    (st : DateMirrorSettings) (frontmatter : Frontmatter) (file : TFile)
    (m : jsstring) :
  let value := fm_get frontmatter (dateProperty st) in
  js_truthy value = true -> moment value = MInvalid ->
  regex_match0 (compiled (dateFormat st)) (basename file) = Some m ->
  m <> str "Invalid date" ->
  exists pre post,
    basename file = pre ++ m ++ post /\
    updateFilename moment st (Some frontmatter) file
      = Ok (Some (new_path file (pre ++ str "Invalid date" ++ post))).
Proof.
  intros value Ht Hm Hr Hne. unfold updateFilename.
  rewrite (updateFilename_newName_plain moment st (Some frontmatter) file);
    [|exact Ht|fold value; rewrite Hm; reflexivity].
  fold value. rewrite Hm. cbn [moment_format].
  unfold regex_match0 in Hr.
  destruct (regex_exec _ _) as [[i n]|]; [|discriminate].
  injection Hr as Hr. rewrite Hr, (bool_decide_eq_false_2 _ Hne).
  exists (take i (basename file)), (drop (i + n) (basename file)).
  split; [|reflexivity].
  rewrite <- Hr, <- drop_drop, !take_drop. reflexivity.
Qed.

Lemma X10_unreadable_value_renames_witness :
  let st := mkSettings (str "date") (str "YYYY-MM-DD") in
  let frontmatter : Frontmatter := {[ str "date" := JStr (str "soon") ]} in
  let file := mkFile (Some (str "notes")) (str "Meeting 2023-05-01 notes")
                (str "md") in
  moment_iso (JStr (str "soon")) = MInvalid /\
  exists pre post,
    basename file = pre ++ str "2023-05-01" ++ post /\
    updateFilename moment_iso st (Some frontmatter) file
      = Ok (Some (new_path file (pre ++ str "Invalid date" ++ post))).
Proof.
  intros st frontmatter file. split; [reflexivity|].
  apply (X10_unreadable_value_renames moment_iso st frontmatter file
           (str "2023-05-01")); [reflexivity..|discriminate].
Defined.

(** ** Reading a padded field and rendering it again *)

(** Four digits read as a number and padded to four digits again are the
    same four digits; likewise for two. *)
Lemma zeroFill_parse_4 (ds : jsstring) :
  length ds = 4 -> all_digits ds = true -> zeroFill (parse_digits ds) 4 = ds.
Proof.
  intros Hl Hd. pose proof (parse_digits_bound ds Hd) as Hb.
  rewrite Hl in Hb. change (10 ^ Z.of_nat 4)%Z with 10000%Z in Hb.
  destruct (padded_ok_spec 4 (parse_digits ds)) as (Hl' & Hd' & Hp');
    [apply zeroFill_4; lia|].
  apply parse_digits_inj; congruence.
Qed.

Lemma zeroFill_parse_2 (ds : jsstring) :
  length ds = 2 -> all_digits ds = true -> zeroFill (parse_digits ds) 2 = ds.
Proof.
  intros Hl Hd. pose proof (parse_digits_bound ds Hd) as Hb.
  rewrite Hl in Hb. change (10 ^ Z.of_nat 2)%Z with 100%Z in Hb.
  destruct (padded_ok_spec 2 (parse_digits ds)) as (Hl' & Hd' & Hp');
    [apply zeroFill_2; lia|].
  apply parse_digits_inj; congruence.
Qed.

Lemma read_exact_split (k : nat) (s ds rest : jsstring) :
  read_exact k s = Some (ds, rest) ->
  s = ds ++ rest /\ length ds = k /\ all_digits ds = true.
Proof.
  unfold read_exact.
  destruct (length (take k s) =? k) eqn:Hl; [|discriminate].
  destruct (all_digits (take k s)) eqn:Hd; [|discriminate].
  intros [= <- <-]. apply Nat.eqb_eq in Hl.
  split; [symmetry; apply take_drop | auto].
Qed.

Lemma count_tokens_cons (p : token -> bool) (t : token) (ts : list token) :
  count_tokens p (t :: ts)
  = (if p t then S (count_tokens p ts) else count_tokens p ts).
Proof. unfold count_tokens. simpl. destruct (p t); reflexivity. Qed.

(** Tokens that do not name a field leave the field as it was read. *)
Lemma parse_tokens_frame (ts : list token) (s : jsstring) (a a' : Fields) :
  parse_tokens ts s a = Some a' ->
  (count_tokens names_year ts = 0 -> f_year a' = f_year a) /\
  (count_tokens names_month ts = 0 -> f_month a' = f_month a) /\
  (count_tokens names_day ts = 0 -> f_day a' = f_day a).
Proof.
  revert s a. induction ts as [|t ts IH]; intros s a; simpl.
  - destruct s; [intros [= <-]; auto | discriminate].
  - destruct (parse_token t s a) as [[rest a1]|] eqn:Et; [|discriminate].
    intros H. destruct (IH _ _ H) as (Hy & Hm & Hd).
    rewrite !count_tokens_cons.
    destruct t; simpl in Et |- *;
      repeat match type of Et with
        | context [read_exact ?k ?x] => destruct (read_exact k x) as [[? ?]|]
        | context [read_1to2 ?x] => destruct (read_1to2 x) as [[? ?]|]
        | context [match ?x with [] => _ | _ :: _ => _ end] => destruct x
        | context [if ?b then _ else _] => destruct b
        end;
      simpl in Et; try discriminate; injection Et as <- <-;
      (split; [|split]); intros E; try discriminate; auto.
Qed.

Lemma resolve_fields_agree (today : CalendarDate) (a : Fields) (d : CalendarDate) :
  resolve_fields today a = Some d ->
  (forall y, f_year a = Some y -> year d = y) /\
  (forall m, f_month a = Some m -> month d = m) /\
  (forall x, f_day a = Some x -> day d = x).
Proof.
  unfold resolve_fields.
  destruct (f_year a), (f_month a), (f_day a); intros [= <-]; simpl;
    repeat split; intros ? [= <-]; reflexivity.
Qed.

Lemma rem_pivot (n : Z) :
  (0 <= n <= 99)%Z -> Z.rem (parseTwoDigitYear n) 100 = n.
Proof.
  intros H. unfold parseTwoDigitYear.
  destruct (68 <? n)%Z; rewrite Z.rem_mod_nonneg by lia;
    Z.div_mod_to_equations; lia.
Qed.

(** A text that a format of padded tokens reads, each field named at
    most once, is the rendering of the date read. *)
Lemma parse_tokens_render_back (ts : list token) (m : jsstring)
    (a a' : Fields) (d : CalendarDate) :
  forallb padded_token ts = true ->
  count_tokens names_year ts <= 1 ->
  count_tokens names_month ts <= 1 ->
  count_tokens names_day ts <= 1 ->
  parse_tokens ts m a = Some a' ->
  (forall y, f_year a' = Some y -> year d = y) ->
  (forall x, f_month a' = Some x -> month d = x) ->
  (forall x, f_day a' = Some x -> day d = x) ->
  render_tokens d ts = m /\ dollar_free m = true.
Proof.
  revert m a. induction ts as [|t ts IH];
    intros m a Hp Hy Hm Hd Hparse Ay Am Ad.
  - simpl in Hparse. destruct m; [auto | discriminate].
  - simpl in Hp. apply andb_true_iff in Hp as [Ht Hp].
    rewrite count_tokens_cons in Hy, Hm, Hd.
    cbn [parse_tokens] in Hparse.
    destruct (parse_token t m a) as [[rest a1]|] eqn:Et; [|discriminate].
    destruct (parse_tokens_frame _ _ _ _ Hparse) as (Fy & Fm & Fd).
    cbn [render_tokens flat_map]. fold (render_tokens d ts).
    destruct t; try discriminate; simpl in Et, Hy, Hm, Hd.
    + destruct (read_exact 4 m) as [[ds rest']|] eqn:Er; [|discriminate].
      simpl in Et. injection Et as <- <-.
      apply read_exact_split in Er as (-> & Hl & Hg).
      destruct (IH rest' (set_year (parse_digits ds) a)) as [-> Hf];
        try assumption; try lia.
      cbn [render_token]. rewrite (Ay (parse_digits ds)) by (rewrite Fy; [reflexivity | lia]).
      rewrite zeroFill_parse_4 by assumption.
      rewrite dollar_free_app, Hf, digit_not_dollar by assumption. auto.
    + destruct (read_exact 2 m) as [[ds rest']|] eqn:Er; [|discriminate].
      simpl in Et. injection Et as <- <-.
      apply read_exact_split in Er as (-> & Hl & Hg).
      destruct (IH rest' (set_year (parseTwoDigitYear (parse_digits ds)) a))
        as [-> Hf]; try assumption; try lia.
      cbn [render_token].
      rewrite (Ay (parseTwoDigitYear (parse_digits ds)))
        by (rewrite Fy; [reflexivity | lia]).
      pose proof (parse_digits_bound ds Hg) as Hb. rewrite Hl in Hb.
      change (10 ^ Z.of_nat 2)%Z with 100%Z in Hb.
      rewrite rem_pivot by lia. rewrite zeroFill_parse_2 by assumption.
      rewrite dollar_free_app, Hf, digit_not_dollar by assumption. auto.
    + destruct (read_exact 2 m) as [[ds rest']|] eqn:Er; [|discriminate].
      simpl in Et. injection Et as <- <-.
      apply read_exact_split in Er as (-> & Hl & Hg).
      destruct (IH rest' (set_month (parse_digits ds) a)) as [-> Hf];
        try assumption; try lia.
      cbn [render_token]. rewrite (Am (parse_digits ds)) by (rewrite Fm; [reflexivity | lia]).
      rewrite zeroFill_parse_2 by assumption.
      rewrite dollar_free_app, Hf, digit_not_dollar by assumption. auto.
    + destruct (read_exact 2 m) as [[ds rest']|] eqn:Er; [|discriminate].
      simpl in Et. injection Et as <- <-.
      apply read_exact_split in Er as (-> & Hl & Hg).
      destruct (IH rest' (set_day (parse_digits ds) a)) as [-> Hf];
        try assumption; try lia.
      cbn [render_token]. rewrite (Ad (parse_digits ds)) by (rewrite Fd; [reflexivity | lia]).
      rewrite zeroFill_parse_2 by assumption.
      rewrite dollar_free_app, Hf, digit_not_dollar by assumption. auto.
    + destruct m as [|x rest']; [discriminate|].
      destruct (Ascii.eqb_spec x c) as [->|]; [|discriminate].
      injection Et as <- <-.
      destruct (IH rest' a) as [-> Hf]; try assumption.
      cbn [render_token app dollar_free forallb].
      fold (dollar_free rest'). rewrite Hf.
      simpl in Ht. rewrite (separator_not_dollar c Ht). auto.
Qed.

Lemma extract_first_match (today : CalendarDate) (st : DateMirrorSettings)
    (filename : jsstring) (d : CalendarDate) :
  extractDateFromFilename today st filename = Ok (Some d) ->
  exists i n a,
    regex_exec (compiled (dateFormat st)) filename = Some (i, n) /\
    parse_tokens (tokenize (dateFormat st)) (take n (drop i filename)) no_fields
      = Some a /\
    resolve_fields today a = Some d.
Proof.
  rewrite extractDateFromFilename_eq. unfold regex_match0, moment_strict.
  destruct (regex_exec _ _) as [[i n]|]; [|discriminate].
  destruct (parse_tokens _ _ _) as [a|] eqn:Ep; [|discriminate].
  destruct (resolve_fields today a) as [d'|] eqn:Er; [|discriminate].
  destruct (valid_date d'); [|discriminate].
  intros [= <-]. exists i, n, a. auto.
Qed.

(** The first match from which a date is extracted, in a format of
    padded tokens that names each field at most once, is the rendering
    of that date. *)
Lemma extracted_date_renders_match (today : CalendarDate)
    (st : DateMirrorSettings) (filename : jsstring) (d : CalendarDate) :
  padded_once (dateFormat st) = true ->
  extractDateFromFilename today st filename = Ok (Some d) ->
  exists i n,
    regex_exec (compiled (dateFormat st)) filename = Some (i, n) /\
    moment_format (MValid d) (dateFormat st) = take n (drop i filename) /\
    dollar_free (take n (drop i filename)) = true.
Proof.
  intros Hp He. unfold padded_once in Hp.
  apply andb_true_iff in Hp as [Hp Hd]. apply andb_true_iff in Hp as [Hp Hm].
  apply andb_true_iff in Hp as [Hp Hy].
  apply Nat.leb_le in Hy, Hm, Hd.
  destruct (extract_first_match _ _ _ _ He) as (i & n & a & Hr & Hparse & Hres).
  destruct (resolve_fields_agree _ _ _ Hres) as (Ay & Am & Ad).
  destruct (parse_tokens_render_back _ _ _ _ d Hp Hy Hm Hd Hparse Ay Am Ad)
    as [Hrender Hfree].
  exists i, n. auto.
Qed.





(** ** A stored value in the configured format *)

Lemma renderable_expressed (d : CalendarDate) (format : jsstring) :
  renderable d format = true -> expressed d (tokenize format).
Proof.
  unfold renderable. intros H.
  apply andb_true_iff in H as [H Hw]. apply andb_true_iff in H as [H H2].
  apply andb_true_iff in H as [Hv H1].
  split; [assumption | lia |].
  intros E. rewrite E in Hw. simpl in Hw.
  apply andb_true_iff in Hw as [? ?]. lia.
Qed.

Lemma padded_closed (ts : list token) :
  forallb padded_token ts = true -> unpadded_closed ts = true.
Proof.
  induction ts as [|t ts IH]; [reflexivity|]. simpl. intros H.
  apply andb_true_iff in H as [Ht Hts]. rewrite IH by assumption.
  destruct t; try discriminate; reflexivity.
Qed.

Lemma padded_atoms (ts : list token) :
  forallb padded_token ts = true ->
  forallb plain_atom (map atom_of_token ts) = true /\
  forallb fixed_atom (map atom_of_token ts) = true.
Proof.
  induction ts as [|t ts IH]; [auto|].
  simpl. intros H. apply andb_true_iff in H as [Ht Hts].
  destruct (IH Hts) as [-> ->].
  destruct t; try discriminate; simpl; auto.
  rewrite (separator_not_digit c (name_separator_separator c Ht)). auto.
Qed.

Lemma render_dollar_free_padded (d : CalendarDate) (ts : list token) :
  expressed d ts -> forallb padded_token ts = true ->
  dollar_free (render_tokens d ts) = true.
Proof.
  induction ts as [|t ts IH]; intros He Hf; [reflexivity|].
  simpl in Hf. apply andb_true_iff in Hf as [Ht Hts].
  cbn [render_tokens flat_map]. rewrite dollar_free_app.
  fold (render_tokens d ts). rewrite IH by eauto using expressed_tail.
  rewrite andb_true_r.
  pose proof (render_token_digits d t ts He) as H.
  destruct t; try discriminate; try (apply digit_not_dollar, H).
  simpl. rewrite (separator_not_dollar c Ht). reflexivity.
Qed.

(** Replacing the first match by a rendering in a format of padded
    tokens leaves the first match where it was, and the rendering in
    it. *)
Lemma replace_keeps_first_match_padded (d : CalendarDate)
    (format b : jsstring) (i n : nat) :
  forallb padded_token (tokenize format) = true ->
  expressed d (tokenize format) ->
  regex_exec (compiled format) b = Some (i, n) ->
  let s := render_tokens d (tokenize format) in
  let b' := take i b ++ s ++ drop (i + n) b in
  length s = n /\
  regex_exec (compiled format) b' = Some (i, n) /\
  take n (drop i b') = s.
Proof.
  intros Hp He Hb s b'.
  destruct (padded_atoms _ Hp) as [Hplain Hfixed].
  destruct (regex_exec_sound _ _ _ _ Hb) as (Hl & Hm & _).
  assert (Hs : matches (compiled format) s).
  { apply matches_by_exec.
    pose proof (match_here_render d (tokenize format) [] He
                  (padded_closed _ Hp) eq_refl) as H.
    rewrite app_nil_r in H. exact H. }
  pose proof (matches_same_class _ _ _ Hfixed Hm Hs) as Hc.
  assert (Hn : length s = n).
  { rewrite <- (Forall2_length _ _ _ Hc), length_take, length_drop. lia. }
  assert (Hb' : Forall2 same_class b b').
  { rewrite <- (take_drop i b) at 1. rewrite <- (take_drop n (drop i b)) at 1.
    rewrite drop_drop. unfold b'.
    apply Forall2_app; [apply same_class_refl|].
    apply Forall2_app; [exact Hc | apply same_class_refl]. }
  split; [exact Hn|]. split.
  - rewrite <- (regex_exec_blind _ b b') by assumption. exact Hb.
  - unfold b'. rewrite drop_app_length' by (rewrite length_take; lia).
    rewrite take_app_length' by (symmetry; assumption). reflexivity.
Qed.

(** X17. Let the format consist of padded tokens (YYYY, YY, MM, DD) and
    of separators other than the slash and the dollar sign, and name
    each field at most once; let the value stored under dateProperty be
    the value that the formatter gives for the date that the host reads
    from it, an existing date with a year of at most four digits (inside
    1969-2068 when the format has the two-digit year).  Then, when the
    frontmatter-changed handler renames the file, the rename handler
    applied to the renamed file makes no assignment and leaves the
    frontmatter as it was, and the frontmatter-changed handler requests
    no further rename. *)
Theorem X17_no_oscillation_in_configured_format (today : CalendarDate)
    (moment : JsValue -> Moment) (st : DateMirrorSettings) (file : TFile)
    (frontmatter : Frontmatter) (d : CalendarDate) (newName : jsstring) :
  padded_once (dateFormat st) = true ->
  renderable d (dateFormat st) = true ->
  fm_get frontmatter (dateProperty st) = formatFrontmatterDate st d ->
  moment (formatFrontmatterDate st d) = MValid d ->
  updateFilename_newName moment st (Some frontmatter) file = Ok (Some newName) ->
  updateFrontmatter_write today st (renamed file newName) frontmatter = Ok None /\
  updateFrontmatter today st (renamed file newName) frontmatter = Ok frontmatter /\
  updateFilename moment st (Some frontmatter) (renamed file newName) = Ok None.
Proof.
  intros Hpo Hr Hv Hm Hren.
  pose proof (renderable_expressed _ _ Hr) as Hex.
  assert (Hp : forallb padded_token (tokenize (dateFormat st)) = true).
  { unfold padded_once in Hpo. apply andb_true_iff in Hpo as [Hpo _].
    apply andb_true_iff in Hpo as [Hpo _].
    apply andb_true_iff in Hpo as [Hpo _]. exact Hpo. }
  pose proof (render_dollar_free_padded d _ Hex Hp) as Hdf.
  unfold updateFilename_newName in Hren. rewrite Hv, Hm in Hren.
  destruct (js_truthy (formatFrontmatterDate st d)) eqn:Htruthy;
    [|discriminate].
  cbn [moment_format] in Hren.
  rewrite replaceDateInFilename_plain in Hren by assumption.
  cbn [and_then] in Hren.
  destruct (regex_exec (compiled (dateFormat st)) (basename file))
    as [[i n]|] eqn:Hb.
  2:{ rewrite bool_decide_eq_true_2 in Hren by reflexivity. discriminate. }
  destruct (bool_decide _) in Hren; [discriminate|].
  injection Hren as <-.
  destruct (replace_keeps_first_match_padded d _ _ i n Hp Hex Hb)
    as (Hn & Hb' & Hs).
  set (s := render_tokens d (tokenize (dateFormat st))) in *.
  set (b' := take i (basename file) ++ s ++ drop (i + n) (basename file)) in *.
  assert (Hw : updateFrontmatter_write today st (renamed file b') frontmatter
               = Ok None).
  { unfold updateFrontmatter_write. cbn [renamed basename].
    destruct (extractDateFromFilename today st b') as [[d'|]|] eqn:Hx;
      cbn [and_then]; [|reflexivity|].
    - destruct (extracted_date_renders_match _ _ _ _ Hpo Hx)
        as (i' & n' & Hr' & Hrender & _).
      rewrite Hb' in Hr'. injection Hr' as <- <-. rewrite Hs in Hrender.
      unfold frontmatter_write.
      assert (E : formatFrontmatterDate st d' = formatFrontmatterDate st d).
      { unfold formatFrontmatterDate. rewrite Hrender. reflexivity. }
      rewrite E, Hv. unfold js_strict_eq.
      rewrite bool_decide_eq_true_2 by reflexivity. reflexivity.
    - rewrite extractDateFromFilename_eq in Hx. discriminate. }
  split; [exact Hw|].
  split; [unfold updateFrontmatter; rewrite Hw; reflexivity|].
  unfold updateFilename, updateFilename_newName. rewrite Hv, Hm, Htruthy.
  cbn [moment_format renamed basename].
  rewrite replaceDateInFilename_plain by assumption. fold s. rewrite Hb'.
  cbn [and_then].
  assert (Hfix : take i b' ++ s ++ drop (i + n) b' = b').
  { rewrite <- Hs at 1. rewrite <- drop_drop, !take_drop. reflexivity. }
  rewrite Hfix, bool_decide_eq_true_2 by reflexivity. reflexivity.
Qed.

Lemma X17_no_oscillation_in_configured_format_witness :
  let st := mkSettings (str "date") (str "YYYY-MM-DD") in
  let file := mkFile (Some (str "notes")) (str "Meeting 2023-05-01 notes")
                (str "md") in
  let frontmatter : Frontmatter := {[ str "date" := JStr (str "2024-11-30") ]} in
  let d := mkDate 2024 11 30 in
  padded_once (dateFormat st) = true /\
  renderable d (dateFormat st) = true /\
  fm_get frontmatter (dateProperty st) = formatFrontmatterDate st d /\
  moment_iso (formatFrontmatterDate st d) = MValid d /\
  updateFilename_newName moment_iso st (Some frontmatter) file
    = Ok (Some (str "Meeting 2024-11-30 notes")) /\
  updateFrontmatter a_day st (renamed file (str "Meeting 2024-11-30 notes"))
    frontmatter = Ok frontmatter.
Proof.
  intros st file frontmatter d.
  split; [reflexivity|]. split; [reflexivity|]. split; [reflexivity|].
  split; [reflexivity|]. split; [reflexivity|].
  exact (proj1 (proj2
    (X17_no_oscillation_in_configured_format a_day moment_iso st file
       frontmatter d (str "Meeting 2024-11-30 notes")
       eq_refl eq_refl eq_refl eq_refl eq_refl))).
Defined.

(** ** The settings tab *)

Lemma code_unit_leb_total (a b : jsstring) :
  code_unit_leb a b = true \/ code_unit_leb b a = true.
Proof.
  revert b. induction a as [|x a IH]; intros [|y b]; simpl; auto.
  destruct (N.ltb_spec (N_of_ascii x) (N_of_ascii y)); [auto|].
  destruct (N.ltb_spec (N_of_ascii y) (N_of_ascii x)); [auto|].
  assert (E : N_of_ascii x = N_of_ascii y) by lia.
  rewrite E, N.eqb_refl. apply IH.
Qed.

Lemma code_unit_leb_trans (a b c : jsstring) :
  code_unit_leb a b = true -> code_unit_leb b c = true ->
  code_unit_leb a c = true.
Proof.
  revert b c. induction a as [|x a IH]; intros [|y b] [|z c]; simpl; auto;
    try discriminate.
  destruct (N.ltb_spec (N_of_ascii x) (N_of_ascii y)) as [Hxy|Hxy];
    destruct (N.ltb_spec (N_of_ascii y) (N_of_ascii z)) as [Hyz|Hyz];
    destruct (N.ltb_spec (N_of_ascii x) (N_of_ascii z)) as [Hxz|Hxz];
    auto;
    destruct (N.eqb_spec (N_of_ascii x) (N_of_ascii y));
    destruct (N.eqb_spec (N_of_ascii y) (N_of_ascii z));
    destruct (N.eqb_spec (N_of_ascii x) (N_of_ascii z));
    try discriminate; try lia; eauto.
Qed.

#[local] Instance code_unit_le_total : Total code_unit_le.
Proof. intros a b. apply code_unit_leb_total. Qed.

#[local] Instance code_unit_le_transitive : Transitive code_unit_le.
Proof. intros a b c. apply code_unit_leb_trans. Qed.

Lemma NoDup_filter_fst {A B} (f : A * B -> bool) (l : list (A * B)) :
  NoDup (map fst l) -> NoDup (map fst (List.filter f l)).
Proof.
  induction l as [|x l IH]; simpl; [auto|].
  rewrite !NoDup_cons. intros [Hx Hl]. destruct (f x); simpl; [|auto].
  apply NoDup_cons. split; [|auto].
  intros H. apply Hx. apply list_elem_of_In in H. apply list_elem_of_In.
  apply in_map_iff in H as (y & Hy & Hin). apply in_map_iff.
  exists y. split; [exact Hy|]. apply filter_In in Hin. tauto.
Qed.

Lemma fmap_fst_map {A B} (l : list (A * B)) : l.*1 = map fst l.
Proof. induction l as [|x l IH]; [reflexivity|]. csimpl. rewrite IH. reflexivity. Qed.

Lemma selected_keys (cachedProperties : gmap jsstring CachedProperty)
    (key : jsstring) :
  key ∈ getAllFrontmatterProperties cachedProperties
  <-> date_property cachedProperties key.
Proof.
  unfold getAllFrontmatterProperties, date_property.
  rewrite merge_sort_Permutation, list_elem_of_In, in_map_iff. split.
  - intros ([k v] & <- & Hin). apply filter_In in Hin as [Hin Hf].
    apply list_elem_of_In, elem_of_map_to_list in Hin.
    apply andb_true_iff in Hf as [Hw Ho].
    apply bool_decide_eq_true in Hw. apply Z.ltb_lt in Ho.
    exists v. auto.
  - intros (v & Hk & Hw & Ho). exists (key, v). split; [reflexivity|].
    apply filter_In. split.
    + apply list_elem_of_In, elem_of_map_to_list, Hk.
    + apply andb_true_iff. split;
        [apply bool_decide_eq_true, Hw | apply Z.ltb_lt, Ho].
Qed.

(** X14. getAllFrontmatterProperties returns exactly the keys of the
    host's table whose entry has the widget "date" and occurs at least
    once, each key once, in ascending order of code units. *)
Theorem X14_offered_properties (cachedProperties : gmap jsstring CachedProperty) :
  let props := getAllFrontmatterProperties cachedProperties in
  (forall key, key ∈ props <-> date_property cachedProperties key) /\
  NoDup props /\
  StronglySorted code_unit_le props.
Proof.
  intros props. split; [|split].
  - apply selected_keys.
  - unfold props, getAllFrontmatterProperties.
    rewrite merge_sort_Permutation. apply NoDup_filter_fst.
    rewrite <- fmap_fst_map. apply NoDup_fst_map_to_list.
  - apply StronglySorted_merge_sort; apply _.
Qed.

Lemma X14_offered_properties_witness :
  let cached : gmap jsstring CachedProperty :=
    {[ str "due" := mkCached (str "due") (str "date") 3;
       str "created" := mkCached (str "created") (str "date") 1;
       str "old" := mkCached (str "old") (str "date") 0;
       str "tags" := mkCached (str "tags") (str "tags") 12 ]} in
  date_property cached (str "due") /\
  str "due" ∈ getAllFrontmatterProperties cached /\
  getAllFrontmatterProperties cached = [str "created"; str "due"].
Proof.
  intros cached.
  assert (H : date_property cached (str "due")).
  { exists (mkCached (str "due") (str "date") 3).
    split; [reflexivity|]. split; [reflexivity | reflexivity]. }
  split; [exact H|]. split; [|reflexivity].
  exact (proj2 (proj1 (X14_offered_properties cached) (str "due")) H).
Defined.




(** ** Unloading *)

Lemma clear_all (timers : list nat) (pending : gset nat) (t : nat) :
  t ∈ foldl clearTimeout pending timers <-> t ∈ pending /\ t ∉ timers.
Proof.
  revert pending. induction timers as [|x l IH]; intros pending; simpl.
  - rewrite elem_of_nil. tauto.
  - rewrite IH. unfold clearTimeout.
    rewrite elem_of_difference, elem_of_singleton, elem_of_cons. tauto.
Qed.

(** X16. onunload cancels every timer that debounceTimers holds and no
    other: a timer is still pending afterwards exactly when it was
    pending before and is not a value of debounceTimers. *)
Theorem X16_unload_clears_debounce_timers (debounceTimers : gmap jsstring nat)
    (pending : gset nat) (t : nat) :
  t ∈ onunload debounceTimers pending <->
  t ∈ pending /\ forall key, debounceTimers !! key <> Some t.
Proof.
  unfold onunload. rewrite clear_all, list_elem_of_In, in_map_iff. split.
  - intros [Hp Hn]. split; [exact Hp|]. intros key Hk. apply Hn.
    exists (key, t). split; [reflexivity|].
    apply list_elem_of_In, elem_of_map_to_list, Hk.
  - intros [Hp Hn]. split; [exact Hp|]. intros ([k v] & E & Hin).
    simpl in E. subst v. apply list_elem_of_In, elem_of_map_to_list in Hin.
    exact (Hn k Hin).
Qed.

Lemma X16_unload_clears_debounce_timers_witness :
  let timers : gmap jsstring nat := {[ str "a.md" := 7 ]} in
  let pending : gset nat := {[ 3; 7 ]} in
  (3 ∈ pending /\ forall key, timers !! key <> Some 3) /\
  3 ∈ onunload timers pending.
Proof.
  intros timers pending.
  assert (H : 3 ∈ pending /\ forall key, timers !! key <> Some 3).
  { split; [unfold pending; set_solver|].
    intros key Hk. unfold timers in Hk.
    apply lookup_singleton_Some in Hk as [_ Hk]. discriminate. }
  split; [exact H|].
  exact (proj2 (X16_unload_clears_debounce_timers timers pending 3) H).
Defined.
